(** * StreamableMCPClient: a shallow embedding of src/client.ts

    The development follows the TypeScript class [StreamableMCPClient]
    method by method.  JavaScript values that reach the client come out of
    [JSON.parse], so they are modelled by a JSON syntax tree; [undefined] is
    the [None] of [option JSON].  Effects (the POSTs issued through [fetch],
    the timers armed by [delay], the chunks handed to [onData], the private
    counter [requestId]) are threaded through a state-and-exception monad.
    Console output has no influence on control flow and is left out of the
    trace.  The network is a script of fetch outcomes, one per POST, and
    [JSON.parse] is a parameter, so every statement holds for all servers
    and for the engine's parser.  Numbers are the integer-valued ones.

    [loadConfig] of src/config.ts and the class [InteractiveMCPDemo] of
    src/index.ts are embedded in the same way: the model behind
    [generateContent] is a script like the network, one outcome per call,
    and the lines the user types are a list. *)

From Stdlib Require Import ZArith List String Ascii Bool Arith Lia.
From Stdlib Require Import DecimalString.
Import ListNotations.

#[local] Set Warnings "-register-all".

Open Scope list_scope.
Open Scope string_scope.

(** ** JavaScript runtime values and primitives *)

Module JS.

(** Values produced by [JSON.parse].  Numbers are the integer-valued ones;
    an object lists its own properties in the order [Object.keys]
    enumerates them. *)
Inductive JSON : Type :=
| JNull
| JBool (b : bool)
| JNum (n : Z)
| JStr (s : string)
| JArr (items : list JSON)
| JObj (fields : list (string * JSON)).

(** A JavaScript value is a JSON value or [undefined]. *)
Definition Value : Type := option JSON.
Definition undefined : Value := None.

Definition newline : string := String (ascii_of_nat 10) EmptyString.

(** Number-to-string conversion of an integer-valued number (all digits are
    printed, as JavaScript does below 10^21 in magnitude). *)
Definition Z_to_string (n : Z) : string :=
  NilZero.string_of_int (Z.to_int n).

(** [Array.prototype.join] on strings. *)
Fixpoint join (sep : string) (l : list string) : string :=
  match l with
  | [] => ""
  | [x] => x
  | x :: rest => x ++ sep ++ join sep rest
  end.

(** ToBoolean. *)
Definition truthy (v : Value) : bool :=
  match v with
  | None => false
  | Some JNull => false
  | Some (JBool b) => b
  | Some (JNum n) => negb (Z.eqb n 0)
  | Some (JStr s) => negb (String.eqb s "")
  | Some (JArr _) => true
  | Some (JObj _) => true
  end.

(** [Array.isArray]. *)
Definition isArray (v : Value) : bool :=
  match v with
  | Some (JArr _) => true
  | _ => false
  end.

(** Own-property lookup in a parsed object. *)
Fixpoint lookup (key : string) (fields : list (string * JSON)) : Value :=
  match fields with
  | [] => None
  | (k, v) :: rest => if String.eqb key k then Some v else lookup key rest
  end.

(** ToString, as used by template literals.  Array elements that are
    [null] print as the empty string, as [Array.prototype.join] does. *)
Fixpoint toString (v : JSON) : string :=
  match v with
  | JNull => "null"
  | JBool true => "true"
  | JBool false => "false"
  | JNum n => Z_to_string n
  | JStr s => s
  | JArr items =>
      join "," (map (fun x => match x with
                              | JNull => ""
                              | _ => toString x
                              end) items)
  | JObj _ => "[object Object]"
  end.

Definition toStringV (v : Value) : string :=
  match v with
  | None => "undefined"
  | Some j => toString j
  end.

(** [value === "literal"]. *)
Definition strictEqStr (v : Value) (lit : string) : bool :=
  match v with
  | Some (JStr s) => String.eqb s lit
  | _ => false
  end.

(** [String.prototype.slice(start, end)] for [0 <= start <= end]. *)
Definition slice (s : string) (start stop : nat) : string :=
  substring start (stop - start) s.

(** *** JSON.stringify(value, null, 2) *)

Definition hexDigit (n : nat) : ascii :=
  ascii_of_nat (if n <? 10 then 48 + n else 87 + n)%nat.

(** QuoteJSONString on one code unit. *)
Definition escapeChar (c : ascii) : string :=
  let n := nat_of_ascii c in
  if (n =? 34)%nat then "\" ++ String c ""
  else if (n =? 92)%nat then "\\"
  else if (n =? 8)%nat then "\b"
  else if (n =? 9)%nat then "\t"
  else if (n =? 10)%nat then "\n"
  else if (n =? 12)%nat then "\f"
  else if (n =? 13)%nat then "\r"
  else if (n <? 32)%nat then
    "\u00" ++ String (hexDigit (n / 16)) (String (hexDigit (n mod 16)) "")
  else String c "".

Fixpoint escape (s : string) : string :=
  match s with
  | EmptyString => ""
  | String c rest => escapeChar c ++ escape rest
  end.

Definition quote (s : string) : string :=
  String (ascii_of_nat 34) (escape s) ++ String (ascii_of_nat 34) "".

(** SerializeJSONProperty with gap of two spaces; [indent] is the current
    indentation. *)
Fixpoint stringifyAt (indent : string) (v : JSON) : string :=
  match v with
  | JNull => "null"
  | JBool true => "true"
  | JBool false => "false"
  | JNum n => Z_to_string n
  | JStr s => quote s
  | JArr items =>
      let inner := indent ++ "  " in
      match items with
      | [] => "[]"
      | _ :: _ =>
          "[" ++ newline ++ inner
              ++ join ("," ++ newline ++ inner) (map (stringifyAt inner) items)
              ++ newline ++ indent ++ "]"
      end
  | JObj fields =>
      let inner := indent ++ "  " in
      match fields with
      | [] => "{}"
      | _ :: _ =>
          "{" ++ newline ++ inner
              ++ join ("," ++ newline ++ inner)
                   (map (fun kv => quote (fst kv) ++ ": " ++ stringifyAt inner (snd kv))
                        fields)
              ++ newline ++ indent ++ "}"
      end
  end.

Definition stringifyPretty (v : JSON) : string := stringifyAt "" v.

End JS.
Import JS.


(** ** Errors, HTTP responses and the environment *)

(** A thrown JavaScript error: the fields the client inspects.  [response]
    is the status of an attached [error.response], when there is one. *)
Record JsError : Type := mkJsError {
  name : string;
  message : string;
  code : option string;
  response : option Z
}.

(** [new Error(msg)]. *)
Definition Error (msg : string) : JsError :=
  {| name := "Error"; message := msg; code := None; response := None |}.

(** The TypeError V8 raises on a property read from [null] or [undefined]. *)
Definition TypeErrorRead (what key : string) : JsError :=
  {| name := "TypeError";
     message := "Cannot read properties of " ++ what ++ " (reading '" ++ key ++ "')";
     code := None; response := None |}.

(** [error.message || error] inside a template literal: the message when it
    is non-empty, else [Error.prototype.toString], which is then the name. *)
Definition messageOrError (e : JsError) : string :=
  if String.eqb (message e) "" then name e else message e.

(** What reading a response body to its end gives. *)
Inductive Body : Type :=
| NullBody
| BodyText (text : string)
| BodyFails (e : JsError).

(** A node-fetch [Response]. *)
Record Response : Type := mkResponse {
  responseUrl : string;
  status : Z;
  statusText : string;
  body : Body
}.

(** [response.ok]. *)
Definition ok (r : Response) : bool :=
  (200 <=? status r)%Z && (status r <? 300)%Z.

(** One call of [fetch]: the promise resolves with a response, whatever its
    status, or rejects with an error. *)
Inductive FetchOutcome : Type :=
| Resolved (r : Response)
| Rejected (e : JsError).

(** The network, as a script: the outcome of the n-th POST issued. *)
Definition Network : Type := nat -> FetchOutcome.

(** [JSON.parse]: a value, or the message of the SyntaxError. *)
Inductive ParseResult : Type :=
| Parsed (v : JSON)
| SyntaxError (msg : string).

(** Observable effects, in program order. *)
Inductive Event : Type :=
| EvFetch (url : string) (payload : JSON)
| EvDelay (ms : Z)
| EvData (chunk : string).

(** ** The client object *)

(** Own properties of the [servers] object, in [Object.keys] order. *)
Definition Servers : Type := list (string * string).

Record Client : Type := mkClient {
  servers : Servers;
  requestId : Z;
  timeout : Z;
  maxRetries : Z
}.

Record Options : Type := mkOptions {
  opt_timeout : option Z;
  opt_maxRetries : option Z
}.

(** [x || d] on an optional number. *)
Definition orDefault (x : option Z) (d : Z) : Z :=
  match x with
  | Some n => if Z.eqb n 0 then d else n
  | None => d
  end.

Definition constructor (srv : Servers) (options : Options) : Client :=
  {| servers := srv;
     requestId := 1;
     timeout := orDefault (opt_timeout options) 30000;
     maxRetries := orDefault (opt_maxRetries options) 3 |}.

(** ** The effect monad *)

Record World : Type := mkWorld {
  this : Client;
  posts : nat;
  trace : list Event
}.

(** How a computation ends: it returns, it throws, it runs out of the fuel
    that bounds the two loops of the model (shown below never to happen), or
    it leaves the declared types ([streamText] handed an array or an object
    where a string is declared). *)
Inductive Outcome (A : Type) : Type :=
| Returned (a : A)
| Thrown (e : JsError)
| OutOfFuel
| Untyped.
Arguments Returned {A} a.
Arguments Thrown {A} e.
Arguments OutOfFuel {A}.
Arguments Untyped {A}.

Definition M (A : Type) : Type := World -> Outcome A * World.

Definition ret {A} (a : A) : M A := fun w => (Returned a, w).

Definition bind {A B} (m : M A) (k : A -> M B) : M B :=
  fun w =>
    match m w with
    | (Returned a, w') => k a w'
    | (Thrown e, w') => (Thrown e, w')
    | (OutOfFuel, w') => (OutOfFuel, w')
    | (Untyped, w') => (Untyped, w')
    end.

Definition throw {A} (e : JsError) : M A := fun w => (Thrown e, w).

Definition untyped {A} : M A := fun w => (Untyped, w).

Definition outOfFuel {A} : M A := fun w => (OutOfFuel, w).

(** [try { m } catch (e) { handler e }]. *)
Definition tryCatch {A} (m : M A) (handler : JsError -> M A) : M A :=
  fun w =>
    match m w with
    | (Thrown e, w') => handler e w'
    | r => r
    end.

Notation "x <- m ;; k" := (bind m (fun x => k))
  (at level 61, m at next level, right associativity).
Notation "m ;;; k" := (bind m (fun _ => k))
  (at level 61, right associativity).

Definition emit (e : Event) : M unit :=
  fun w => (Returned tt, {| this := this w; posts := posts w; trace := trace w ++ [e] |}).

Definition getThis : M Client := fun w => (Returned (this w), w).

(** [this.requestId++].  The counter is a JavaScript number: adding one is
    exact below 2^53 and leaves 2^53 unchanged (round to even). *)
Definition jsSucc (n : Z) : Z :=
  if (n <? 2 ^ 53)%Z then (n + 1)%Z else n.

Definition postIncrementRequestId : M Z :=
  fun w =>
    let c := this w in
    (Returned (requestId c),
     {| this := {| servers := servers c; requestId := jsSucc (requestId c);
                   timeout := timeout c; maxRetries := maxRetries c |};
        posts := posts w; trace := trace w |}).

(** Reading one of the properties the client reads ([error], [result],
    [tools], [content], [text], [type], [code], [message]) from a parsed
    value: none of them is inherited from a prototype, so objects answer with
    their own property, other values with [undefined], and [null] and
    [undefined] raise. *)
Definition getProp (v : Value) (key : string) : M Value :=
  match v with
  | None => throw (TypeErrorRead "undefined" key)
  | Some JNull => throw (TypeErrorRead "null" key)
  | Some (JObj fields) => ret (lookup key fields)
  | Some _ => ret undefined
  end.

(** Names every object literal inherits from [Object.prototype]. *)
Definition Object_prototype_names : list string :=
  [ "constructor"; "hasOwnProperty"; "isPrototypeOf"; "propertyIsEnumerable";
    "toLocaleString"; "toString"; "valueOf"; "__proto__";
    "__defineGetter__"; "__defineSetter__"; "__lookupGetter__";
    "__lookupSetter__" ].

(** [this.servers[serverName]]: an own property, a member inherited from
    [Object.prototype] (a function or object, hence truthy), or [undefined]. *)
Inductive ServerEntry : Type :=
| Own (url : string)
| Inherited
| Missing.

Fixpoint ownProperty (key : string) (srv : Servers) : option string :=
  match srv with
  | [] => None
  | (k, u) :: rest => if String.eqb key k then Some u else ownProperty key rest
  end.

Definition serversGet (srv : Servers) (serverName : string) : ServerEntry :=
  match ownProperty serverName srv with
  | Some u => Own u
  | None =>
      if existsb (String.eqb serverName) Object_prototype_names
      then Inherited else Missing
  end.

Definition entryTruthy (e : ServerEntry) : bool :=
  match e with
  | Own u => negb (String.eqb u "")
  | Inherited => true
  | Missing => false
  end.

(** How V8 prints a member of [Object.prototype] in a template literal or
    as the argument of [fetch]: a native function by its name, the
    prototype object itself for [__proto__]. *)
Definition inheritedToString (key : string) : string :=
  if String.eqb key "__proto__" then "[object Object]"
  else "function " ++ (if String.eqb key "constructor" then "Object" else key)
         ++ "() { [native code] }".

(** The string [this.servers[serverName]] stands for where the client uses
    it, as the URL given to [fetch] and inside a message. *)
Definition entryString (serverName : string) (e : ServerEntry) : string :=
  match e with
  | Own u => u
  | Inherited => inheritedToString serverName
  | Missing => "undefined"
  end.

(** [Object.keys(this.servers)]. *)
Definition Object_keys (srv : Servers) : list string := map fst srv.

Section ClientMethods.

(** The environment: the network script and the engine's [JSON.parse]. *)
Variable net : Network.
Variable JSON_parse : string -> ParseResult.

(** One POST through node-fetch. *)
Definition fetch (url : string) (payload : JSON) : M Response :=
  fun w =>
    let w' := {| this := this w; posts := S (posts w);
                 trace := trace w ++ [EvFetch url payload] |} in
    match net (posts w) with
    | Resolved r => (Returned r, w')
    | Rejected e => (Thrown e, w')
    end.

Definition delay (ms : Z) : M unit := emit (EvDelay ms).

(** The consumer callback: the chunk is recorded. *)
Definition onData (chunk : string) : M unit := emit (EvData chunk).

Definition isRetryableError (error : JsError) : bool :=
  String.eqb (name error) "AbortError"
  || match code error with
     | Some c => String.eqb c "ECONNRESET"
     | None => false
     end
  || match code error with
     | Some c => String.eqb c "ETIMEDOUT"
     | None => false
     end
  || match response error with
     | Some st => (500 <=? st)%Z
     | None => false
     end.

(** [makeRequest]; every call of the source body takes one unit of fuel. *)
Fixpoint makeRequestFuel (fuel : nat) (url : string) (payload : JSON)
    (retryCount : Z) : M Response :=
  match fuel with
  | O => outOfFuel
  | S fuel' =>
      tryCatch
        (response <- fetch url payload ;;
         ret response)
        (fun error =>
           c <- getThis ;;
           if (retryCount <? maxRetries c)%Z && isRetryableError error then
             delay (2 ^ retryCount * 1000)%Z ;;;
             makeRequestFuel fuel' url payload (retryCount + 1)%Z
           else throw error)
  end.

(** [makeRequest], with the fuel its retry budget calls for. *)
Definition makeRequest (url : string) (payload : JSON) (retryCount : Z)
    : M Response :=
  c <- getThis ;;
  makeRequestFuel (S (Z.to_nat (maxRetries c - retryCount))) url payload retryCount.

Definition validateServerName (serverName : string) : M unit :=
  c <- getThis ;;
  if negb (entryTruthy (serversGet (servers c) serverName)) then
    throw (Error ("Server '" ++ serverName ++ "' not found. Available servers: "
                    ++ join ", " (Object_keys (servers c))))
  else ret tt.

(** [const serverUrl = this.servers[serverName]], as the string it is used
    for. *)
Definition readServerUrl (serverName : string) : M string :=
  c <- getThis ;;
  ret (entryString serverName (serversGet (servers c) serverName)).

(** [response.text()]. *)
Definition responseText (r : Response) : M string :=
  match body r with
  | NullBody => ret ""
  | BodyText t => ret t
  | BodyFails e => throw e
  end.

(** [response.json()]; node-fetch wraps the SyntaxError in a FetchError. *)
Definition responseJson (r : Response) : M JSON :=
  t <- responseText r ;;
  match JSON_parse t with
  | Parsed v => ret v
  | SyntaxError msg =>
      throw {| name := "FetchError";
               message := "invalid json response body at " ++ responseUrl r
                            ++ " reason: " ++ msg;
               code := None; response := None |}
  end.

Definition listTools (serverName : string) : M JSON :=
  validateServerName serverName ;;;
  serverUrl <- readServerUrl serverName ;;
  tryCatch
    (id <- postIncrementRequestId ;;
     let payload := JObj [ ("jsonrpc", JStr "2.0"); ("id", JNum id);
                           ("method", JStr "tools/list"); ("params", JObj []) ] in
     response <- makeRequest serverUrl payload 0 ;;
     (if negb (ok response) then
        b <- responseText response ;;
        throw (Error ("HTTP " ++ Z_to_string (status response) ++ ": "
                        ++ statusText response ++ ". Body: " ++ b))
      else ret tt) ;;;
     result <- responseJson response ;;
     err <- getProp (Some result) "error" ;;
     (if truthy err then
        ecode <- getProp err "code" ;;
        emsg <- getProp err "message" ;;
        throw (Error ("JSON-RPC Error (" ++ toStringV ecode ++ "): "
                        ++ toStringV emsg))
      else ret tt) ;;;
     res <- getProp (Some result) "result" ;;
     tools <- match res with
              | None => ret undefined
              | Some JNull => ret undefined
              | Some _ => getProp res "tools"
              end ;;
     ret (match tools with
          | Some t => if truthy tools then t else JArr []
          | None => JArr []
          end))
    (fun error =>
       throw (Error ("Failed to fetch tools from " ++ serverName ++ " ("
                       ++ serverUrl ++ "): " ++ messageOrError error))).

(** The loop of [streamText]; every iteration takes one unit of fuel. *)
Fixpoint streamTextLoop (fuel : nat) (text : string) (chunkSize i : nat)
    : M unit :=
  if (i <? String.length text)%nat then
    match fuel with
    | O => outOfFuel
    | S fuel' =>
        let chunk := slice text i (i + chunkSize) in
        onData chunk ;;;
        delay 10 ;;;
        streamTextLoop fuel' text chunkSize (i + chunkSize)
    end
  else ret tt.

Definition streamTextWith (text : string) (chunkSize : nat) : M unit :=
  streamTextLoop (String.length text) text chunkSize 0.

(** [streamText(text, onData)] with the default [chunkSize = 50]. *)
Definition streamText (text : string) : M unit := streamTextWith text 50.

(** [streamText] applied to a parsed value.  A number or a boolean has no
    [length], so the loop test fails at once; [null] and [undefined] raise on
    the read of [length]; an array or an object falls outside the declared
    parameter type [string]. *)
Definition streamTextValue (v : Value) : M unit :=
  match v with
  | Some (JStr t) => streamText t
  | Some (JNum _) => ret tt
  | Some (JBool _) => ret tt
  | Some JNull => throw (TypeErrorRead "null" "length")
  | None => throw (TypeErrorRead "undefined" "length")
  | Some (JArr _) => untyped
  | Some (JObj _) => untyped
  end.

(** The body of the loop over [result.content]. *)
Definition streamItem (item : JSON) : M unit :=
  ty <- getProp (Some item) "type" ;;
  if strictEqStr ty "text" then
    tx <- getProp (Some item) "text" ;;
    if truthy tx then streamTextValue tx else ret tt
  else ret tt.

(** [for (const item of result.content)]. *)
Fixpoint forEachItem (items : list JSON) : M unit :=
  match items with
  | [] => ret tt
  | item :: rest => streamItem item ;;; forEachItem rest
  end.

Definition elements (v : Value) : list JSON :=
  match v with
  | Some (JArr items) => items
  | _ => []
  end.

Definition processToolResponse (result : Value) : M unit :=
  content <- getProp result "content" ;;
  if truthy content && isArray content then
    forEachItem (elements content)
  else
    text <- getProp result "text" ;;
    if truthy text then streamTextValue text
    else
      match result with
      | Some r => streamText (stringifyPretty r)
      | None => throw (TypeErrorRead "undefined" "length")
      end.

Definition callToolStream (serverName tool : string) (args : JSON) : M unit :=
  validateServerName serverName ;;;
  serverUrl <- readServerUrl serverName ;;
  tryCatch
    (id <- postIncrementRequestId ;;
     let payload :=
       JObj [ ("jsonrpc", JStr "2.0"); ("id", JNum id);
              ("method", JStr "tools/call");
              ("params", JObj [ ("name", JStr tool); ("arguments", args) ]) ] in
     response <- makeRequest serverUrl payload 0 ;;
     (if negb (ok response) then
        b <- responseText response ;;
        throw (Error ("HTTP " ++ Z_to_string (status response) ++ ": "
                        ++ statusText response ++ ". Body: " ++ b))
      else ret tt) ;;;
     buffer <- match body response with
               | NullBody => throw (Error "No response body from server")
               | BodyText t => ret t
               | BodyFails e => throw e
               end ;;
     result <- match JSON_parse buffer with
               | Parsed v => ret v
               | SyntaxError msg =>
                   throw (Error ("Invalid JSON response: "
                                   ++ messageOrError
                                        {| name := "SyntaxError"; message := msg;
                                           code := None; response := None |}
                                   ++ ". Response: " ++ substring 0 200 buffer
                                   ++ "..."))
               end ;;
     err <- getProp (Some result) "error" ;;
     (if truthy err then
        ecode <- getProp err "code" ;;
        emsg <- getProp err "message" ;;
        throw (Error ("Tool Error (" ++ toStringV ecode ++ "): "
                        ++ toStringV emsg))
      else ret tt) ;;;
     res <- getProp (Some result) "result" ;;
     processToolResponse res)
    (fun error =>
       throw (Error ("Failed to call tool '" ++ tool ++ "' on " ++ serverName
                       ++ ": " ++ messageOrError error))).


End ClientMethods.

(** ** Reading a trace *)

(** The chunks handed to the consumer, in order. *)
Fixpoint dataOf (evs : list Event) : list string :=
  match evs with
  | [] => []
  | EvData c :: rest => c :: dataOf rest
  | _ :: rest => dataOf rest
  end.

(** The timers armed, in order (milliseconds). *)
Fixpoint delaysOf (evs : list Event) : list Z :=
  match evs with
  | [] => []
  | EvDelay ms :: rest => ms :: delaysOf rest
  | _ :: rest => delaysOf rest
  end.

(** The POSTs issued, in order. *)
Fixpoint fetchesOf (evs : list Event) : list (string * JSON) :=
  match evs with
  | [] => []
  | EvFetch u p :: rest => (u, p) :: fetchesOf rest
  | _ :: rest => fetchesOf rest
  end.

(** The events a computation added to the trace. *)
Definition newEvents (w w' : World) : list Event :=
  skipn (List.length (trace w)) (trace w').

(** The world after more events and [n] more POSTs. *)
Definition after (w : World) (n : nat) (evs : list Event) : World :=
  {| this := this w; posts := n + posts w; trace := trace w ++ evs |}.

Definition concatStr (l : list string) : string :=
  fold_right String.append "" l.

(** What the consumer sees when [chunks] are streamed: each chunk, then the
    pacing timer of ten milliseconds. *)
Definition paced (chunks : list string) : list Event :=
  flat_map (fun c => [EvData c; EvDelay 10%Z]) chunks.

(** Splitting a string into consecutive slices of [size] characters, the last
    one possibly shorter: slice [j] starts at offset [size * j]. *)
Definition sliceAll (text : string) (size : nat) : list string :=
  map (fun j => substring (size * j) size text)
      (seq 0 ((String.length text + size - 1) / size)).

(** A fresh world around a client: nothing posted, nothing traced. *)
Definition fresh (c : Client) : World :=
  {| this := c; posts := 0; trace := [] |}.

(** The events of [k] failed attempts that were retried, the first of them
    made with retry count [rc]: each is a POST followed by its backoff. *)
Fixpoint retryEvents (url : string) (payload : JSON) (rc : Z) (k : nat)
    : list Event :=
  match k with
  | O => []
  | S k' =>
      EvFetch url payload :: EvDelay (2 ^ rc * 1000)%Z
        :: retryEvents url payload (rc + 1)%Z k'
  end.

(** How [makeRequest] settles on the outcome of its last attempt. *)
Definition settle (o : FetchOutcome) : Outcome Response :=
  match o with
  | Resolved r => Returned r
  | Rejected e => Thrown e
  end.

(** The last attempt is one that is not retried. *)
Definition notRetried (c : Client) (retryCount : Z) (o : FetchOutcome) : bool :=
  match o with
  | Resolved _ => true
  | Rejected e => negb ((retryCount <? maxRetries c)%Z && isRetryableError e)
  end.

(** ** Requests and calls *)

(** The request envelope of [listTools]. *)
Definition listPayload (id : Z) : JSON :=
  JObj [ ("jsonrpc", JStr "2.0"); ("id", JNum id);
         ("method", JStr "tools/list"); ("params", JObj []) ].

(** The request envelope of [callToolStream]. *)
Definition callPayload (tool : string) (args : JSON) (id : Z) : JSON :=
  JObj [ ("jsonrpc", JStr "2.0"); ("id", JNum id);
         ("method", JStr "tools/call");
         ("params", JObj [ ("name", JStr tool); ("arguments", args) ]) ].

(** The world once a request id has been taken. *)
Definition bump (w : World) : World :=
  {| this := {| servers := servers (this w);
                requestId := jsSucc (requestId (this w));
                timeout := timeout (this w);
                maxRetries := maxRetries (this w) |};
     posts := posts w; trace := trace w |}.

(** The error of [validateServerName]. *)
Definition notFound (srv : Servers) (serverName : string) : JsError :=
  Error ("Server '" ++ serverName ++ "' not found. Available servers: "
           ++ join ", " (Object_keys srv)).

(** The part of the try block of [callToolStream] that follows the request. *)
Definition interpretCallResponse (JSON_parse : string -> ParseResult)
    (response : Response) : M unit :=
  (if negb (ok response) then
     b <- responseText response ;;
     throw (Error ("HTTP " ++ Z_to_string (status response) ++ ": "
                     ++ statusText response ++ ". Body: " ++ b))
   else ret tt) ;;;
  buffer <- match body response with
            | NullBody => throw (Error "No response body from server")
            | BodyText t => ret t
            | BodyFails e => throw e
            end ;;
  result <- match JSON_parse buffer with
            | Parsed v => ret v
            | SyntaxError msg =>
                throw (Error ("Invalid JSON response: "
                                ++ messageOrError
                                     {| name := "SyntaxError"; message := msg;
                                        code := None; response := None |}
                                ++ ". Response: " ++ substring 0 200 buffer
                                ++ "..."))
            end ;;
  err <- getProp (Some result) "error" ;;
  (if truthy err then
     ecode <- getProp err "code" ;;
     emsg <- getProp err "message" ;;
     throw (Error ("Tool Error (" ++ toStringV ecode ++ "): "
                     ++ toStringV emsg))
   else ret tt) ;;;
  res <- getProp (Some result) "result" ;;
  processToolResponse res.

(** The part of the try block of [listTools] that follows the request. *)
Definition interpretListResponse (JSON_parse : string -> ParseResult)
    (response : Response) : M JSON :=
  (if negb (ok response) then
     b <- responseText response ;;
     throw (Error ("HTTP " ++ Z_to_string (status response) ++ ": "
                     ++ statusText response ++ ". Body: " ++ b))
   else ret tt) ;;;
  result <- responseJson JSON_parse response ;;
  err <- getProp (Some result) "error" ;;
  (if truthy err then
     ecode <- getProp err "code" ;;
     emsg <- getProp err "message" ;;
     throw (Error ("JSON-RPC Error (" ++ toStringV ecode ++ "): "
                     ++ toStringV emsg))
   else ret tt) ;;;
  res <- getProp (Some result) "result" ;;
  tools <- match res with
           | None => ret undefined
           | Some JNull => ret undefined
           | Some _ => getProp res "tools"
           end ;;
  ret (match tools with
       | Some t => if truthy tools then t else JArr []
       | None => JArr []
       end).

(** The context the two operations wrap around a failure. *)
Definition listFailure (serverName serverUrl : string) (error : JsError) : JsError :=
  Error ("Failed to fetch tools from " ++ serverName ++ " ("
           ++ serverUrl ++ "): " ++ messageOrError error).

Definition callFailure (serverName tool : string) (error : JsError) : JsError :=
  Error ("Failed to call tool '" ++ tool ++ "' on " ++ serverName
           ++ ": " ++ messageOrError error).

(** A call on the client, and a run of calls whose failures are caught by
    the caller. *)
Inductive Call : Type :=
| ListTools (serverName : string)
| CallToolStream (serverName tool : string) (args : JSON).

(** ** Reading a payload *)

(** A property of a parsed value that is not [null]. *)
Definition field (v : JSON) (key : string) : Value :=
  match v with
  | JObj fields => lookup key fields
  | _ => undefined
  end.

(** The text a content item contributes: its [text] when its [type] is the
    string text, nothing otherwise. *)
Definition itemText (item : JSON) : string :=
  if strictEqStr (field item "type") "text" then
    match field item "text" with
    | Some (JStr t) => t
    | _ => ""
    end
  else "".

(** A content item as the interface [MCPResponse] declares it, with [text]
    optional: an object whose [text], when its [type] is the string text, is
    a string or is absent. *)
Definition itemWellTyped (item : JSON) : bool :=
  match item with
  | JObj _ =>
      if strictEqStr (field item "type") "text" then
        match field item "text" with
        | None => true
        | Some (JStr _) => true
        | Some _ => false
        end
      else true
  | _ => false
  end.

(** A text item carrying [t]. *)
Definition isTextItem (item : JSON) (t : string) : Prop :=
  exists fields,
    item = JObj fields /\
    lookup "type" fields = Some (JStr "text") /\
    lookup "text" fields = Some (JStr t).

(** The world a call leaves behind, whether it returned or threw. *)
Definition callWorld (net : Network) (JSON_parse : string -> ParseResult)
    (c : Call) (w : World) : World :=
  match c with
  | ListTools serverName => snd (listTools net JSON_parse serverName w)
  | CallToolStream serverName tool args =>
      snd (callToolStream net JSON_parse serverName tool args w)
  end.

(** A run of calls on one client: the events of each call, and the world
    at the end. *)
Fixpoint runCalls (net : Network) (JSON_parse : string -> ParseResult)
    (calls : list Call) (w : World) : list (list Event) * World :=
  match calls with
  | [] => ([], w)
  | c :: rest =>
      let w1 := callWorld net JSON_parse c w in
      let (segments, w') := runCalls net JSON_parse rest w1 in
      (newEvents w w1 :: segments, w')
  end.

(** The [id] of a request envelope. *)
Definition idOf (payload : JSON) : option Z :=
  match field payload "id" with
  | Some (JNum n) => Some n
  | _ => None
  end.

(** The ids carried by the POSTs among some events, in order. *)
Definition postedIds (evs : list Event) : list (option Z) :=
  map (fun post => idOf (snd post)) (fetchesOf evs).

(** The calls that posted something. *)
Definition sending (segments : list (list Event)) : list (list Event) :=
  filter (fun evs => match postedIds evs with [] => false | _ => true end) segments.

(** [result.result?.tools] on a parsed answer that is not [null]. *)
Definition toolsValue (result : JSON) : Value :=
  match field result "result" with
  | Some res => field res "tools"
  | None => undefined
  end.

(** ** Ordinary objects: property order, assignment, spread *)

Module JSObject.

(** The value of a decimal numeral. *)
Fixpoint digits (s : string) (acc : N) : option N :=
  match s with
  | EmptyString => Some acc
  | String c rest =>
      let n := N_of_ascii c in
      if (48 <=? n)%N && (n <=? 57)%N then digits rest (acc * 10 + (n - 48))%N
      else None
  end.

(** An array index: the canonical numeral of an integer below 2^32 - 1.
    Such keys are enumerated first, in ascending order. *)
Definition arrayIndex (key : string) : option N :=
  match key with
  | EmptyString => None
  | String c rest =>
      if Ascii.eqb c "0" then
        match rest with
        | EmptyString => Some 0%N
        | _ => None
        end
      else
        match digits key 0 with
        | Some n => if (n <? 2 ^ 32 - 1)%N then Some n else None
        | None => None
        end
  end.

Section Properties.

Context {V : Type}.

(** An own property by key. *)
Fixpoint get (key : string) (props : list (string * V)) : option V :=
  match props with
  | [] => None
  | (k, v) :: rest => if String.eqb key k then Some v else get key rest
  end.

(** Writing an existing property keeps its place. *)
Fixpoint replace (key : string) (v : V) (props : list (string * V))
    : list (string * V) :=
  match props with
  | [] => []
  | (k, x) :: rest =>
      if String.eqb key k then (k, v) :: rest else (k, x) :: replace key v rest
  end.

(** A new array index goes among the indices, in ascending order. *)
Fixpoint insertIndex (n : N) (key : string) (v : V) (props : list (string * V))
    : list (string * V) :=
  match props with
  | [] => [(key, v)]
  | (k, x) :: rest =>
      match arrayIndex k with
      | Some m =>
          if (n <? m)%N then (key, v) :: props
          else (k, x) :: insertIndex n key v rest
      | None => (key, v) :: props
      end
  end.

(** Defining a data property: in place when the key exists, among the
    indices when it is a new index, at the end otherwise. *)
Definition define (key : string) (v : V) (props : list (string * V))
    : list (string * V) :=
  match get key props with
  | Some _ => replace key v props
  | None =>
      match arrayIndex key with
      | Some n => insertIndex n key v props
      | None => (props ++ [(key, v)])%list
      end
  end.

(** Copying the properties of [src] onto [dst], in their order. *)
Definition assign (dst src : list (string * V)) : list (string * V) :=
  fold_left (fun acc kv => define (fst kv) (snd kv) acc) src dst.

End Properties.

(** The elements of an array as index properties, from index [i] on. *)
Fixpoint indexed (i : nat) (items : list JSON) : list (string * JSON) :=
  match items with
  | [] => []
  | x :: rest => (Z_to_string (Z.of_nat i), x) :: indexed (S i) rest
  end.

(** The code units of a string as one-character strings. *)
Fixpoint units (s : string) : list JSON :=
  match s with
  | EmptyString => []
  | String c rest => JStr (String c EmptyString) :: units rest
  end.

(** The own enumerable properties a spread copies: those of an object, the
    elements of an array, the code units of a string; nothing for a
    number, a boolean, [null] or [undefined]. *)
Definition ownEnumerable (v : Value) : list (string * JSON) :=
  match v with
  | Some (JObj fields) => fields
  | Some (JArr items) => indexed 0 items
  | Some (JStr s) => indexed 0 (units s)
  | _ => []
  end.

(** The object literal that spreads [a] and then [b]. *)
Definition spread2 (a b : Value) : list (string * JSON) :=
  assign (assign [] (ownEnumerable a)) (ownEnumerable b).

End JSObject.

(** ** Strings: trimming, lower case, and the fence-stripping replace *)

Module JSString.

(** A string is its sequence of code units, each below 256. *)

(** WhiteSpace and LineTerminator among these code units: TAB, LF, VT, FF,
    CR, SP and NBSP. *)
Definition isWhiteSpace (c : ascii) : bool :=
  let n := nat_of_ascii c in
  ((9 <=? n) && (n <=? 13) || (n =? 32) || (n =? 160))%nat.

Fixpoint trimStart (s : string) : string :=
  match s with
  | EmptyString => EmptyString
  | String c rest => if isWhiteSpace c then trimStart rest else s
  end.

Fixpoint trimEnd (s : string) : string :=
  match s with
  | EmptyString => EmptyString
  | String c rest =>
      match trimEnd rest with
      | EmptyString => if isWhiteSpace c then EmptyString else String c EmptyString
      | kept => String c kept
      end
  end.

(** [String.prototype.trim]. *)
Definition trim (s : string) : string := trimEnd (trimStart s).

(** The lower-case mapping of one code unit: the letters A to Z, and the
    upper-case letters of the Latin-1 supplement (the multiplication sign at
    215 is not one). *)
Definition lowerUnit (c : ascii) : ascii :=
  let n := nat_of_ascii c in
  if ((65 <=? n) && (n <=? 90)
      || (192 <=? n) && (n <=? 222) && negb (n =? 215))%nat
  then ascii_of_nat (n + 32) else c.

(** [String.prototype.toLowerCase]. *)
Fixpoint toLowerCase (s : string) : string :=
  match s with
  | EmptyString => EmptyString
  | String c rest => String (lowerUnit c) (toLowerCase rest)
  end.

Definition backtick : ascii := ascii_of_nat 96.

Definition fence : string := String backtick (String backtick (String backtick "")).

(** The length of what the regular expression
    [/<fence>json\n?|\n?<fence>/] matches at the start of [s], if it matches
    there: the first alternative is tried first, and [\n?] is greedy. *)
Definition fenceMatch (s : string) : option nat :=
  if prefix (fence ++ "json") s then
    Some (if prefix (fence ++ "json" ++ newline) s then 8 else 7)
  else if prefix (newline ++ fence) s then Some 4
  else if prefix fence s then Some 3
  else None.

(** [s.replace(/<fence>json\n?|\n?<fence>/g, '')]: the scan goes from left
    to right, a match is dropped and the scan resumes behind it; [skip]
    counts the code units of the current match that are still to drop. *)
Fixpoint stripFrom (skip : nat) (s : string) : string :=
  match s with
  | EmptyString => EmptyString
  | String c rest =>
      match skip with
      | S n => stripFrom n rest
      | O =>
          match fenceMatch s with
          | Some (S n) => stripFrom n rest
          | _ => String c (stripFrom 0 rest)
          end
      end
  end.

Definition stripFences (s : string) : string := stripFrom 0 s.

(** No code unit of [s] is a backtick. *)
Fixpoint noBacktick (s : string) : bool :=
  match s with
  | EmptyString => true
  | String c rest => negb (Ascii.eqb c backtick) && noBacktick rest
  end.

(** The first code unit of [s], if any, is not a backtick. *)
Definition startsClean (s : string) : bool :=
  match s with
  | EmptyString => true
  | String c _ => negb (Ascii.eqb c backtick)
  end.

(** No code unit of [s] is white space. *)
Fixpoint noWhiteSpace (s : string) : bool :=
  match s with
  | EmptyString => true
  | String c rest => negb (isWhiteSpace c) && noWhiteSpace rest
  end.

(** Every code unit of [s] is white space. *)
Fixpoint allWhiteSpace (s : string) : bool :=
  match s with
  | EmptyString => true
  | String c rest => isWhiteSpace c && allWhiteSpace rest
  end.

End JSString.

(** ** src/config.ts *)

(** [process.env.GEMINI_MODEL || "gemini-2.5-flash-lite"]. *)
Definition geminiModel (GEMINI_MODEL : option string) : string :=
  match GEMINI_MODEL with
  | Some m => if String.eqb m "" then "gemini-2.5-flash-lite" else m
  | None => "gemini-2.5-flash-lite"
  end.

Definition defaultMcpServers : JSON :=
  JArr [ JObj [ ("name", JStr "aws-knowledge-mcp-server");
                ("url", JStr "https://knowledge-mcp.global.api.aws");
                ("description", JStr "AWS Knowledge and Documentation Server");
                ("enabled", JBool true) ] ].

Definition defaultGemini (GEMINI_MODEL : option string) : JSON :=
  JObj [ ("model", JStr (geminiModel GEMINI_MODEL)); ("timeout", JNum 30000) ].

Definition defaultClient : JSON :=
  JObj [ ("timeout", JNum 30000); ("maxRetries", JNum 3);
         ("streamingChunkSize", JNum 50) ].

Definition defaultConfig (GEMINI_MODEL : option string) : JSON :=
  JObj [ ("mcpServers", defaultMcpServers);
         ("gemini", defaultGemini GEMINI_MODEL);
         ("client", defaultClient) ].

(** What the file system holds at [config.json] in the working directory:
    nothing, something [readFileSync] fails on, or a text. *)
Inductive ConfigFile : Type :=
| NoConfigFile
| Unreadable (e : JsError)
| ConfigText (text : string).

(** [a || b] on values, [b] being defined. *)
Definition orElse (a : Value) (b : JSON) : JSON :=
  match a with
  | Some x => if truthy a then x else b
  | None => b
  end.

(** The object literal [loadConfig] returns for a parsed [userConfig]; the
    read of [userConfig.mcpServers] raises on [null]. *)
Definition mergeConfig (GEMINI_MODEL : option string) (userConfig : JSON)
    : Outcome JSON :=
  match userConfig with
  | JNull => Thrown (TypeErrorRead "null" "mcpServers")
  | _ =>
      let top :=
        JSObject.spread2 (Some (defaultConfig GEMINI_MODEL)) (Some userConfig) in
      let mcpServers := orElse (field userConfig "mcpServers") defaultMcpServers in
      let gemini :=
        JObj (JSObject.spread2 (Some (defaultGemini GEMINI_MODEL))
                (field userConfig "gemini")) in
      let client :=
        JObj (JSObject.spread2 (Some defaultClient) (field userConfig "client")) in
      Returned
        (JObj (JSObject.define "client" client
                 (JSObject.define "gemini" gemini
                    (JSObject.define "mcpServers" mcpServers top))))
  end.

(** [loadConfig]: whatever is thrown inside the try block is caught (and
    warned about), and the defaults are returned. *)
Definition loadConfig (GEMINI_MODEL : option string)
    (JSON_parse : string -> ParseResult) (file : ConfigFile) : JSON :=
  match file with
  | NoConfigFile => defaultConfig GEMINI_MODEL
  | Unreadable _ => defaultConfig GEMINI_MODEL
  | ConfigText configFile =>
      match JSON_parse configFile with
      | SyntaxError _ => defaultConfig GEMINI_MODEL
      | Parsed userConfig =>
          match mergeConfig GEMINI_MODEL userConfig with
          | Returned merged => merged
          | _ => defaultConfig GEMINI_MODEL
          end
      end
  end.

(** ** src/index.ts *)

Module InteractiveMCPDemo.

(** Sequencing of outcomes where no effect is involved. *)
Definition andThen {A B} (o : Outcome A) (k : A -> Outcome B) : Outcome B :=
  match o with
  | Returned a => k a
  | Thrown e => Thrown e
  | OutOfFuel => OutOfFuel
  | Untyped => Untyped
  end.

Definition TypeError (msg : string) : JsError :=
  {| name := "TypeError"; message := msg; code := None; response := None |}.

(** [.filter(server => server.enabled !== false)]. *)
Fixpoint keepEnabled (items : list JSON) : Outcome (list JSON) :=
  match items with
  | [] => Returned []
  | server :: rest =>
      match server with
      | JNull => Thrown (TypeErrorRead "null" "enabled")
      | _ =>
          andThen (keepEnabled rest)
            (fun kept =>
               Returned (match field server "enabled" with
                         | Some (JBool false) => kept
                         | _ => server :: kept
                         end))
      end
  end.

(** [servers[server.name] = server.url] for a server whose name and URL are
    strings, as [MCPServerConfig] declares them.  Assigning to [__proto__]
    runs the inherited setter, which ignores a string: no property is
    made. *)
Definition register (servers : Servers) (server : JSON) : Outcome Servers :=
  match field server "name", field server "url" with
  | Some (JStr name), Some (JStr url) =>
      Returned (if String.eqb name "__proto__" then servers
                else JSObject.define name url servers)
  | _, _ => Untyped
  end.

(** [.forEach(server => ...)]. *)
Fixpoint registerAll (servers : Servers) (items : list JSON) : Outcome Servers :=
  match items with
  | [] => Returned servers
  | server :: rest =>
      andThen (register servers server) (fun servers' => registerAll servers' rest)
  end.

(** The [servers] object the constructor builds from [config.mcpServers]. *)
Definition buildServers (config : JSON) : Outcome Servers :=
  match config with
  | JNull => Thrown (TypeErrorRead "null" "mcpServers")
  | _ =>
      match field config "mcpServers" with
      | None => Thrown (TypeErrorRead "undefined" "filter")
      | Some JNull => Thrown (TypeErrorRead "null" "filter")
      | Some (JArr items) => andThen (keepEnabled items) (registerAll [])
      | Some _ => Thrown (TypeError "this.config.mcpServers.filter is not a function")
      end
  end.

(** An option of the client read from the configuration: a number, or a
    falsy value, which the client's constructor replaces by its default. *)
Definition optionNumber (v : Value) : Outcome (option Z) :=
  match v with
  | Some (JNum n) => Returned (Some n)
  | _ => if truthy v then Untyped else Returned None
  end.

(** [new StreamableMCPClient(servers, { timeout, maxRetries })]. *)
Definition buildClient (config : JSON) (servers : Servers) : Outcome Client :=
  match field config "client" with
  | None => Thrown (TypeErrorRead "undefined" "timeout")
  | Some JNull => Thrown (TypeErrorRead "null" "timeout")
  | Some c =>
      andThen (optionNumber (field c "timeout")) (fun t =>
      andThen (optionNumber (field c "maxRetries")) (fun m =>
      Returned (constructor servers {| opt_timeout := t; opt_maxRetries := m |})))
  end.

Record Demo : Type := mkDemo {
  config : JSON;
  client : Client;
  availableTools : JSON
}.

(** [new InteractiveMCPDemo()]. *)
Definition constructor (GEMINI_MODEL : option string)
    (JSON_parse : string -> ParseResult) (file : ConfigFile) : Outcome Demo :=
  let config := loadConfig GEMINI_MODEL JSON_parse file in
  andThen (buildServers config) (fun servers =>
  andThen (buildClient config servers) (fun client =>
  Returned {| config := config; client := client; availableTools := JArr [] |})).

(** [initialize]: the tools of the one server the demo talks to; a failure
    is logged and thrown again. *)
Definition initialize (net : Network) (JSON_parse : string -> ParseResult)
    : M JSON :=
  tryCatch (listTools net JSON_parse "aws-knowledge-mcp-server")
    (fun error => throw error).

(** *** The conversation

    The model behind [genAI.models.generateContent] is a script, as the
    network is: the outcome of the n-th call.  A session is the world of the
    client together with the calls made to the model. *)

(** One call of [generateContent]: the promise resolves with a response,
    whose [text] is a string or [undefined], or it rejects. *)
Inductive GenerateOutcome : Type :=
| Generated (text : option string)
| GenerateFails (e : JsError).

Definition Gemini : Type := nat -> GenerateOutcome.

(** [asked] lists the [model] and the [contents] of every call to the model,
    in order. *)
Record Session : Type := mkSession {
  world : World;
  asked : list (Value * string)
}.

Definition D (A : Type) : Type := Session -> Outcome A * Session.

Definition retD {A} (a : A) : D A := fun s => (Returned a, s).

Definition bindD {A B} (m : D A) (k : A -> D B) : D B :=
  fun s =>
    match m s with
    | (Returned a, s') => k a s'
    | (Thrown e, s') => (Thrown e, s')
    | (OutOfFuel, s') => (OutOfFuel, s')
    | (Untyped, s') => (Untyped, s')
    end.

Definition throwD {A} (e : JsError) : D A := fun s => (Thrown e, s).

Definition untypedD {A} : D A := fun s => (Untyped, s).

Definition tryCatchD {A} (m : D A) (handler : JsError -> D A) : D A :=
  fun s =>
    match m s with
    | (Thrown e, s') => handler e s'
    | r => r
    end.

(** A method of the client, run on the world of the session. *)
Definition liftM {A} (m : M A) : D A :=
  fun s =>
    let (o, w) := m (world s) in (o, {| world := w; asked := asked s |}).

(** A computation without effect. *)
Definition liftO {A} (o : Outcome A) : D A := fun s => (o, s).

Definition getWorld : D World := fun s => (Returned (world s), s).

Notation "x <-- m ;; k" := (bindD m (fun x => k))
  (at level 61, m at next level, right associativity).
Notation "m >>; k" := (bindD m (fun _ => k))
  (at level 61, right associativity).

Definition dq : string := String (ascii_of_nat 34) "".

(** The template literal of [askGeminiForToolChoice]. *)
Definition toolChoicePrompt (availableTools : JSON) (userInput : string) : string :=
  join newline
    [ "";
      "You are an AI assistant that can decide whether to use MCP (Model Context Protocol) tools to answer user questions.";
      "";
      "Available MCP tools:";
      stringifyPretty availableTools;
      "";
      "User question: " ++ dq ++ userInput ++ dq;
      "";
      "Analyze the user's question and decide:";
      "1. Can this question be answered using the available MCP tools?";
      "2. If yes, which tool should be used and with what arguments?";
      "3. If no, explain why not.";
      "";
      "Respond with ONLY a valid JSON object in this format:";
      "{";
      "  " ++ dq ++ "shouldUseTool" ++ dq ++ ": true/false,";
      "  " ++ dq ++ "tool" ++ dq ++ ": " ++ dq ++ "toolName" ++ dq
        ++ " (if shouldUseTool is true),";
      "  " ++ dq ++ "args" ++ dq ++ ": {" ++ dq ++ "param" ++ dq ++ ": " ++ dq
        ++ "value" ++ dq ++ "} (if shouldUseTool is true),";
      "  " ++ dq ++ "reasoning" ++ dq ++ ": " ++ dq
        ++ "Brief explanation of your decision" ++ dq;
      "}";
      "";
      "Do not include markdown formatting or additional text.";
      "" ].

(** The template literal of [handleMCPToolCall]. *)
Definition summaryPrompt (streamedText : string) : string :=
  join newline
    [ "";
      "Summarize this MCP server response clearly and concisely:";
      "";
      streamedText;
      "";
      "Focus on the key points that directly answer the user's question.";
      "" ].

(** [this.config.gemini.model]. *)
Definition configuredModel (config : JSON) : Outcome Value :=
  match config with
  | JNull => Thrown (TypeErrorRead "null" "gemini")
  | _ =>
      match field config "gemini" with
      | None => Thrown (TypeErrorRead "undefined" "model")
      | Some JNull => Thrown (TypeErrorRead "null" "model")
      | Some gemini => Returned (field gemini "model")
      end
  end.

(** [(await genAI.models.generateContent({ model, contents })).text]. *)
Definition generateContent (gemini : Gemini) (model : Value) (contents : string)
    : D (option string) :=
  fun s =>
    let s' := {| world := world s; asked := (asked s ++ [(model, contents)])%list |} in
    match gemini (List.length (asked s)) with
    | Generated text => (Returned text, s')
    | GenerateFails e => (Thrown e, s')
    end.

(** [responseText.replace(...).trim()]. *)
Definition cleanedText (responseText : string) : string :=
  JSString.trim (JSString.stripFences responseText).

Section Conversation.

Variable net : Network.
Variable JSON_parse : string -> ParseResult.
Variable gemini : Gemini.

Definition askGeminiForToolChoice (demo : Demo) (userInput : string) : D JSON :=
  let prompt := toolChoicePrompt (availableTools demo) userInput in
  model <-- liftO (configuredModel (config demo)) ;;
  responseText <-- generateContent gemini model prompt ;;
  match responseText with
  | None => throwD (Error "No response from Gemini")
  | Some text =>
      if String.eqb text "" then throwD (Error "No response from Gemini")
      else
        match JSON_parse (cleanedText text) with
        | Parsed choice => retD choice
        | SyntaxError _ => throwD (Error "Invalid JSON response from Gemini")
        end
  end.

Definition handleDirectResponse (demo : Demo) (userInput : string) : D unit :=
  model <-- liftO (configuredModel (config demo)) ;;
  generateContent gemini model userInput >>;
  retD tt.

(** [handleMCPToolCall].  The callback writes each chunk to the standard
    output and appends it to [streamedText], which therefore ends up as the
    chunks of the call, joined.  A [tool] that is truthy and not a string is
    off the declared type. *)
Definition handleMCPToolCall (demo : Demo) (choice : JSON) : D unit :=
  match choice with
  | JNull => throwD (TypeErrorRead "null" "tool")
  | _ =>
      if negb (truthy (field choice "tool")) || negb (truthy (field choice "args"))
      then throwD (Error "Invalid tool choice")
      else
        match field choice "tool", field choice "args" with
        | Some (JStr tool), Some args =>
            before <-- getWorld ;;
            liftM (callToolStream net JSON_parse "aws-knowledge-mcp-server" tool args) >>;
            later <-- getWorld ;;
            let streamedText := concatStr (dataOf (newEvents before later)) in
            if (500 <? String.length streamedText)%nat then
              model <-- liftO (configuredModel (config demo)) ;;
              generateContent gemini model (summaryPrompt streamedText) >>;
              retD tt
            else retD tt
        | _, _ => untypedD
        end
  end.

(** [showTools]: what it prints is left out; it throws when the tools are no
    array, or on the [name] of a tool that is [null]. *)
Definition showTools (demo : Demo) : Outcome unit :=
  match availableTools demo with
  | JArr tools =>
      if existsb (fun tool => match tool with JNull => true | _ => false end) tools
      then Thrown (TypeErrorRead "null" "name")
      else Returned tt
  | JNull => Thrown (TypeErrorRead "null" "forEach")
  | _ => Thrown (TypeError "this.availableTools.forEach is not a function")
  end.

(** The try block of [run] from the question to the model on. *)
Definition answer (demo : Demo) (userInput : string) : D unit :=
  choice <-- askGeminiForToolChoice demo userInput ;;
  match choice with
  | JNull => throwD (TypeErrorRead "null" "shouldUseTool")
  | _ =>
      if truthy (field choice "shouldUseTool") && truthy (field choice "tool")
      then handleMCPToolCall demo choice
      else handleDirectResponse demo userInput
  end.

(** How the loop of [run] ends on the lines it is given: at a quit command
    the interface is closed; when the lines run out, the loop is left
    waiting on [question]. *)
Inductive Ended : Type :=
| Closed
| AwaitingInput.

(** The loop of [run] over the lines typed by the user.  Whatever is thrown
    inside the try block is caught and reported, and the loop goes on. *)
Fixpoint runLoop (demo : Demo) (inputs : list string) : D Ended :=
  match inputs with
  | [] => retD AwaitingInput
  | userInput :: rest =>
      if String.eqb (JSString.trim userInput) "" then runLoop demo rest
      else
        let input := JSString.toLowerCase (JSString.trim userInput) in
        if String.eqb input "quit" || String.eqb input "exit" then retD Closed
        else if String.eqb input "help" then runLoop demo rest
        else if String.eqb input "tools" then
          tryCatchD (liftO (showTools demo)) (fun _ => retD tt) >>;
          runLoop demo rest
        else
          tryCatchD (answer demo userInput) (fun _ => retD tt) >>;
          runLoop demo rest
  end.

(** [run]: the tools are loaded, then the loop is entered. *)
Definition run (demo : Demo) (inputs : list string) : D Ended :=
  tools <-- liftM (initialize net JSON_parse) ;;
  runLoop {| config := config demo; client := client demo; availableTools := tools |}
    inputs.

End Conversation.

End InteractiveMCPDemo.

(** The session after one more call to the model. *)
Definition asking (s : InteractiveMCPDemo.Session) (model : Value)
    (contents : string) : InteractiveMCPDemo.Session :=
  {| InteractiveMCPDemo.world := InteractiveMCPDemo.world s;
     InteractiveMCPDemo.asked :=
       (InteractiveMCPDemo.asked s ++ [(model, contents)])%list |}.

(** What [askGeminiForToolChoice] makes of the text it hands to
    [JSON.parse]. *)
Definition parsedChoice (JSON_parse : string -> ParseResult) (cleaned : string)
    : Outcome JSON :=
  match JSON_parse cleaned with
  | Parsed choice => Returned choice
  | SyntaxError _ => Thrown (Error "Invalid JSON response from Gemini")
  end.

(** [server.enabled !== false]. *)
Definition notDisabled (server : JSON) : bool :=
  match field server "enabled" with
  | Some (JBool false) => false
  | _ => true
  end.

(** The URL registered last for [key] among the servers that are not
    disabled. *)
Fixpoint lastEnabledUrl (key : string) (items : list JSON) (found : option string)
    : option string :=
  match items with
  | [] => found
  | server :: rest =>
      lastEnabledUrl key rest
        (match field server "enabled", field server "name", field server "url" with
         | Some (JBool false), _, _ => found
         | _, Some (JStr name), Some (JStr url) =>
             if String.eqb key name then Some url else found
         | _, _, _ => found
         end)
  end.

(** A server entry as [MCPServerConfig] declares it: an object with a
    string [name] and a string [url]. *)
Definition serverWellTyped (server : JSON) : bool :=
  match server with
  | JObj _ =>
      match field server "name", field server "url" with
      | Some (JStr _), Some (JStr _) => true
      | _, _ => false
      end
  | _ => false
  end.


(** ** Sample data

    The default configuration of src/config.ts and a few responses, used to
    run the client on concrete inputs. *)

Module Sample.

Definition serverName : string := "aws-knowledge-mcp-server".
Definition serverUrl : string := "https://knowledge-mcp.global.api.aws".

Definition defaultServers : Servers := [ (serverName, serverUrl) ].

Definition noOptions : Options :=
  {| opt_timeout := None; opt_maxRetries := None |}.

Definition zeroOptions : Options :=
  {| opt_timeout := Some 0%Z; opt_maxRetries := Some 0%Z |}.

(** The client index.ts builds from the default configuration. *)
Definition client : Client := constructor defaultServers noOptions.

(** node-fetch's error for a connection reset by the peer. *)
Definition connReset : JsError :=
  {| name := "FetchError";
     message := "request to " ++ serverUrl ++ " failed, reason: read ECONNRESET";
     code := Some "ECONNRESET";
     response := None |}.

Definition respond (st : Z) (txt : string) (b : string) : Response :=
  {| responseUrl := serverUrl; status := st; statusText := txt; body := BodyText b |}.

Definition response503 : Response := respond 503 "Service Unavailable" "upstream down".
Definition response404 : Response := respond 404 "Not Found" "no such route".

Definition textItem (t : string) : JSON :=
  JObj [ ("type", JStr "text"); ("text", JStr t) ].

Definition imageItem : JSON :=
  JObj [ ("type", JStr "image"); ("data", JStr "x") ].

(** The payload of the spec's example: two text items around an image. *)
Definition mixedPayload : JSON :=
  JObj [ ("content", JArr [ textItem "A"; imageItem; textItem "B" ]) ].

Definition envelope (payload : JSON) : JSON :=
  JObj [ ("jsonrpc", JStr "2.0"); ("id", JNum 1); ("result", payload) ].

Definition errorEnvelope : JSON :=
  JObj [ ("jsonrpc", JStr "2.0"); ("id", JNum 1);
         ("error", JObj [ ("code", JNum (-32601));
                          ("message", JStr "Method not found") ]) ].

Definition toolsEnvelope : JSON :=
  envelope (JObj [ ("tools", JArr [ JObj [ ("name", JStr "search") ] ]) ]).

(** [JSON.parse] on the bodies used here: the serializations of the
    envelopes above parse back to them, anything else is a syntax error. *)
Definition parse (text : string) : ParseResult :=
  if String.eqb text (stringifyPretty (envelope mixedPayload))
  then Parsed (envelope mixedPayload)
  else if String.eqb text (stringifyPretty errorEnvelope)
  then Parsed errorEnvelope
  else if String.eqb text (stringifyPretty toolsEnvelope)
  then Parsed toolsEnvelope
  else SyntaxError "Unexpected token < in JSON at position 0".

Definition responseOk (v : JSON) : Response := respond 200 "OK" (stringifyPretty v).

(** A network that resets the first [k] connections and then answers [r]. *)
Definition failsThen (k : nat) (r : Response) : Network :=
  fun n => if (n <? k)%nat then Rejected connReset else Resolved r.

(** A network that always answers [r]. *)
Definition always (r : Response) : Network := fun _ => Resolved r.

(** A network on which every connection is reset. *)
Definition alwaysReset : Network := fun _ => Rejected connReset.

(** The spec's other two example payloads. *)
Definition helloPayload : JSON := JObj [ ("text", JStr "hello") ].
Definition fooPayload : JSON := JObj [ ("foo", JNum 1) ].

(** A payload whose top-level [text] is the empty string. *)
Definition emptyTextPayload : JSON := JObj [ ("text", JStr "") ].

(** Sixty characters. *)
Definition sixty : string :=
  "0123456789abcdefghijklmnopqrstuvwxyzABCDEFGHIJKLMNOPQRSTUVWX".

(** The spec's example run: [listTools], then [callToolStream] twice. *)
Definition threeCalls : list Call :=
  [ ListTools serverName;
    CallToolStream serverName "search" (JObj []);
    CallToolStream serverName "search" (JObj []) ].

(** node-fetch's error for a host name that does not resolve: not one of the
    errors [isRetryableError] accepts. *)
Definition hostNotFound : JsError :=
  {| name := "FetchError";
     message := "request to " ++ serverUrl ++ " failed, reason: getaddrinfo ENOTFOUND";
     code := Some "ENOTFOUND";
     response := None |}.

(** A 200 answer whose body breaks off with a connection reset. *)
Definition brokenBody : Response :=
  {| responseUrl := serverUrl; status := 200; statusText := "OK";
     body := BodyFails connReset |}.

(** Answers to [tools/list] without a usable [tools] entry. *)
Definition noResultEnvelope : JSON :=
  JObj [ ("jsonrpc", JStr "2.0"); ("id", JNum 1) ].

Definition nullResultEnvelope : JSON := envelope JNull.

(** Two text items of sixty characters each. *)
Definition twoSixties : JSON :=
  JObj [ ("content", JArr [ textItem sixty; textItem sixty ]) ].

(** [JSON.parse] on those bodies as well. *)
Definition parseMore (text : string) : ParseResult :=
  if String.eqb text (stringifyPretty noResultEnvelope)
  then Parsed noResultEnvelope
  else if String.eqb text (stringifyPretty nullResultEnvelope)
  then Parsed nullResultEnvelope
  else if String.eqb text (stringifyPretty (envelope twoSixties))
  then Parsed (envelope twoSixties)
  else parse text.

(** A server entry of [config.json]. *)
Definition serverEntry (name url : string) (enabled : option bool) : JSON :=
  JObj ([ ("name", JStr name); ("url", JStr url) ]
          ++ match enabled with
             | Some b => [ ("enabled", JBool b) ]
             | None => []
             end)%list.

(** A [config.json]: a disabled server, a mirror under the name the demo
    uses, one name given twice, and a retry budget of 0. *)
Definition userServers : list JSON :=
  [ serverEntry "staging" "https://staging.example" (Some false);
    serverEntry serverName "https://mirror.example" None;
    serverEntry "local" "http://localhost:8080" (Some true);
    serverEntry "local" "http://localhost:9090" None ].

Definition userConfig : JSON :=
  JObj [ ("mcpServers", JArr userServers);
         ("client", JObj [ ("maxRetries", JNum 0) ]);
         ("theme", JStr "dark") ].

(** A [config.json] that disables the one default server. *)
Definition disabledConfig : JSON :=
  JObj [ ("mcpServers", JArr [ serverEntry serverName serverUrl (Some false) ]) ].

Definition parseConfig (text : string) : ParseResult :=
  if String.eqb text (stringifyPretty userConfig) then Parsed userConfig
  else if String.eqb text (stringifyPretty disabledConfig) then Parsed disabledConfig
  else if String.eqb text "null" then Parsed JNull
  else SyntaxError "Unexpected token o in JSON at position 1".

(** The demo index.ts builds when there is no [config.json], once the tools
    are loaded. *)
Definition demo : InteractiveMCPDemo.Demo :=
  {| InteractiveMCPDemo.config := defaultConfig None;
     InteractiveMCPDemo.client := client;
     InteractiveMCPDemo.availableTools := JArr [ JObj [ ("name", JStr "search") ] ] |}.

(** A session that has not started. *)
Definition session : InteractiveMCPDemo.Session :=
  {| InteractiveMCPDemo.world := fresh client; InteractiveMCPDemo.asked := [] |}.

(** Two choices of the model: a tool call, and a direct answer. *)
Definition choiceSearch : JSON :=
  JObj [ ("shouldUseTool", JBool true);
         ("tool", JStr "search");
         ("args", JObj [ ("query", JStr "Amazon Bedrock") ]);
         ("reasoning", JStr "The question is about an AWS service") ].

Definition choiceDirect : JSON :=
  JObj [ ("shouldUseTool", JBool false);
         ("reasoning", JStr "A greeting needs no tool") ].

(** A choice that names a tool and leaves out its arguments. *)
Definition choiceNoArgs : JSON :=
  JObj [ ("shouldUseTool", JBool true); ("tool", JStr "search") ].

(** A body inside a fenced block tagged json. *)
Definition fenced (body : string) : string :=
  JSString.fence ++ "json" ++ newline ++ body ++ newline ++ JSString.fence.

(** [JSON.parse] on the serializations of these choices as well. *)
Definition parseChoice (text : string) : ParseResult :=
  if String.eqb text (stringifyPretty choiceSearch) then Parsed choiceSearch
  else if String.eqb text (stringifyPretty choiceDirect) then Parsed choiceDirect
  else if String.eqb text (stringifyPretty choiceNoArgs) then Parsed choiceNoArgs
  else parseMore text.

(** A model that gives the same answer to every call. *)
Definition answers (text : string) : InteractiveMCPDemo.Gemini :=
  fun _ => InteractiveMCPDemo.Generated (Some text).

(** A model that answers the first call with [first] and the later ones
    with [then_]. *)
Definition answersThen (first then_ : string) : InteractiveMCPDemo.Gemini :=
  fun n => InteractiveMCPDemo.Generated (Some (match n with O => first | _ => then_ end)).

(** An answer of 540 characters, in nine text items. *)
Definition longPayload : JSON :=
  JObj [ ("content", JArr (repeat (textItem sixty) 9)) ].

(** [JSON.parse] on the bodies and the choices above. *)
Definition parseAll (text : string) : ParseResult :=
  if String.eqb text (stringifyPretty (envelope longPayload))
  then Parsed (envelope longPayload)
  else parseChoice text.

(** The tabulator. *)
Definition tab : string := String (ascii_of_nat 9) "".

End Sample.

(** ** Strings *)

Lemma append_assoc (a b c : string) : (a ++ b) ++ c = a ++ (b ++ c).
Proof. induction a as [|x a IH]; simpl; [reflexivity | now rewrite IH]. Qed.

Lemma substring_all (s : string) : substring 0 (String.length s) s = s.
Proof. induction s as [|c s IH]; simpl; [reflexivity | now rewrite IH]. Qed.

Lemma substring_zero_len (s : string) (i : nat) : substring i 0 s = "".
Proof.
  revert i; induction s as [|c s IH]; intros [|i]; simpl; auto.
Qed.

Lemma substring_length (s : string) (i m : nat) :
  String.length (substring i m s) = Nat.min m (String.length s - i).
Proof.
  revert i m; induction s as [|c s IH]; intros i m.
  - destruct i, m; simpl; lia.
  - destruct i as [|i]; simpl.
    + destruct m as [|m]; simpl; [reflexivity | rewrite IH; lia].
    + apply IH.
Qed.

(** Two adjacent slices make one. *)
Lemma substring_split (s : string) (i a b : nat) :
  substring i a s ++ substring (i + a) b s = substring i (a + b) s.
Proof.
  revert i a b; induction s as [|c s IH]; intros i a b.
  - destruct i, a, b; reflexivity.
  - destruct i as [|i]; simpl.
    + destruct a as [|a]; simpl.
      * destruct b; reflexivity.
      * f_equal. apply (IH 0).
    + apply IH.
Qed.

Lemma substring_overshoot (s : string) (i m : nat) :
  String.length s - i <= m -> substring i m s = substring i (String.length s - i) s.
Proof.
  revert i m; induction s as [|c s IH]; intros i m H.
  - destruct i, m; reflexivity.
  - destruct i as [|i]; simpl in *.
    + destruct m as [|m]; [lia|]. f_equal. rewrite (IH 0 m) by lia.
      now rewrite Nat.sub_0_r.
    + apply IH; lia.
Qed.

Lemma concatStr_app (a b : list string) :
  concatStr (a ++ b) = concatStr a ++ concatStr b.
Proof.
  induction a as [|x a IH]; simpl; [reflexivity|].
  now rewrite IH, append_assoc.
Qed.

(** ** Traces *)

Lemma dataOf_app (a b : list Event) : dataOf (a ++ b) = (dataOf a ++ dataOf b)%list.
Proof. induction a as [|[] a IH]; simpl; congruence. Qed.

Lemma delaysOf_app (a b : list Event) :
  delaysOf (a ++ b) = (delaysOf a ++ delaysOf b)%list.
Proof. induction a as [|[] a IH]; simpl; congruence. Qed.

Lemma fetchesOf_app (a b : list Event) :
  fetchesOf (a ++ b) = (fetchesOf a ++ fetchesOf b)%list.
Proof. induction a as [|[] a IH]; simpl; congruence. Qed.

Lemma dataOf_paced (chunks : list string) : dataOf (paced chunks) = chunks.
Proof. induction chunks as [|c l IH]; simpl; congruence. Qed.

Lemma fetchesOf_paced (chunks : list string) : fetchesOf (paced chunks) = [].
Proof. induction chunks as [|c l IH]; simpl; congruence. Qed.

Lemma paced_app (a b : list string) : paced (a ++ b) = (paced a ++ paced b)%list.
Proof. unfold paced. apply flat_map_app. Qed.

Lemma newEvents_after (w : World) (n : nat) (evs : list Event) :
  newEvents w (after w n evs) = evs.
Proof.
  unfold newEvents, after; simpl.
  rewrite skipn_app, skipn_all, Nat.sub_diag. reflexivity.
Qed.

Lemma after_nil (w : World) : after w 0 [] = w.
Proof.
  destruct w; unfold after; simpl. now rewrite app_nil_r.
Qed.

Lemma after_after (w : World) (n m : nat) (a b : list Event) :
  after (after w n a) m b = after w (n + m) (a ++ b).
Proof.
  unfold after; simpl. f_equal; [lia | now rewrite app_assoc].
Qed.

(** ** The chunk streamer *)

Lemma emit_after (e : Event) (w : World) :
  emit e w = (Returned tt, after w 0 [e]).
Proof. reflexivity. Qed.

Lemma ceil_step (n c : nat) :
  0 < c -> 0 < n -> (n + c - 1) / c = S ((n - c + c - 1) / c).
Proof.
  intros Hc Hn.
  destruct (Nat.lt_ge_cases n c) as [Hlt | Hge].
  - replace (n - c) with 0 by lia. simpl.
    rewrite (Nat.div_small (c - 1) c) by lia.
    replace (n + c - 1) with (n - 1 + 1 * c) by lia.
    rewrite Nat.div_add by lia. rewrite Nat.div_small by lia. reflexivity.
  - replace (n + c - 1) with (n - c + c - 1 + 1 * c) by lia.
    rewrite Nat.div_add by lia. lia.
Qed.

(** The loop delivers the slices that start at [i], [i + chunkSize], ... and
    never runs out of fuel when given one unit per remaining character. *)
Lemma streamTextLoop_spec (fuel : nat) (text : string) (c : nat) :
  0 < c ->
  forall (i : nat) (w : World),
    String.length text - i <= fuel ->
    streamTextLoop fuel text c i w =
      (Returned tt,
       after w 0
         (paced (map (fun j => substring (i + c * j) c text)
                     (seq 0 ((String.length text - i + c - 1) / c))))).
Proof.
  intros Hc. induction fuel as [|fuel IH]; intros i w Hfuel.
  - simpl. destruct (Nat.ltb_spec i (String.length text)) as [Hlt | Hge]; [lia|].
    replace (String.length text - i) with 0 by lia. simpl.
    rewrite Nat.div_small by lia. simpl. now rewrite after_nil.
  - simpl. destruct (Nat.ltb_spec i (String.length text)) as [Hlt | Hge].
    + rewrite (ceil_step (String.length text - i) c) by lia.
      unfold bind, onData, delay. rewrite !emit_after.
      rewrite IH by lia. rewrite !after_after. simpl.
      unfold slice. replace (i + c - i) with c by lia.
      rewrite Nat.mul_0_r, Nat.add_0_r.
      replace (String.length text - (i + c)) with (String.length text - i - c) by lia.
      rewrite <- seq_shift, map_map.
      do 3 f_equal.
      rewrite (map_ext (fun x => substring (i + c * S x) c text)
                       (fun j => substring (i + c + c * j) c text)); [reflexivity|].
      intros j. f_equal. lia.
    + replace (String.length text - i) with 0 by lia. simpl.
      rewrite Nat.div_small by lia. simpl. now rewrite after_nil.
Qed.

Lemma streamTextWith_spec (text : string) (c : nat) (w : World) :
  0 < c ->
  streamTextWith text c w = (Returned tt, after w 0 (paced (sliceAll text c))).
Proof.
  intros Hc. unfold streamTextWith.
  rewrite streamTextLoop_spec by lia.
  unfold sliceAll. now rewrite Nat.sub_0_r.
Qed.

Lemma streamText_spec (text : string) (w : World) :
  streamText text w = (Returned tt, after w 0 (paced (sliceAll text 50))).
Proof. apply streamTextWith_spec. lia. Qed.

Lemma sliceAll_length (text : string) (c : nat) :
  List.length (sliceAll text c) = (String.length text + c - 1) / c.
Proof. unfold sliceAll. now rewrite length_map, length_seq. Qed.

Lemma sliceAll_nth (text : string) (c j : nat) :
  j < List.length (sliceAll text c) ->
  nth j (sliceAll text c) "" = substring (c * j) c text.
Proof.
  rewrite sliceAll_length. intros Hj. unfold sliceAll.
  rewrite (nth_indep _ "" (substring (c * 0) c text))
    by now rewrite length_map, length_seq.
  rewrite (map_nth (fun j => substring (c * j) c text)).
  now rewrite seq_nth.
Qed.

Lemma ceil_covers (n c : nat) : 0 < c -> n <= c * ((n + c - 1) / c).
Proof.
  intros Hc.
  pose proof (Nat.div_mod_eq (n + c - 1) c) as E.
  pose proof (Nat.mod_upper_bound (n + c - 1) c ltac:(lia)). lia.
Qed.

Lemma ceil_tight (n c : nat) : 0 < c -> c * ((n + c - 1) / c) <= n + c - 1.
Proof. intros Hc. apply Nat.Div0.mul_div_le. Qed.

Lemma concat_slices (text : string) (c k i : nat) :
  concatStr (map (fun j => substring (i + c * j) c text) (seq 0 k))
  = substring i (c * k) text.
Proof.
  revert i; induction k as [|k IH]; intros i.
  - simpl. now rewrite Nat.mul_0_r, substring_zero_len.
  - simpl. rewrite <- seq_shift, map_map.
    rewrite (map_ext (fun x => substring (i + c * S x) c text)
                     (fun j => substring (i + c + c * j) c text))
      by (intros j; f_equal; lia).
    rewrite IH, Nat.mul_0_r, Nat.add_0_r, substring_split.
    f_equal. lia.
Qed.

Lemma sliceAll_concat (text : string) (c : nat) :
  0 < c -> concatStr (sliceAll text c) = text.
Proof.
  intros Hc. unfold sliceAll.
  rewrite (map_ext (fun j => substring (c * j) c text)
                   (fun j => substring (0 + c * j) c text)) by reflexivity.
  rewrite concat_slices, substring_overshoot.
  - rewrite Nat.sub_0_r. apply substring_all.
  - pose proof (ceil_covers (String.length text) c Hc). lia.
Qed.

Lemma sliceAll_empty (c : nat) : 0 < c -> sliceAll "" c = [].
Proof.
  intros Hc. unfold sliceAll. simpl.
  now rewrite Nat.div_small by lia.
Qed.

(** ** The transport *)

Lemma delaysOf_retryEvents (url : string) (payload : JSON) (k : nat) (rc : Z) :
  delaysOf (retryEvents url payload rc k)
  = map (fun j => (2 ^ (rc + Z.of_nat j) * 1000)%Z) (seq 0 k).
Proof.
  revert rc; induction k as [|k IH]; intros rc; [reflexivity|].
  cbn [retryEvents delaysOf seq map]. rewrite IH, <- seq_shift, map_map.
  rewrite Z.add_0_r. f_equal. apply map_ext. intros j. do 2 f_equal. lia.
Qed.

Lemma fetchesOf_retryEvents (url : string) (payload : JSON) (k : nat) (rc : Z) :
  fetchesOf (retryEvents url payload rc k) = repeat (url, payload) k.
Proof.
  revert rc; induction k as [|k IH]; intros rc; [reflexivity|].
  cbn [retryEvents fetchesOf repeat]. now rewrite IH.
Qed.

Lemma dataOf_retryEvents (url : string) (payload : JSON) (k : nat) (rc : Z) :
  dataOf (retryEvents url payload rc k) = [].
Proof.
  revert rc; induction k as [|k IH]; intros rc; [reflexivity|].
  cbn [retryEvents dataOf]. apply IH.
Qed.

(** The sum of the first [k] backoff delays is [2^k - 1] seconds. *)
Lemma backoff_sum (k : nat) :
  fold_right Z.add 0%Z (map (fun j => (2 ^ Z.of_nat j * 1000)%Z) (seq 0 k))
  = ((2 ^ Z.of_nat k - 1) * 1000)%Z.
Proof.
  induction k as [|k IH]; [reflexivity|].
  rewrite seq_S, map_app, fold_right_app. cbn [map fold_right Nat.add].
  assert (G : forall (l : list Z) (a : Z),
             fold_right Z.add a l = (fold_right Z.add 0 l + a)%Z).
  { induction l as [|x l IHl]; intros a; simpl; [lia | rewrite IHl; lia]. }
  rewrite G, IH. rewrite Nat2Z.inj_succ, Z.pow_succ_r by lia. lia.
Qed.

Section TransportFacts.

Variable net : Network.

(** After [k] failures that are retried, [makeRequest] settles on the
    outcome of attempt [k] when that attempt is not retried. *)
Lemma makeRequestFuel_run (url : string) (payload : JSON) (k : nat) :
  forall (fuel : nat) (rc : Z) (w : World) (o : FetchOutcome),
    k < fuel ->
    (forall j, j < k ->
       exists e, net (j + posts w) = Rejected e /\ isRetryableError e = true) ->
    (Z.of_nat k <= Z.max 0 (maxRetries (this w) - rc))%Z ->
    net (k + posts w) = o ->
    notRetried (this w) (rc + Z.of_nat k) o = true ->
    makeRequestFuel net fuel url payload rc w
    = (settle o,
       after w (S k) (retryEvents url payload rc k ++ [EvFetch url payload])).
Proof.
  induction k as [|k IH]; intros fuel rc w o Hfuel Hfail Hrc Hlast Hstop.
  - destruct fuel as [|fuel]; [lia|].
    simpl in Hlast. rewrite Z.add_0_r in Hstop.
    cbn [makeRequestFuel]. unfold tryCatch, bind, fetch. rewrite Hlast.
    destruct o as [r | e]; [reflexivity|].
    cbn [notRetried] in Hstop. unfold getThis. cbn [this].
    apply negb_true_iff in Hstop. rewrite Hstop. reflexivity.
  - destruct fuel as [|fuel]; [lia|].
    destruct (Hfail 0 ltac:(lia)) as [e [He Hretry]]. simpl in He.
    cbn [makeRequestFuel]. unfold tryCatch, bind, fetch. rewrite He.
    unfold getThis. cbn [this]. rewrite Hretry.
    replace (rc <? maxRetries (this w))%Z with true
      by (symmetry; apply Z.ltb_lt; lia).
    cbn [andb]. unfold delay. rewrite emit_after.
    set (w1 := {| this := this w; posts := S (posts w);
                  trace := trace w ++ [EvFetch url payload] |}).
    assert (Ew1 : after w1 0 [EvDelay (2 ^ rc * 1000)%Z]
                  = after w 1 [EvFetch url payload; EvDelay (2 ^ rc * 1000)%Z]).
    { unfold after, w1; simpl. now rewrite <- app_assoc. }
    rewrite Ew1.
    rewrite (IH fuel (rc + 1)%Z _ o).
    + rewrite after_after. reflexivity.
    + lia.
    + intros j Hj. destruct (Hfail (S j) ltac:(lia)) as [e' He'].
      exists e'. cbn [after posts].
      replace (j + (1 + posts w)) with (S j + posts w) by lia. exact He'.
    + cbn [after this]. lia.
    + cbn [after posts]. rewrite <- Hlast. f_equal. lia.
    + cbn [after this].
      replace (rc + 1 + Z.of_nat k)%Z with (rc + Z.of_nat (S k))%Z by lia.
      exact Hstop.
Qed.

(** Whatever the network does, [makeRequest] stops within its fuel: it makes
    [k + 1] attempts for some [k] no larger than the retry budget left, backs
    off after each of the first [k], and returns or throws. *)
Lemma makeRequestFuel_shape (url : string) (payload : JSON) (fuel : nat) :
  forall (rc : Z) (w : World),
    Z.to_nat (maxRetries (this w) - rc) < fuel ->
    exists (k : nat) (o : FetchOutcome),
      k <= Z.to_nat (maxRetries (this w) - rc) /\
      net (k + posts w) = o /\
      makeRequestFuel net fuel url payload rc w
      = (settle o,
         after w (S k) (retryEvents url payload rc k ++ [EvFetch url payload])).
Proof.
  induction fuel as [|fuel IH]; intros rc w Hfuel; [lia|].
  cbn [makeRequestFuel]. unfold tryCatch, bind, fetch.
  destruct (net (posts w)) as [r | e] eqn:Hnet.
  - exists 0, (Resolved r). repeat split; [lia | exact Hnet].
  - unfold getThis. cbn [this].
    destruct ((rc <? maxRetries (this w))%Z && isRetryableError e) eqn:Hcond.
    + apply andb_true_iff in Hcond. destruct Hcond as [Hlt Hretry].
      apply Z.ltb_lt in Hlt.
      unfold delay. rewrite emit_after.
      set (w1 := {| this := this w; posts := S (posts w);
                    trace := trace w ++ [EvFetch url payload] |}).
      assert (Ew1 : after w1 0 [EvDelay (2 ^ rc * 1000)%Z]
                    = after w 1 [EvFetch url payload; EvDelay (2 ^ rc * 1000)%Z]).
      { unfold after, w1; simpl. now rewrite <- app_assoc. }
      rewrite Ew1.
      destruct (IH (rc + 1)%Z (after w 1 [EvFetch url payload;
                                          EvDelay (2 ^ rc * 1000)%Z]))
        as [k [o [Hk [Ho Hrun]]]].
      { cbn [after this]. lia. }
      cbn [after this posts] in Hk, Ho.
      exists (S k), o. repeat split.
      * lia.
      * rewrite <- Ho. f_equal. lia.
      * rewrite Hrun, after_after. reflexivity.
    + exists 0, (Rejected e). repeat split; [lia | exact Hnet].
Qed.

Lemma makeRequest_unfold (url : string) (payload : JSON) (rc : Z) (w : World) :
  makeRequest net url payload rc w
  = makeRequestFuel net (S (Z.to_nat (maxRetries (this w) - rc))) url payload rc w.
Proof. reflexivity. Qed.

Lemma makeRequest_shape (url : string) (payload : JSON) (rc : Z) (w : World) :
  exists (k : nat) (o : FetchOutcome),
    k <= Z.to_nat (maxRetries (this w) - rc) /\
    net (k + posts w) = o /\
    makeRequest net url payload rc w
    = (settle o,
       after w (S k) (retryEvents url payload rc k ++ [EvFetch url payload])).
Proof.
  rewrite makeRequest_unfold. apply makeRequestFuel_shape. lia.
Qed.

(** [makeRequest] always returns or throws. *)
Lemma makeRequest_terminates (url : string) (payload : JSON) (rc : Z) (w : World) :
  exists o : FetchOutcome, fst (makeRequest net url payload rc w) = settle o.
Proof.
  destruct (makeRequest_shape url payload rc w) as [k [o [_ [_ E]]]].
  exists o. now rewrite E.
Qed.

Lemma makeRequest_run (url : string) (payload : JSON) (k : nat) (w : World)
    (o : FetchOutcome) :
  (forall j, j < k ->
     exists e, net (j + posts w) = Rejected e /\ isRetryableError e = true) ->
  (Z.of_nat k <= Z.max 0 (maxRetries (this w)))%Z ->
  net (k + posts w) = o ->
  notRetried (this w) (Z.of_nat k) o = true ->
  makeRequest net url payload 0 w
  = (settle o,
     after w (S k) (retryEvents url payload 0 k ++ [EvFetch url payload])).
Proof.
  intros Hfail Hk Hlast Hstop. rewrite makeRequest_unfold.
  apply makeRequestFuel_run; auto; lia.
Qed.

End TransportFacts.

(** ** Retry policy *)

(** C1.  A server error reaches the client as a resolved response, not as a
    rejection, so [makeRequest] returns it after its only attempt: with the
    default budget of three retries, a 503 answer makes [listTools] and
    [callToolStream] fail after one POST and no backoff, although
    [isRetryableError] classifies an error that carries such a status as
    retryable. *)
Theorem server_error_response_is_not_retried (JSON_parse : string -> ParseResult) :
  let net := Sample.always Sample.response503 in
  let w := fresh Sample.client in
  maxRetries Sample.client = 3%Z /\
  isRetryableError
    {| name := "Error"; message := "HTTP 503"; code := None;
       response := Some 503%Z |} = true /\
  fst (listTools net JSON_parse Sample.serverName w)
  = Thrown (Error ("Failed to fetch tools from aws-knowledge-mcp-server "
                     ++ "(https://knowledge-mcp.global.api.aws): "
                     ++ "HTTP 503: Service Unavailable. Body: upstream down")) /\
  List.length (fetchesOf (trace (snd (listTools net JSON_parse Sample.serverName w)))) = 1 /\
  delaysOf (trace (snd (listTools net JSON_parse Sample.serverName w))) = [] /\
  fst (callToolStream net JSON_parse Sample.serverName "search" JNull w)
  = Thrown (Error ("Failed to call tool 'search' on aws-knowledge-mcp-server: "
                     ++ "HTTP 503: Service Unavailable. Body: upstream down")) /\
  List.length
    (fetchesOf (trace (snd (callToolStream net JSON_parse Sample.serverName
                              "search" JNull w)))) = 1 /\
  delaysOf (trace (snd (callToolStream net JSON_parse Sample.serverName
                          "search" JNull w))) = [].
Proof. cbv zeta. repeat split; vm_compute; reflexivity. Qed.

(** C2, as the code has it.  When the first [k] attempts fail transiently
    and [k] does not exceed [maxRetries], the attempts are retried with
    backoff delays of 2^0, ..., 2^(k-1) seconds, [k + 1] POSTs are made in
    all, and the call settles on attempt [k]: it returns the response if
    that attempt succeeds (so also for [k = maxRetries]), and if
    [k = maxRetries] and that attempt fails as well, it throws that last
    error without a further attempt. *)
Theorem makeRequest_backoff (net : Network) (url : string) (payload : JSON)
    (w : World) (k : nat) :
  (Z.of_nat k <= maxRetries (this w))%Z ->
  (forall j, j < k ->
     exists e, net (j + posts w) = Rejected e /\ isRetryableError e = true) ->
  let run := makeRequest net url payload 0 w in
  let evs := newEvents w (snd run) in
  let shape :=
    fetchesOf evs = repeat (url, payload) (S k) /\
    delaysOf evs = map (fun j => (2 ^ Z.of_nat j * 1000)%Z) (seq 0 k) /\
    fold_right Z.add 0%Z (delaysOf evs) = ((2 ^ Z.of_nat k - 1) * 1000)%Z /\
    posts (snd run) = S k + posts w in
  (forall r, net (k + posts w) = Resolved r -> fst run = Returned r /\ shape) /\
  (forall e, Z.of_nat k = maxRetries (this w) ->
             net (k + posts w) = Rejected e -> fst run = Thrown e /\ shape).
Proof.
  intros Hk Hfail run evs shape.
  assert (Hgen : notRetried (this w) (Z.of_nat k) (net (k + posts w)) = true ->
                 fst run = settle (net (k + posts w)) /\ shape).
  { intros Hstop.
    assert (Hrun : run = (settle (net (k + posts w)),
                          after w (S k) (retryEvents url payload 0 k
                                           ++ [EvFetch url payload])))
      by (apply makeRequest_run; auto; lia).
    unfold shape, evs. rewrite Hrun. cbn [fst snd].
    rewrite newEvents_after, fetchesOf_app, delaysOf_app, fetchesOf_retryEvents,
      delaysOf_retryEvents.
    cbn [fetchesOf delaysOf after posts]. rewrite app_nil_r, <- repeat_cons.
    rewrite (map_ext (fun j => (2 ^ (0 + Z.of_nat j) * 1000)%Z)
                     (fun j => (2 ^ Z.of_nat j * 1000)%Z)) by reflexivity.
    rewrite backoff_sum. repeat split. }
  split.
  - intros r Hr. rewrite Hr in Hgen. apply Hgen. reflexivity.
  - intros e Hmax He. rewrite He in Hgen. apply Hgen.
    cbn [notRetried]. replace (Z.of_nat k <? maxRetries (this w))%Z with false
      by (symmetry; apply Z.ltb_ge; lia). reflexivity.
Qed.

(** The retry policy on the default client: three resets and then an answer
    is a success on the fourth POST after 1 + 2 + 4 seconds of backoff; four
    resets is a failure after the fourth POST. *)
Lemma makeRequest_backoff_witness :
  (fst (makeRequest (Sample.failsThen 3 Sample.response404) Sample.serverUrl JNull 0
          (fresh Sample.client))
   = Returned Sample.response404 /\
   delaysOf (newEvents (fresh Sample.client)
               (snd (makeRequest (Sample.failsThen 3 Sample.response404)
                       Sample.serverUrl JNull 0 (fresh Sample.client))))
   = [1000; 2000; 4000]%Z) /\
  (fst (makeRequest Sample.alwaysReset Sample.serverUrl JNull 0 (fresh Sample.client))
   = Thrown Sample.connReset /\
   List.length
     (fetchesOf (newEvents (fresh Sample.client)
                   (snd (makeRequest Sample.alwaysReset Sample.serverUrl JNull 0
                           (fresh Sample.client))))) = 4).
Proof.
  split.
  - destruct (makeRequest_backoff (Sample.failsThen 3 Sample.response404)
                Sample.serverUrl JNull (fresh Sample.client) 3) as [Hok _].
    + vm_compute. discriminate.
    + intros j Hj. exists Sample.connReset.
      destruct j as [|[|[|j]]]; [split; reflexivity .. | lia].
    + destruct (Hok Sample.response404 eq_refl) as [Hres [_ [Hdel _]]].
      split; [exact Hres | exact Hdel].
  - destruct (makeRequest_backoff Sample.alwaysReset
                Sample.serverUrl JNull (fresh Sample.client) 3) as [_ Hko].
    + vm_compute. discriminate.
    + intros j Hj. exists Sample.connReset. split; reflexivity.
    + destruct (Hko Sample.connReset eq_refl eq_refl) as [Hres [Hf _]].
      split; [exact Hres | rewrite Hf; reflexivity].
Defined.

(** C2 as stated fails at [k = maxRetries]: on the default client, three
    transient failures followed by an answer do not fail the call; the
    third retry is the fourth attempt and it succeeds. *)
Lemma three_failures_then_success_returns :
  maxRetries Sample.client = 3%Z /\
  (forall j, j < 3 ->
     Sample.failsThen 3 Sample.response404 j = Rejected Sample.connReset) /\
  isRetryableError Sample.connReset = true /\
  Sample.failsThen 3 Sample.response404 3 = Resolved Sample.response404 /\
  fst (makeRequest (Sample.failsThen 3 Sample.response404) Sample.serverUrl JNull 0
         (fresh Sample.client))
  = Returned Sample.response404.
Proof.
  repeat split.
  intros j Hj. destruct j as [|[|[|j]]]; [reflexivity .. | lia].
Qed.

(** C10.  The constructor falls back to its defaults on any falsy option, so
    a configured 0 becomes 30000 for the timeout and 3 for the retry budget;
    no constructed client has a budget of 0, and the client configured with
    0 still retries a reset connection after one second. *)
Theorem constructor_zero_options_fall_back (srv : Servers) :
  constructor srv Sample.zeroOptions
  = {| servers := srv; requestId := 1; timeout := 30000; maxRetries := 3 |} /\
  (forall options, maxRetries (constructor srv options) <> 0%Z) /\
  (forall options, timeout (constructor srv options) <> 0%Z) /\
  (forall (r : Response) (url : string) (payload : JSON),
     makeRequest (Sample.failsThen 1 r) url payload 0
       (fresh (constructor srv Sample.zeroOptions))
     = (Returned r,
        {| this := constructor srv Sample.zeroOptions; posts := 2;
           trace := [ EvFetch url payload; EvDelay 1000; EvFetch url payload ] |})).
Proof.
  split; [reflexivity|]. split; [|split].
  - intros [t [m|]]; cbn; [|discriminate].
    destruct (Z.eqb_spec m 0); [discriminate | assumption].
  - intros [[t|] m]; cbn; [|discriminate].
    destruct (Z.eqb_spec t 0); [discriminate | assumption].
  - intros r url payload. reflexivity.
Qed.

(** ** Chunked delivery *)

(** C4.  [streamText] hands the consumer the consecutive 50-character slices
    of the text, in order, each followed by the pacing delay and nothing
    else: there are ceil(n/50) of them, slice [j] is the substring at offset
    [50 * j], together they spell the text, all but the last have length 50,
    the last has between 1 and 50 characters, and the empty text produces no
    event at all. *)
Theorem streamText_chunks (text : string) (w : World) :
  let run := streamText text w in
  let chunks := dataOf (newEvents w (snd run)) in
  fst run = Returned tt /\
  newEvents w (snd run) = paced chunks /\
  List.length chunks = (String.length text + 49) / 50 /\
  (forall j, j < List.length chunks ->
             nth j chunks "" = substring (50 * j) 50 text) /\
  concatStr chunks = text /\
  (forall j, S j < List.length chunks -> String.length (nth j chunks "") = 50) /\
  (forall j, S j = List.length chunks ->
             1 <= String.length (nth j chunks "") <= 50) /\
  (text = "" -> newEvents w (snd run) = []).
Proof.
  cbv zeta. rewrite streamText_spec. cbn [fst snd].
  rewrite newEvents_after, dataOf_paced.
  pose proof (sliceAll_length text 50) as Hlen.
  replace (String.length text + 50 - 1) with (String.length text + 49) in Hlen by lia.
  pose proof (ceil_covers (String.length text) 50 ltac:(lia)) as Hcov.
  pose proof (ceil_tight (String.length text) 50 ltac:(lia)) as Htight.
  replace (String.length text + 50 - 1) with (String.length text + 49)
    in Hcov, Htight by lia.
  repeat split.
  - exact Hlen.
  - intros j Hj. now apply sliceAll_nth.
  - apply sliceAll_concat. lia.
  - intros j Hj. rewrite sliceAll_nth by lia.
    rewrite substring_length. rewrite Hlen in Hj. lia.
  - rewrite sliceAll_nth by lia. rewrite substring_length.
    rewrite Hlen in H. lia.
  - rewrite sliceAll_nth by lia. rewrite substring_length. lia.
  - intros ->. now rewrite sliceAll_empty by lia.
Qed.

Lemma streamText_chunks_witness :
  String.length
    (nth 0 (dataOf (newEvents (fresh Sample.client)
                      (snd (streamText (Sample.sixty ++ Sample.sixty)
                              (fresh Sample.client))))) "") = 50 /\
  1 <= String.length
         (nth 2 (dataOf (newEvents (fresh Sample.client)
                           (snd (streamText (Sample.sixty ++ Sample.sixty)
                                   (fresh Sample.client))))) "") <= 50.
Proof.
  destruct (streamText_chunks (Sample.sixty ++ Sample.sixty) (fresh Sample.client))
    as [_ [_ [_ [_ [_ [Hfull [Hlast _]]]]]]].
  split.
  - apply Hfull. vm_compute. lia.
  - apply Hlast. vm_compute. reflexivity.
Defined.

(** The spec's example: 120 characters arrive as 50, 50 and 20. *)
Example streamText_120 :
  map String.length
    (dataOf (trace (snd (streamText (Sample.sixty ++ Sample.sixty)
                           (fresh Sample.client)))))
  = [50; 50; 20].
Proof. vm_compute. reflexivity. Qed.

(** ** The normalizer *)

Lemma getProp_field (v : JSON) (key : string) (w : World) :
  v <> JNull -> getProp (Some v) key w = (Returned (field v key), w).
Proof. destruct v; intros H; try reflexivity. congruence. Qed.

Lemma streamItem_spec (item : JSON) (w : World) :
  itemWellTyped item = true ->
  streamItem item w = (Returned tt, after w 0 (paced (sliceAll (itemText item) 50))).
Proof.
  intros Hwt. destruct item as [| | | | |fields]; try discriminate.
  unfold streamItem, bind, itemText. unfold itemWellTyped in Hwt.
  rewrite getProp_field by discriminate.
  destruct (strictEqStr (field (JObj fields) "type") "text").
  - rewrite getProp_field by discriminate.
    destruct (field (JObj fields) "text") as [[| | |t| |]|]; try discriminate.
    + cbn [truthy]. destruct (String.eqb_spec t "") as [-> | Hne]; cbn [negb].
      * rewrite sliceAll_empty by lia. cbn [paced flat_map]. now rewrite after_nil.
      * apply streamText_spec.
    + cbn [truthy]. rewrite sliceAll_empty by lia. cbn [paced flat_map].
      now rewrite after_nil.
  - rewrite sliceAll_empty by lia. cbn [paced flat_map]. now rewrite after_nil.
Qed.

(** The loop over the content items streams each item's text on its own. *)
Lemma forEachItem_spec (items : list JSON) :
  forallb itemWellTyped items = true ->
  forall w : World,
    forEachItem items w
    = (Returned tt,
       after w 0 (paced (flat_map (fun item => sliceAll (itemText item) 50) items))).
Proof.
  induction items as [|item items IH]; intros Hwt w.
  - cbn. now rewrite after_nil.
  - cbn [forallb] in Hwt. apply andb_true_iff in Hwt. destruct Hwt as [Hi Hrest].
    cbn [forEachItem]. unfold bind. rewrite streamItem_spec by assumption.
    rewrite IH by assumption. rewrite after_after.
    cbn [flat_map]. now rewrite paced_app.
Qed.

Lemma concatStr_flat_map_sliceAll (texts : list string) :
  concatStr (flat_map (fun t => sliceAll t 50) texts) = concatStr texts.
Proof.
  induction texts as [|t texts IH]; [reflexivity|].
  cbn [flat_map]. rewrite concatStr_app, IH, sliceAll_concat by lia. reflexivity.
Qed.

Lemma processToolResponse_content (payload : JSON) (items : list JSON) (w : World) :
  field payload "content" = Some (JArr items) ->
  processToolResponse (Some payload) w = forEachItem items w.
Proof.
  intros Hc. assert (payload <> JNull) by (intros ->; discriminate).
  unfold processToolResponse, bind. rewrite getProp_field by assumption.
  rewrite Hc. reflexivity.
Qed.

Lemma processToolResponse_no_content (payload : JSON) (w : World) :
  payload <> JNull ->
  isArray (field payload "content") = false ->
  processToolResponse (Some payload) w
  = (if truthy (field payload "text") then streamTextValue (field payload "text")
     else streamText (stringifyPretty payload)) w.
Proof.
  intros Hnn Hc. unfold processToolResponse, bind.
  rewrite getProp_field by assumption. rewrite Hc, andb_false_r.
  rewrite getProp_field by assumption.
  destruct (truthy (field payload "text")); reflexivity.
Qed.

Lemma streamed_streamText (text : string) (w : World) :
  concatStr (dataOf (newEvents w (snd (streamText text w)))) = text.
Proof.
  rewrite streamText_spec. cbn [snd].
  rewrite newEvents_after, dataOf_paced. apply sliceAll_concat. lia.
Qed.

(** C3, as the code has it.  A payload whose [content] is an array of
    well-typed items streams the texts of the items of type text, in order,
    and skips the others; otherwise a payload with a non-empty string [text]
    streams that string; otherwise (no [text], or an empty or otherwise
    falsy one) the pretty-printed payload is streamed. *)
Theorem processToolResponse_shapes (payload : JSON) (w : World) :
  payload <> JNull ->
  let run := processToolResponse (Some payload) w in
  let streamed := concatStr (dataOf (newEvents w (snd run))) in
  (forall items,
     field payload "content" = Some (JArr items) ->
     forallb itemWellTyped items = true ->
     fst run = Returned tt /\ streamed = concatStr (map itemText items)) /\
  (forall t,
     isArray (field payload "content") = false ->
     field payload "text" = Some (JStr t) -> t <> "" ->
     run = streamText t w /\ streamed = t) /\
  (isArray (field payload "content") = false ->
   truthy (field payload "text") = false ->
   run = streamText (stringifyPretty payload) w /\
   streamed = stringifyPretty payload).
Proof.
  intros Hnn run streamed. repeat split.
  - unfold run. rewrite (processToolResponse_content _ _ _ H).
    now rewrite forEachItem_spec.
  - unfold streamed, run. rewrite (processToolResponse_content _ _ _ H).
    rewrite forEachItem_spec by assumption. cbn [snd].
    rewrite newEvents_after, dataOf_paced.
    clear. induction items as [|item items IH]; [reflexivity|].
    cbn [map flat_map]. rewrite concatStr_app, IH, sliceAll_concat by lia.
    reflexivity.
  - unfold run. rewrite processToolResponse_no_content by assumption.
    rewrite H0. cbn [truthy].
    destruct (String.eqb_spec t "") as [E | _]; [contradiction | reflexivity].
  - unfold streamed, run. rewrite processToolResponse_no_content by assumption.
    rewrite H0. cbn [truthy].
    destruct (String.eqb_spec t "") as [E | _]; [contradiction |].
    cbn [negb streamTextValue]. apply streamed_streamText.
  - unfold run. rewrite processToolResponse_no_content by assumption.
    now rewrite H0.
  - unfold streamed, run. rewrite processToolResponse_no_content by assumption.
    rewrite H0. apply streamed_streamText.
Qed.

Lemma processToolResponse_shapes_witness :
  concatStr (dataOf (newEvents (fresh Sample.client)
     (snd (processToolResponse (Some Sample.mixedPayload) (fresh Sample.client)))))
  = "AB" /\
  concatStr (dataOf (newEvents (fresh Sample.client)
     (snd (processToolResponse (Some Sample.helloPayload) (fresh Sample.client)))))
  = "hello" /\
  concatStr (dataOf (newEvents (fresh Sample.client)
     (snd (processToolResponse (Some Sample.fooPayload) (fresh Sample.client)))))
  = stringifyPretty Sample.fooPayload.
Proof.
  split; [|split].
  - destruct (processToolResponse_shapes Sample.mixedPayload (fresh Sample.client))
      as [Hcontent _]; [discriminate|].
    destruct (Hcontent _ eq_refl eq_refl) as [_ E]. exact E.
  - destruct (processToolResponse_shapes Sample.helloPayload (fresh Sample.client))
      as [_ [Htext _]]; [discriminate|].
    destruct (Htext "hello" eq_refl eq_refl) as [_ E]; [discriminate | exact E].
  - destruct (processToolResponse_shapes Sample.fooPayload (fresh Sample.client))
      as [_ [_ Hfallback]]; [discriminate|].
    destruct (Hfallback eq_refl eq_refl) as [_ E]. exact E.
Defined.

(** C3 as stated fails on a payload whose top-level [text] is the empty
    string: the field is there, and streaming it would deliver nothing, but
    the test [result.text] is falsy and the pretty-printed payload, sixteen
    characters in one chunk, is delivered instead. *)
Lemma empty_text_streams_the_json :
  field Sample.emptyTextPayload "content" = None /\
  field Sample.emptyTextPayload "text" = Some (JStr "") /\
  dataOf (trace (snd (streamText "" (fresh Sample.client)))) = [] /\
  dataOf (trace (snd (processToolResponse (Some Sample.emptyTextPayload)
                        (fresh Sample.client))))
  = [ stringifyPretty Sample.emptyTextPayload ] /\
  String.length (stringifyPretty Sample.emptyTextPayload) = 16.
Proof. repeat split; vm_compute; reflexivity. Qed.

Lemma isTextItem_typed (item : JSON) (t : string) :
  isTextItem item t -> itemWellTyped item = true /\ itemText item = t.
Proof.
  intros [fields [-> [Hty Htx]]].
  unfold itemWellTyped, itemText. cbn [field]. rewrite Hty, Htx. cbn.
  split; reflexivity.
Qed.

(** C5, as the code has it.  When [content] is a sequence of text items,
    every item is sliced on its own: the chunks delivered are the
    50-character slices of the first text, then those of the second, and so
    on, so a chunk never spans two items; their concatenation is the
    concatenation of the texts. *)
Theorem content_items_are_chunked_one_by_one (payload : JSON)
    (items : list JSON) (texts : list string) (w : World) :
  field payload "content" = Some (JArr items) ->
  Forall2 isTextItem items texts ->
  let run := processToolResponse (Some payload) w in
  fst run = Returned tt /\
  dataOf (newEvents w (snd run)) = flat_map (fun t => sliceAll t 50) texts /\
  concatStr (dataOf (newEvents w (snd run))) = concatStr texts.
Proof.
  intros Hc Hitems run.
  assert (Hwt : forallb itemWellTyped items = true).
  { clear Hc run. induction Hitems as [|item t items texts Hit _ IH]; [reflexivity|].
    cbn [forallb]. rewrite IH.
    destruct (isTextItem_typed _ _ Hit) as [E _]. now rewrite E. }
  assert (Hsame : flat_map (fun item => sliceAll (itemText item) 50) items
                  = flat_map (fun t => sliceAll t 50) texts).
  { clear Hwt Hc run. induction Hitems as [|item t items texts Hit _ IH]; [reflexivity|].
    cbn [flat_map]. rewrite IH.
    destruct (isTextItem_typed _ _ Hit) as [_ E]. now rewrite E. }
  unfold run. rewrite (processToolResponse_content _ _ _ Hc).
  rewrite forEachItem_spec by assumption. cbn [fst snd].
  rewrite newEvents_after, dataOf_paced, Hsame.
  repeat split. apply concatStr_flat_map_sliceAll.
Qed.

Lemma content_items_are_chunked_one_by_one_witness :
  map String.length
    (dataOf (newEvents (fresh Sample.client)
               (snd (processToolResponse (Some Sample.twoSixties)
                       (fresh Sample.client)))))
  = [50; 10; 50; 10].
Proof.
  destruct (content_items_are_chunked_one_by_one Sample.twoSixties
              [Sample.textItem Sample.sixty; Sample.textItem Sample.sixty]
              [Sample.sixty; Sample.sixty] (fresh Sample.client))
    as [_ [E _]].
  - reflexivity.
  - repeat constructor; eexists; repeat split.
  - rewrite E. reflexivity.
Defined.

(** C5 as stated fails on two text items of sixty characters: the chunks
    have lengths 50, 10, 50, 10, not the 50, 50, 20 of the concatenated
    string. *)
Lemma two_sixties_are_not_rechunked :
  map String.length
    (dataOf (trace (snd (processToolResponse (Some Sample.twoSixties)
                           (fresh Sample.client)))))
  = [50; 10; 50; 10] /\
  map String.length (sliceAll (Sample.sixty ++ Sample.sixty) 50) = [50; 50; 20] /\
  dataOf (trace (snd (processToolResponse (Some Sample.twoSixties)
                        (fresh Sample.client))))
  <> sliceAll (Sample.sixty ++ Sample.sixty) 50.
Proof.
  split; [vm_compute; reflexivity|]. split; [vm_compute; reflexivity|].
  intros E. apply (f_equal (@List.length string)) in E. vm_compute in E. discriminate.
Qed.

(** ** What the normalizer can do to the world *)

Lemma getProp_world (v : Value) (key : string) (w : World) :
  snd (getProp v key w) = w.
Proof. destruct v as [[]|]; reflexivity. Qed.

Ltac same_world E :=
  match type of E with
  | getProp ?v ?key ?w = (_, ?w1) =>
      let H := fresh in
      pose proof (getProp_world v key w) as H;
      rewrite E in H; cbn [snd] in H; subst w1
  end.

Lemma streamTextValue_frame (v : Value) (w : World) :
  exists chunks, snd (streamTextValue v w) = after w 0 (paced chunks).
Proof.
  destruct v as [[| | |t| |]|]; cbn [streamTextValue];
    try (exists []; cbn; now rewrite after_nil).
  exists (sliceAll t 50). now rewrite streamText_spec.
Qed.

Lemma streamItem_frame (item : JSON) (w : World) :
  exists chunks, snd (streamItem item w) = after w 0 (paced chunks).
Proof.
  unfold streamItem, bind.
  destruct (getProp (Some item) "type" w) as [[ty| | |] w1] eqn:Ety;
    same_world Ety;
    try (exists []; cbn; now rewrite after_nil).
  destruct (strictEqStr ty "text"); [|exists []; cbn; now rewrite after_nil].
  destruct (getProp (Some item) "text" w) as [[tx| | |] w2] eqn:Etx;
    same_world Etx;
    try (exists []; cbn; now rewrite after_nil).
  destruct (truthy tx); [apply streamTextValue_frame|].
  exists []; cbn; now rewrite after_nil.
Qed.

Lemma forEachItem_frame (items : list JSON) :
  forall w : World,
    exists chunks, snd (forEachItem items w) = after w 0 (paced chunks).
Proof.
  induction items as [|item items IH]; intros w.
  - exists []. cbn. now rewrite after_nil.
  - cbn [forEachItem]. unfold bind.
    destruct (streamItem_frame item w) as [c1 E1].
    destruct (streamItem item w) as [[[]| | |] w1]; cbn [snd] in E1; subst w1;
      try (exists c1; reflexivity).
    destruct (IH (after w 0 (paced c1))) as [c2 E2].
    exists (c1 ++ c2)%list. rewrite E2, after_after, paced_app. reflexivity.
Qed.

(** The normalizer only hands chunks to the consumer and paces them: it
    issues no request and leaves the client untouched, also when it fails
    on an ill-formed payload. *)
Lemma processToolResponse_frame (result : Value) (w : World) :
  exists chunks, snd (processToolResponse result w) = after w 0 (paced chunks).
Proof.
  unfold processToolResponse, bind.
  destruct (getProp result "content" w) as [[content| | |] w1] eqn:Ec;
    same_world Ec;
    try (exists []; cbn; now rewrite after_nil).
  destruct (truthy content && isArray content); [apply forEachItem_frame|].
  destruct (getProp result "text" w) as [[text| | |] w2] eqn:Et;
    same_world Et;
    try (exists []; cbn; now rewrite after_nil).
  destruct (truthy text); [apply streamTextValue_frame|].
  destruct result as [r|].
  - exists (sliceAll (stringifyPretty r) 50). now rewrite streamText_spec.
  - exists []. cbn. now rewrite after_nil.
Qed.

(** ** The two operations, step by step *)

Section Operations.

Variable net : Network.
Variable JSON_parse : string -> ParseResult.

Lemma listTools_unfold (serverName : string) :
  listTools net JSON_parse serverName
  = (validateServerName serverName ;;;
     serverUrl <- readServerUrl serverName ;;
     tryCatch
       (id <- postIncrementRequestId ;;
        response <- makeRequest net serverUrl (listPayload id) 0 ;;
        interpretListResponse JSON_parse response)
       (fun error => throw (listFailure serverName serverUrl error))).
Proof. reflexivity. Qed.

Lemma callToolStream_unfold (serverName tool : string) (args : JSON) :
  callToolStream net JSON_parse serverName tool args
  = (validateServerName serverName ;;;
     serverUrl <- readServerUrl serverName ;;
     tryCatch
       (id <- postIncrementRequestId ;;
        response <- makeRequest net serverUrl (callPayload tool args id) 0 ;;
        interpretCallResponse JSON_parse response)
       (fun error => throw (callFailure serverName tool error))).
Proof. reflexivity. Qed.

(** Interpreting the answer of [tools/list] leaves the world as it is. *)
Lemma interpretListResponse_world (response : Response) (w : World) :
  snd (interpretListResponse JSON_parse response w) = w.
Proof.
  unfold interpretListResponse, responseJson, responseText, bind, throw, ret.
  destruct (ok response); cbn [negb];
    destruct (body response); try reflexivity;
    destruct (JSON_parse _) as [result | msg]; try reflexivity;
    destruct result as [| | | | |fields]; try reflexivity;
    cbn [getProp ret truthy];
    try (destruct b; reflexivity);
    try (destruct (negb _); reflexivity).
  all: unfold ret; cbn [truthy].
  all: destruct (lookup "error" fields) as [[| | | | |efields]|]; cbn [truthy getProp];
    unfold throw, ret;
    try reflexivity;
    try (destruct b; try reflexivity);
    try (destruct (negb _); try reflexivity).
  all: destruct (lookup "result" fields) as [[| | | | |rfields]|]; reflexivity.
Qed.

(** On a 2xx answer whose body parses to a value without an error envelope,
    the result is handed to the normalizer. *)
Lemma interpretCallResponse_success (response : Response) (w : World)
    (buffer : string) (result : JSON) :
  ok response = true ->
  body response = BodyText buffer ->
  JSON_parse buffer = Parsed result ->
  result <> JNull ->
  truthy (field result "error") = false ->
  interpretCallResponse JSON_parse response w
  = processToolResponse (field result "result") w.
Proof.
  intros Hok Hbody Hparse Hnn Herr.
  unfold interpretCallResponse, bind. rewrite Hok, Hbody. cbn [negb].
  unfold ret at 1 2. cbn iota. rewrite Hparse. unfold ret at 1. cbn iota.
  rewrite getProp_field by assumption. cbn iota. rewrite Herr.
  unfold ret at 1. cbn iota. rewrite getProp_field by assumption.
  destruct (processToolResponse (field result "result") w) as [[] ?]; reflexivity.
Qed.

Ltac no_chunks :=
  exists []; split;
  [ cbn [paced flat_map]; rewrite ?after_nil; reflexivity
  | let C := fresh in intros C; now destruct C ].

(** Interpreting the answer of [tools/call] only adds chunks and their
    pacing, and adds a chunk only when the answer is a 2xx response whose
    body parsed to a value free of an error envelope. *)
Lemma interpretCallResponse_frame (response : Response) (w : World) :
  exists chunks,
    snd (interpretCallResponse JSON_parse response w) = after w 0 (paced chunks) /\
    (chunks <> [] ->
     ok response = true /\
     exists buffer result,
       body response = BodyText buffer /\
       JSON_parse buffer = Parsed result /\
       result <> JNull /\
       truthy (field result "error") = false).
Proof.
  unfold interpretCallResponse, responseText, bind.
  destruct (ok response) eqn:Hok; cbn [negb].
  - unfold ret at 1. cbn iota.
    destruct (body response) as [|buffer|e] eqn:Hbody; try no_chunks.
    unfold ret at 1. cbn iota.
    destruct (JSON_parse buffer) as [result|msg] eqn:Hparse; try no_chunks.
    unfold ret at 1. cbn iota.
    destruct (getProp (Some result) "error" w) as [[err| | |] w1] eqn:Herr;
      same_world Herr; try no_chunks.
    assert (Hnn : result <> JNull) by (intros ->; discriminate).
    rewrite getProp_field in Herr by assumption.
    injection Herr as Herr.
    destruct (truthy err) eqn:Htruthy.
    + destruct (getProp err "code" w) as [[c| | |] w1] eqn:Hc; same_world Hc;
        try no_chunks.
      destruct (getProp err "message" w) as [[m| | |] w1] eqn:Hm; same_world Hm;
        no_chunks.
    + unfold ret at 1. cbn iota.
      rewrite getProp_field by assumption.
      destruct (processToolResponse_frame (field result "result") w) as [chunks E].
      exists chunks. split; [exact E|].
      intros _. split; [reflexivity|]. exists buffer, result.
      repeat split; try assumption. now rewrite Herr.
  - destruct (body response); no_chunks.
Qed.

Lemma validateServerName_run (serverName : string) (w : World) :
  validateServerName serverName w
  = (if entryTruthy (serversGet (servers (this w)) serverName)
     then Returned tt
     else Thrown (notFound (servers (this w)) serverName), w).
Proof.
  unfold validateServerName, bind, getThis.
  destruct (entryTruthy _); reflexivity.
Qed.

Lemma tryCatch_rethrow_world {A} (m : M A) (f : JsError -> JsError) (w : World) :
  snd (tryCatch m (fun error => throw (f error)) w) = snd (m w).
Proof. unfold tryCatch. destruct (m w) as [[] ?]; reflexivity. Qed.

(** Validation: a name whose entry is falsy is turned down with the list of
    the known names; any other name, one that only resolves to a member
    inherited from [Object.prototype] included, goes on to the request. *)
Lemma callToolStream_dispatch (serverName tool : string) (args : JSON) (w : World) :
  callToolStream net JSON_parse serverName tool args w
  = let entry := serversGet (servers (this w)) serverName in
    if entryTruthy entry then
      tryCatch
        (id <- postIncrementRequestId ;;
         response <- makeRequest net (entryString serverName entry)
                       (callPayload tool args id) 0 ;;
         interpretCallResponse JSON_parse response)
        (fun error => throw (callFailure serverName tool error)) w
    else (Thrown (notFound (servers (this w)) serverName), w).
Proof.
  rewrite callToolStream_unfold.
  unfold bind at 1. rewrite validateServerName_run. cbv zeta.
  destruct (entryTruthy (serversGet (servers (this w)) serverName)); reflexivity.
Qed.

Lemma listTools_dispatch (serverName : string) (w : World) :
  listTools net JSON_parse serverName w
  = let entry := serversGet (servers (this w)) serverName in
    if entryTruthy entry then
      tryCatch
        (id <- postIncrementRequestId ;;
         response <- makeRequest net (entryString serverName entry)
                       (listPayload id) 0 ;;
         interpretListResponse JSON_parse response)
        (fun error =>
           throw (listFailure serverName (entryString serverName entry) error)) w
    else (Thrown (notFound (servers (this w)) serverName), w).
Proof.
  rewrite listTools_unfold.
  unfold bind at 1. rewrite validateServerName_run. cbv zeta.
  destruct (entryTruthy (serversGet (servers (this w)) serverName)); reflexivity.
Qed.

(** Taking the request id and posting: what the try block does up to the
    answer. *)
Lemma request_then (A : Type) (url : string) (mk : Z -> JSON)
    (rest : Response -> M A) (w : World) :
  exists (k : nat) (o : FetchOutcome),
    k <= Z.to_nat (maxRetries (this w)) /\
    net (k + posts w) = o /\
    (id <- postIncrementRequestId ;;
     response <- makeRequest net url (mk id) 0 ;;
     rest response) w
    = let w1 := after (bump w) (S k)
                  (retryEvents url (mk (requestId (this w))) 0 k
                     ++ [EvFetch url (mk (requestId (this w)))]) in
      match o with
      | Resolved r => rest r w1
      | Rejected e => (Thrown e, w1)
      end.
Proof.
  destruct (makeRequest_shape net url (mk (requestId (this w))) 0 (bump w))
    as [k [o [Hk [Ho Hrun]]]].
  cbn [bump this posts] in Hk, Ho. rewrite Z.sub_0_r in Hk.
  exists k, o. split; [exact Hk|]. split; [exact Ho|].
  unfold bind at 1. unfold postIncrementRequestId at 1. cbn iota.
  fold (bump w). unfold bind at 1. rewrite Hrun.
  destruct o; reflexivity.
Qed.

(** The shape of every run of [callToolStream].  Either the name is turned
    down and nothing happens, or a request id is taken, the request is
    posted [k + 1] times with backoff in between, and then, only if the
    last POST was answered by a 2xx response whose body parsed to a value
    free of an error envelope, the normalizer delivers chunks. *)
Lemma callToolStream_shape (serverName tool : string) (args : JSON) (w : World) :
  let run := callToolStream net JSON_parse serverName tool args w in
  let entry := serversGet (servers (this w)) serverName in
  let url := entryString serverName entry in
  let payload := callPayload tool args (requestId (this w)) in
  if entryTruthy entry then
    exists (k : nat) (chunks : list string),
      k <= Z.to_nat (maxRetries (this w)) /\
      snd run
      = after (bump w) (S k)
          (retryEvents url payload 0 k ++ [EvFetch url payload] ++ paced chunks) /\
      (chunks <> [] ->
       exists r buffer result,
         net (k + posts w) = Resolved r /\ ok r = true /\
         body r = BodyText buffer /\ JSON_parse buffer = Parsed result /\
         result <> JNull /\ truthy (field result "error") = false)
  else run = (Thrown (notFound (servers (this w)) serverName), w).
Proof.
  intros run entry url payload. subst run. rewrite callToolStream_dispatch.
  cbv zeta. fold entry. destruct (entryTruthy entry); [|reflexivity]. fold url.
  destruct (request_then unit url (callPayload tool args)
              (interpretCallResponse JSON_parse) w) as [k [o [Hk [Ho Hrun]]]].
  fold payload in Hrun. cbv zeta in Hrun.
  rewrite tryCatch_rethrow_world, Hrun.
  destruct o as [r | e].
  - destruct (interpretCallResponse_frame r
                (after (bump w) (S k)
                   (retryEvents url payload 0 k ++ [EvFetch url payload])))
      as [chunks [E Hchunks]].
    exists k, chunks. split; [exact Hk|]. split.
    + rewrite E, after_after, <- app_assoc. f_equal. lia.
    + intros Hne. destruct (Hchunks Hne) as [Hok [buffer [result H]]].
      exists r, buffer, result. split; [exact Ho|]. split; [exact Hok | exact H].
  - exists k, []. split; [exact Hk|]. split.
    + cbn [snd paced flat_map]. now rewrite app_nil_r.
    + intros C. now destruct C.
Qed.

(** The shape of every run of [listTools]: the same, without chunks. *)
Lemma listTools_shape (serverName : string) (w : World) :
  let run := listTools net JSON_parse serverName w in
  let entry := serversGet (servers (this w)) serverName in
  let url := entryString serverName entry in
  let payload := listPayload (requestId (this w)) in
  if entryTruthy entry then
    exists k : nat,
      k <= Z.to_nat (maxRetries (this w)) /\
      snd run
      = after (bump w) (S k) (retryEvents url payload 0 k ++ [EvFetch url payload])
  else run = (Thrown (notFound (servers (this w)) serverName), w).
Proof.
  intros run entry url payload. subst run. rewrite listTools_dispatch.
  cbv zeta. fold entry. destruct (entryTruthy entry); [|reflexivity]. fold url.
  destruct (request_then JSON url listPayload
              (interpretListResponse JSON_parse) w) as [k [o [Hk [Ho Hrun]]]].
  fold payload in Hrun. cbv zeta in Hrun.
  rewrite tryCatch_rethrow_world, Hrun.
  exists k. split; [exact Hk|].
  destruct o as [r | e]; [|reflexivity].
  apply interpretListResponse_world.
Qed.

End Operations.

(** ** Validation *)

Lemma existsb_eqb_false (x : string) (l : list string) :
  ~ In x l -> existsb (String.eqb x) l = false.
Proof.
  intros Hnot. induction l as [|y l IH]; [reflexivity|].
  cbn [existsb]. destruct (String.eqb_spec x y) as [-> | _].
  - exfalso. apply Hnot. now left.
  - apply IH. intros Hin. apply Hnot. now right.
Qed.

Lemma eqb_nonempty (url : string) : url <> "" -> String.eqb url "" = false.
Proof. intros H. now destruct (String.eqb_spec url ""). Qed.

(** C6, as the code has it.  A registered name whose URL is not the empty
    string passes validation and the URL read for it is the registered one.
    A name that is registered with an empty URL, or that is neither
    registered nor the name of a member of [Object.prototype], makes
    validation, [listTools] and [callToolStream] throw the error that lists
    the known names, and leaves the world as it was: no POST, no delay, no
    chunk, no request id taken. *)
Theorem validation_guards_the_network (net : Network)
    (JSON_parse : string -> ParseResult) (serverName : string) (w : World) :
  let srv := servers (this w) in
  (forall url,
     ownProperty serverName srv = Some url -> url <> "" ->
     validateServerName serverName w = (Returned tt, w) /\
     readServerUrl serverName w = (Returned url, w)) /\
  (ownProperty serverName srv = Some "" \/
   (ownProperty serverName srv = None /\ ~ In serverName Object_prototype_names) ->
   validateServerName serverName w = (Thrown (notFound srv serverName), w) /\
   listTools net JSON_parse serverName w = (Thrown (notFound srv serverName), w) /\
   (forall tool args,
      callToolStream net JSON_parse serverName tool args w
      = (Thrown (notFound srv serverName), w)) /\
   message (notFound srv serverName)
   = "Server '" ++ serverName ++ "' not found. Available servers: "
       ++ join ", " (map fst srv)).
Proof.
  intros srv. split.
  - intros url Hown Hne. rewrite validateServerName_run.
    unfold readServerUrl, bind, getThis, serversGet. fold srv. rewrite Hown.
    cbn [entryTruthy entryString]. rewrite (eqb_nonempty _ Hne). split; reflexivity.
  - intros Hbad.
    assert (Hget : serversGet srv serverName = Own "" \/ serversGet srv serverName = Missing).
    { unfold serversGet. destruct Hbad as [-> | [-> Hnot]]; [now left | right].
      now rewrite existsb_eqb_false. }
    rewrite validateServerName_run, listTools_dispatch. cbv zeta. fold srv.
    repeat split.
    + destruct Hget as [-> | ->]; reflexivity.
    + destruct Hget as [-> | ->]; reflexivity.
    + intros tool args. rewrite callToolStream_dispatch. cbv zeta. fold srv.
      destruct Hget as [-> | ->]; reflexivity.
Qed.

Lemma validation_guards_the_network_witness :
  validateServerName Sample.serverName (fresh Sample.client)
  = (Returned tt, fresh Sample.client) /\
  readServerUrl Sample.serverName (fresh Sample.client)
  = (Returned Sample.serverUrl, fresh Sample.client) /\
  listTools Sample.alwaysReset Sample.parse "staging" (fresh Sample.client)
  = (Thrown (Error ("Server 'staging' not found. "
                      ++ "Available servers: aws-knowledge-mcp-server")),
     fresh Sample.client).
Proof.
  destruct (validation_guards_the_network Sample.alwaysReset Sample.parse
              Sample.serverName (fresh Sample.client)) as [Hok _].
  destruct (Hok Sample.serverUrl eq_refl) as [Hv Hu]; [discriminate|].
  destruct (validation_guards_the_network Sample.alwaysReset Sample.parse
              "staging" (fresh Sample.client)) as [_ Hbad].
  destruct Hbad as [_ [Hl _]].
  - right. split; [reflexivity|].
    intros Hin. cbn in Hin.
    repeat (destruct Hin as [Hin | Hin]; [discriminate|]). exact Hin.
  - split; [exact Hv|]. split; [exact Hu | exact Hl].
Defined.

(** C6 as stated fails for a registered server whose URL is the empty
    string: validation tests the URL for truthiness, so the name is
    reported as not found although the error lists it. *)
Lemma registered_empty_url_is_turned_down :
  ownProperty "local" (servers (constructor [ ("local", "") ] Sample.noOptions))
  = Some "" /\
  fst (validateServerName "local"
         (fresh (constructor [ ("local", "") ] Sample.noOptions)))
  = Thrown (Error "Server 'local' not found. Available servers: local").
Proof. split; reflexivity. Qed.

(** A name inherited from [Object.prototype] is not registered, yet the
    lookup is truthy and validation lets it through. *)
Example inherited_name_passes_validation :
  ownProperty "constructor" (servers Sample.client) = None /\
  validateServerName "constructor" (fresh Sample.client)
  = (Returned tt, fresh Sample.client).
Proof. split; reflexivity. Qed.

(** ** Atomic failure of [callToolStream] *)

Lemma newEvents_bump (w : World) (n : nat) (evs : list Event) :
  newEvents w (after (bump w) n evs) = evs.
Proof.
  unfold newEvents, after, bump; cbn [trace].
  rewrite skipn_app, skipn_all, Nat.sub_diag. reflexivity.
Qed.

Lemma newEvents_same (w : World) : newEvents w w = [].
Proof. unfold newEvents. apply skipn_all. Qed.

(** C9.  If a run of [callToolStream] hands the consumer any chunk, then
    every earlier stage succeeded: the name passed validation, the last POST
    was answered by a 2xx response, its body was read and parsed, and the
    parsed value carried no error envelope; and all chunks come after all
    POSTs and backoff delays.  So a run that fails at validation, in the
    transport, on the HTTP status, on the parse or on an error envelope
    invokes the callback zero times. *)
Theorem callToolStream_delivers_only_after_parse (net : Network)
    (JSON_parse : string -> ParseResult) (serverName tool : string)
    (args : JSON) (w : World) :
  let run := callToolStream net JSON_parse serverName tool args w in
  dataOf (newEvents w (snd run)) <> [] ->
  exists k r buffer result,
    entryTruthy (serversGet (servers (this w)) serverName) = true /\
    net (k + posts w) = Resolved r /\ ok r = true /\
    body r = BodyText buffer /\ JSON_parse buffer = Parsed result /\
    result <> JNull /\ truthy (field result "error") = false /\
    exists pre chunks,
      newEvents w (snd run) = (pre ++ paced chunks)%list /\
      dataOf pre = [] /\
      List.length (fetchesOf pre) = S k /\
      chunks = dataOf (newEvents w (snd run)).
Proof.
  intros run Hdata. subst run.
  pose proof (callToolStream_shape net JSON_parse serverName tool args w) as Hshape.
  cbv zeta in Hshape.
  destruct (entryTruthy (serversGet (servers (this w)) serverName)).
  - destruct Hshape as [k [chunks [Hk [Hsnd Hstages]]]].
    rewrite Hsnd, newEvents_bump in Hdata |- *.
    rewrite !dataOf_app, dataOf_retryEvents, dataOf_paced in Hdata.
    cbn [dataOf app] in Hdata.
    destruct (Hstages Hdata) as [r [buffer [result [Hnet [Hok [Hb [Hp [Hnn He]]]]]]]].
    exists k, r, buffer, result.
    repeat (split; [first [assumption | reflexivity]|]).
    set (url := entryString serverName (serversGet (servers (this w)) serverName)).
    set (payload := callPayload tool args (requestId (this w))).
    exists (retryEvents url payload 0 k ++ [EvFetch url payload])%list, chunks.
    repeat split.
    + now rewrite <- app_assoc.
    + now rewrite dataOf_app, dataOf_retryEvents.
    + rewrite fetchesOf_app, fetchesOf_retryEvents, length_app, repeat_length.
      cbn. lia.
    + rewrite !dataOf_app, dataOf_retryEvents, dataOf_paced. reflexivity.
  - rewrite Hshape in Hdata. cbn [snd] in Hdata. now rewrite newEvents_same in Hdata.
Qed.

Lemma callToolStream_delivers_only_after_parse_witness :
  exists k r buffer result,
    entryTruthy (serversGet (servers Sample.client) Sample.serverName) = true /\
    Sample.failsThen 1 (Sample.responseOk (Sample.envelope Sample.mixedPayload))
      (k + 0) = Resolved r /\
    ok r = true /\
    body r = BodyText buffer /\ Sample.parse buffer = Parsed result /\
    result <> JNull /\ truthy (field result "error") = false /\
    exists pre chunks,
      newEvents (fresh Sample.client)
        (snd (callToolStream
                (Sample.failsThen 1
                   (Sample.responseOk (Sample.envelope Sample.mixedPayload)))
                Sample.parse Sample.serverName "search" (JObj [])
                (fresh Sample.client)))
      = (pre ++ paced chunks)%list /\
      dataOf pre = [] /\
      List.length (fetchesOf pre) = S k /\
      chunks
      = dataOf (newEvents (fresh Sample.client)
          (snd (callToolStream
                  (Sample.failsThen 1
                     (Sample.responseOk (Sample.envelope Sample.mixedPayload)))
                  Sample.parse Sample.serverName "search" (JObj [])
                  (fresh Sample.client)))).
Proof.
  apply (callToolStream_delivers_only_after_parse
           (Sample.failsThen 1 (Sample.responseOk (Sample.envelope Sample.mixedPayload)))
           Sample.parse Sample.serverName "search" (JObj []) (fresh Sample.client)).
  vm_compute. discriminate.
Defined.

(** The run used above delivers the two text items after one retry. *)
Example callToolStream_mixed_payload :
  callToolStream
    (Sample.failsThen 1 (Sample.responseOk (Sample.envelope Sample.mixedPayload)))
    Sample.parse Sample.serverName "search" (JObj []) (fresh Sample.client)
  = (Returned tt,
     after (bump (fresh Sample.client)) 2
       [ EvFetch Sample.serverUrl (callPayload "search" (JObj []) 1);
         EvDelay 1000;
         EvFetch Sample.serverUrl (callPayload "search" (JObj []) 1);
         EvData "A"; EvDelay 10; EvData "B"; EvDelay 10 ]).
Proof. vm_compute. reflexivity. Qed.

(** ** Failures that are not retried *)

Section NonTransient.

Variable net : Network.
Variable JSON_parse : string -> ParseResult.

(** When [k] failures are retried and the next POST is answered, the try
    block goes on with that answer: the answered POST is the last one. *)
Lemma request_answered (A : Type) (url : string) (mk : Z -> JSON)
    (rest : Response -> M A) (w : World) (k : nat) (r : Response) :
  (forall j, j < k ->
     exists e, net (j + posts w) = Rejected e /\ isRetryableError e = true) ->
  (Z.of_nat k <= Z.max 0 (maxRetries (this w)))%Z ->
  net (k + posts w) = Resolved r ->
  (id <- postIncrementRequestId ;;
   response <- makeRequest net url (mk id) 0 ;;
   rest response) w
  = rest r (after (bump w) (S k)
              (retryEvents url (mk (requestId (this w))) 0 k
                 ++ [EvFetch url (mk (requestId (this w)))])).
Proof.
  intros Hfail Hk Hnet.
  unfold bind at 1. unfold postIncrementRequestId at 1. cbn iota. fold (bump w).
  unfold bind at 1.
  rewrite (makeRequest_run net url (mk (requestId (this w))) k (bump w) (Resolved r));
    [reflexivity | exact Hfail | exact Hk | exact Hnet | reflexivity].
Qed.

(** C8.  When a POST is answered by a response, after [k] retried
    transient failures or none, the call makes no further attempt: the
    answered POST is the last event of the run, and the error thrown carries
    the diagnostics.  A response that is not 2xx (404, say) gives the
    status, the status text and the body; a body that does not parse gives
    the parser's message; an error envelope gives the upstream code and
    message. *)
Theorem non_transient_failures_are_not_retried (serverName url tool : string)
    (args : JSON) (w : World) (k : nat) (r : Response) :
  ownProperty serverName (servers (this w)) = Some url -> url <> "" ->
  (forall j, j < k ->
     exists e, net (j + posts w) = Rejected e /\ isRetryableError e = true) ->
  (Z.of_nat k <= Z.max 0 (maxRetries (this w)))%Z ->
  net (k + posts w) = Resolved r ->
  let listed := listTools net JSON_parse serverName w in
  let called := callToolStream net JSON_parse serverName tool args w in
  let posted := fun payload =>
    after (bump w) (S k) (retryEvents url payload 0 k ++ [EvFetch url payload]) in
  let w1 := posted (listPayload (requestId (this w))) in
  let w2 := posted (callPayload tool args (requestId (this w))) in
  (forall b,
     ok r = false -> body r = BodyText b ->
     let http := "HTTP " ++ Z_to_string (status r) ++ ": " ++ statusText r
                   ++ ". Body: " ++ b in
     listed = (Thrown (listFailure serverName url (Error http)), w1) /\
     called = (Thrown (callFailure serverName tool (Error http)), w2) /\
     message (listFailure serverName url (Error http))
     = "Failed to fetch tools from " ++ serverName ++ " (" ++ url ++ "): " ++ http /\
     message (callFailure serverName tool (Error http))
     = "Failed to call tool '" ++ tool ++ "' on " ++ serverName ++ ": " ++ http) /\
  (forall buffer msg,
     ok r = true -> body r = BodyText buffer ->
     JSON_parse buffer = SyntaxError msg ->
     let reason := if String.eqb msg "" then "SyntaxError" else msg in
     listed
     = (Thrown (Error ("Failed to fetch tools from " ++ serverName ++ " (" ++ url
                         ++ "): invalid json response body at " ++ responseUrl r
                         ++ " reason: " ++ msg)),
        w1) /\
     called
     = (Thrown (Error ("Failed to call tool '" ++ tool ++ "' on " ++ serverName
                         ++ ": Invalid JSON response: " ++ reason
                         ++ ". Response: " ++ substring 0 200 buffer ++ "...")),
        w2)) /\
  (forall buffer fields efields,
     ok r = true -> body r = BodyText buffer ->
     JSON_parse buffer = Parsed (JObj fields) ->
     lookup "error" fields = Some (JObj efields) ->
     let ecode := toStringV (lookup "code" efields) in
     let emsg := toStringV (lookup "message" efields) in
     listed
     = (Thrown (Error ("Failed to fetch tools from " ++ serverName ++ " (" ++ url
                         ++ "): JSON-RPC Error (" ++ ecode ++ "): " ++ emsg)),
        w1) /\
     called
     = (Thrown (Error ("Failed to call tool '" ++ tool ++ "' on " ++ serverName
                         ++ ": Tool Error (" ++ ecode ++ "): " ++ emsg)),
        w2)).
Proof.
  intros Hown Hne Hfail Hk Hnet listed called posted w1 w2.
  assert (Hget : serversGet (servers (this w)) serverName = Own url)
    by (unfold serversGet; now rewrite Hown).
  assert (Hlisted : listed = tryCatch
                      (interpretListResponse JSON_parse r)
                      (fun error => throw (listFailure serverName url error)) w1).
  { unfold listed. rewrite listTools_dispatch. cbv zeta. rewrite Hget.
    cbn [entryTruthy entryString]. rewrite (eqb_nonempty _ Hne). cbn [negb].
    unfold tryCatch.
    now rewrite (request_answered _ _ listPayload _ _ k r Hfail Hk Hnet). }
  assert (Hcalled : called = tryCatch
                      (interpretCallResponse JSON_parse r)
                      (fun error => throw (callFailure serverName tool error)) w2).
  { unfold called. rewrite callToolStream_dispatch. cbv zeta. rewrite Hget.
    cbn [entryTruthy entryString]. rewrite (eqb_nonempty _ Hne). cbn [negb].
    unfold tryCatch.
    now rewrite (request_answered _ _ (callPayload tool args) _ _ k r Hfail Hk Hnet). }
  rewrite Hlisted, Hcalled. clear Hlisted Hcalled.
  unfold tryCatch, interpretListResponse, interpretCallResponse, responseJson,
    responseText, bind.
  split; [|split].
  - cbv zeta. intros b Hok Hbody. rewrite Hok, Hbody. repeat split.
  - cbv zeta. intros buffer msg Hok Hbody Hparse. rewrite Hok, Hbody.
    cbv beta iota zeta delta [ret throw negb]. rewrite Hparse.
    split; reflexivity.
  - cbv zeta. intros buffer fields efields Hok Hbody Hparse Herr.
    rewrite Hok, Hbody.
    cbv beta iota zeta delta [ret throw negb]. rewrite Hparse.
    cbv beta iota zeta delta [ret throw getProp]. rewrite Herr.
    split; reflexivity.
Qed.

End NonTransient.

Lemma non_transient_failures_are_not_retried_witness :
  listTools (Sample.always Sample.response404) Sample.parse Sample.serverName
    (fresh Sample.client)
  = (Thrown (Error ("Failed to fetch tools from aws-knowledge-mcp-server "
                      ++ "(https://knowledge-mcp.global.api.aws): "
                      ++ "HTTP 404: Not Found. Body: no such route")),
     after (bump (fresh Sample.client)) 1
       [EvFetch Sample.serverUrl (listPayload 1)]) /\
  callToolStream (Sample.failsThen 1 (Sample.respond 200 "OK" "<html>")) Sample.parse
    Sample.serverName "search" (JObj []) (fresh Sample.client)
  = (Thrown (Error ("Failed to call tool 'search' on aws-knowledge-mcp-server: "
                      ++ "Invalid JSON response: "
                      ++ "Unexpected token < in JSON at position 0"
                      ++ ". Response: <html>...")),
     after (bump (fresh Sample.client)) 2
       [EvFetch Sample.serverUrl (callPayload "search" (JObj []) 1);
        EvDelay 1000;
        EvFetch Sample.serverUrl (callPayload "search" (JObj []) 1)]) /\
  callToolStream (Sample.always (Sample.responseOk Sample.errorEnvelope))
    Sample.parse Sample.serverName "search" (JObj []) (fresh Sample.client)
  = (Thrown (Error ("Failed to call tool 'search' on aws-knowledge-mcp-server: "
                      ++ "Tool Error (-32601): Method not found")),
     after (bump (fresh Sample.client)) 1
       [EvFetch Sample.serverUrl (callPayload "search" (JObj []) 1)]).
Proof.
  split; [|split].
  - destruct (non_transient_failures_are_not_retried
                (Sample.always Sample.response404) Sample.parse
                Sample.serverName Sample.serverUrl "search" (JObj [])
                (fresh Sample.client) 0 Sample.response404)
      as [Hhttp _];
      [reflexivity | discriminate | intros j Hj; lia | vm_compute; discriminate
      | reflexivity |].
    destruct (Hhttp "no such route" eq_refl eq_refl) as [E _]. exact E.
  - destruct (non_transient_failures_are_not_retried
                (Sample.failsThen 1 (Sample.respond 200 "OK" "<html>")) Sample.parse
                Sample.serverName Sample.serverUrl "search" (JObj [])
                (fresh Sample.client) 1 (Sample.respond 200 "OK" "<html>"))
      as [_ [Hparse _]];
      [reflexivity | discriminate | | vm_compute; discriminate | reflexivity |].
    + intros j Hj. exists Sample.connReset.
      destruct j as [|j]; [split; reflexivity | lia].
    + destruct (Hparse "<html>" "Unexpected token < in JSON at position 0"
                  eq_refl eq_refl) as [_ E]; [vm_compute; reflexivity | exact E].
  - destruct (non_transient_failures_are_not_retried
                (Sample.always (Sample.responseOk Sample.errorEnvelope)) Sample.parse
                Sample.serverName Sample.serverUrl "search" (JObj [])
                (fresh Sample.client) 0 (Sample.responseOk Sample.errorEnvelope))
      as [_ [_ Henv]];
      [reflexivity | discriminate | intros j Hj; lia | vm_compute; discriminate
      | reflexivity |].
    destruct (Henv (stringifyPretty Sample.errorEnvelope)
                [ ("jsonrpc", JStr "2.0"); ("id", JNum 1);
                  ("error", JObj [ ("code", JNum (-32601));
                                   ("message", JStr "Method not found") ]) ]
                [ ("code", JNum (-32601)); ("message", JStr "Method not found") ]
                eq_refl eq_refl) as [_ E];
      [vm_compute; reflexivity | reflexivity | exact E].
Defined.

(** ** Request ids *)

Section RequestIds.

Variable net : Network.
Variable JSON_parse : string -> ParseResult.

Lemma postedIds_request (url : string) (payload : JSON) (k : nat)
    (chunks : list string) :
  postedIds (retryEvents url payload 0 k ++ [EvFetch url payload] ++ paced chunks)
  = repeat (idOf payload) (S k).
Proof.
  unfold postedIds.
  rewrite !fetchesOf_app, fetchesOf_retryEvents, fetchesOf_paced.
  cbn [fetchesOf]. rewrite app_nil_r, <- repeat_cons.
  cbn [repeat map]. f_equal.
  induction k as [|k IH]; [reflexivity|]. cbn [repeat map]. now rewrite IH.
Qed.

(** One call either leaves the world alone, or takes the current request
    id and posts it, once or more, and nothing but it. *)
Lemma callWorld_step (c : Call) (w : World) :
  callWorld net JSON_parse c w = w \/
  exists k : nat,
    postedIds (newEvents w (callWorld net JSON_parse c w))
    = repeat (Some (requestId (this w))) (S k) /\
    this (callWorld net JSON_parse c w) = this (bump w).
Proof.
  destruct c as [serverName | serverName tool args]; cbn [callWorld].
  - pose proof (listTools_shape net JSON_parse serverName w) as Hshape.
    cbv zeta in Hshape.
    destruct (entryTruthy (serversGet (servers (this w)) serverName));
      [|left; now rewrite Hshape].
    destruct Hshape as [k [_ Hsnd]]. right. exists k. rewrite Hsnd.
    rewrite newEvents_bump. split; [|reflexivity].
    set (url := entryString serverName (serversGet (servers (this w)) serverName)).
    rewrite <- (app_nil_r [EvFetch url (listPayload (requestId (this w)))]).
    apply (postedIds_request url (listPayload (requestId (this w))) k []).
  - pose proof (callToolStream_shape net JSON_parse serverName tool args w) as Hshape.
    cbv zeta in Hshape.
    destruct (entryTruthy (serversGet (servers (this w)) serverName));
      [|left; now rewrite Hshape].
    destruct Hshape as [k [chunks [_ [Hsnd _]]]]. right. exists k. rewrite Hsnd.
    rewrite newEvents_bump. split; [|reflexivity].
    apply postedIds_request.
Qed.

Lemma runCalls_ids (calls : list Call) :
  forall (w : World) (m : nat),
    requestId (this w) = Z.of_nat (S m) ->
    (Z.of_nat (S m) + Z.of_nat (List.length calls) <= 2 ^ 53)%Z ->
    forall (n : nat) (evs : list Event),
      nth_error (sending (fst (runCalls net JSON_parse calls w))) n = Some evs ->
      exists k : nat, postedIds evs = repeat (Some (Z.of_nat (S (m + n)))) (S k).
Proof.
  induction calls as [|c calls IH]; intros w m Hid Hbound n evs Hnth.
  - cbn in Hnth. destruct n; discriminate.
  - cbn [runCalls] in Hnth.
    destruct (runCalls net JSON_parse calls (callWorld net JSON_parse c w))
      as [segments w'] eqn:Hrest.
    cbn [fst sending filter] in Hnth.
    cbn [List.length] in Hbound.
    destruct (callWorld_step c w) as [Hsame | [k [Hposted Hthis]]].
    + rewrite Hsame, newEvents_same in Hnth. cbn in Hnth.
      rewrite Hsame in Hrest.
      apply (IH w m Hid ltac:(lia) n evs).
      now rewrite Hrest.
    + rewrite Hposted in Hnth. cbn [repeat] in Hnth.
      destruct n as [|n].
      * cbn in Hnth. injection Hnth as <-. exists k.
        now rewrite Hposted, Hid, Nat.add_0_r.
      * cbn [nth_error] in Hnth.
        destruct (IH (callWorld net JSON_parse c w) (S m)) with (n := n) (evs := evs)
          as [k' Hk'].
        -- rewrite Hthis. cbn [bump this requestId]. unfold jsSucc.
           rewrite Hid.
           replace (Z.of_nat (S m) <? 2 ^ 53)%Z with true
             by (symmetry; apply Z.ltb_lt; lia).
           lia.
        -- lia.
        -- now rewrite Hrest.
        -- exists k'. rewrite Hk'. do 3 f_equal. lia.
Qed.

End RequestIds.

(** C7.  On a client fresh from the constructor, in any run of fewer than
    2^53 calls and whatever the network answers, the n-th call that posts
    anything posts the id n (counting from 1) and no other id, however
    often it retries: the first request carries 1 and every later request
    a greater id than all before it. *)
Theorem request_ids_increase (net : Network) (JSON_parse : string -> ParseResult)
    (srv : Servers) (options : Options) (calls : list Call)
    (n : nat) (evs : list Event) :
  (Z.of_nat (List.length calls) < 2 ^ 53)%Z ->
  nth_error
    (sending (fst (runCalls net JSON_parse calls (fresh (constructor srv options)))))
    n = Some evs ->
  exists k : nat, postedIds evs = repeat (Some (Z.of_nat (S n))) (S k).
Proof.
  intros Hbound Hnth.
  apply (runCalls_ids net JSON_parse calls (fresh (constructor srv options)) 0);
    [reflexivity | lia | exact Hnth].
Qed.

Lemma request_ids_increase_witness :
  exists k : nat,
    postedIds
      (nth 2 (sending (fst (runCalls
                              (Sample.failsThen 1 (Sample.responseOk Sample.toolsEnvelope))
                              Sample.parse Sample.threeCalls (fresh Sample.client))))
           [])
    = repeat (Some 3%Z) (S k).
Proof.
  apply (request_ids_increase
           (Sample.failsThen 1 (Sample.responseOk Sample.toolsEnvelope))
           Sample.parse Sample.defaultServers Sample.noOptions Sample.threeCalls 2).
  - vm_compute. reflexivity.
  - vm_compute. reflexivity.
Defined.

(** The spec's example: [listTools] (retried once here) and two calls of
    [callToolStream] post the ids 1, 1, 2 and 3. *)
Example three_calls_three_ids :
  map postedIds
    (fst (runCalls (Sample.failsThen 1 (Sample.responseOk Sample.toolsEnvelope))
            Sample.parse Sample.threeCalls (fresh Sample.client)))
  = [ [Some 1%Z; Some 1%Z]; [Some 2%Z]; [Some 3%Z] ].
Proof. vm_compute. reflexivity. Qed.

(** At 2^53 the counter no longer moves: that is where incrementing a
    JavaScript number stops being exact. *)
Example request_id_saturates :
  jsSucc (2 ^ 53) = (2 ^ 53)%Z /\ jsSucc (2 ^ 53 - 1) = (2 ^ 53)%Z.
Proof. split; reflexivity. Qed.

(** ** The transport on any network *)

(** With no network assumption at all, [makeRequest] leaves the client as
    it is, posts the same URL and payload between one and [maxRetries + 1]
    times, backs off 2^j seconds after the j-th failed attempt, hands the
    consumer nothing, settles on the outcome of its last attempt, and never
    waits longer than [2^maxRetries - 1] seconds in all. *)
Theorem makeRequest_stays_within_budget (net : Network) (url : string)
    (payload : JSON) (w : World) :
  let run := makeRequest net url payload 0 w in
  let evs := newEvents w (snd run) in
  let budget := Z.to_nat (maxRetries (this w)) in
  this (snd run) = this w /\
  (exists k : nat,
     k <= budget /\
     evs = (retryEvents url payload 0 k ++ [EvFetch url payload])%list /\
     fst run = settle (net (k + posts w)) /\
     delaysOf evs = map (fun j => (2 ^ Z.of_nat j * 1000)%Z) (seq 0 k)) /\
  1 <= List.length (fetchesOf evs) <= S budget /\
  (forall post, In post (fetchesOf evs) -> post = (url, payload)) /\
  dataOf evs = [] /\
  (fold_right Z.add 0 (delaysOf evs) <= (2 ^ Z.of_nat budget - 1) * 1000)%Z.
Proof.
  intros run evs budget. subst run evs.
  destruct (makeRequest_shape net url payload 0 w) as [k [o [Hk [Ho E]]]].
  rewrite Z.sub_0_r in Hk. fold budget in Hk.
  rewrite E. cbn [fst snd]. rewrite newEvents_after.
  assert (Hdel : delaysOf (retryEvents url payload 0 k ++ [EvFetch url payload])
                 = map (fun j => (2 ^ Z.of_nat j * 1000)%Z) (seq 0 k)).
  { rewrite delaysOf_app, delaysOf_retryEvents. cbn [delaysOf].
    rewrite app_nil_r. apply map_ext. intros j. reflexivity. }
  assert (Hfetch : fetchesOf (retryEvents url payload 0 k ++ [EvFetch url payload])
                   = repeat (url, payload) (S k)).
  { rewrite fetchesOf_app, fetchesOf_retryEvents. cbn [fetchesOf].
    now rewrite <- repeat_cons. }
  split; [reflexivity|]. split.
  { exists k. repeat split; [exact Hk | now rewrite Ho | exact Hdel]. }
  rewrite Hfetch, Hdel, backoff_sum, repeat_length.
  repeat split; try lia.
  - intros post Hin. now apply repeat_spec in Hin.
  - now rewrite dataOf_app, dataOf_retryEvents.
  - assert (2 ^ Z.of_nat k <= 2 ^ Z.of_nat budget)%Z
      by (apply Z.pow_le_mono_r; lia).
    lia.
Qed.

(** A negative [maxRetries] is kept by the constructor and switches retrying
    off: whatever the first attempt gives is the result. *)
Theorem negative_budget_means_one_attempt (net : Network) (srv : Servers)
    (t : option Z) (m : Z) (url : string) (payload : JSON) :
  (m < 0)%Z ->
  let c := constructor srv {| opt_timeout := t; opt_maxRetries := Some m |} in
  maxRetries c = m /\
  makeRequest net url payload 0 (fresh c)
  = (settle (net 0), after (fresh c) 1 [EvFetch url payload]).
Proof.
  intros Hm c.
  assert (Hmax : maxRetries c = m).
  { unfold c, constructor, orDefault. cbn [maxRetries opt_maxRetries].
    destruct (Z.eqb_spec m 0); [lia | reflexivity]. }
  split; [exact Hmax|].
  apply (makeRequest_run net url payload 0 (fresh c) (net 0)).
  - intros j Hj. lia.
  - lia.
  - reflexivity.
  - destruct (net 0) as [r | e]; [reflexivity|].
    cbn [notRetried fresh this]. rewrite Hmax.
    replace (Z.of_nat 0 <? m)%Z with false by (symmetry; apply Z.ltb_ge; lia).
    reflexivity.
Qed.

Lemma negative_budget_means_one_attempt_witness :
  makeRequest Sample.alwaysReset Sample.serverUrl JNull 0
    (fresh (constructor Sample.defaultServers
              {| opt_timeout := None; opt_maxRetries := Some (-1)%Z |}))
  = (Thrown Sample.connReset,
     after (fresh (constructor Sample.defaultServers
                     {| opt_timeout := None; opt_maxRetries := Some (-1)%Z |}))
       1 [EvFetch Sample.serverUrl JNull]).
Proof.
  apply (negative_budget_means_one_attempt Sample.alwaysReset Sample.defaultServers
           None (-1) Sample.serverUrl JNull).
  lia.
Defined.

(** ** The two operations beyond a failed answer *)

Section OperationFacts.

Variable net : Network.
Variable JSON_parse : string -> ParseResult.

(** When [k] failures are retried and attempt [k] is not, the try block
    goes on with the outcome of attempt [k]. *)
Lemma request_settles (A : Type) (url : string) (mk : Z -> JSON)
    (rest : Response -> M A) (w : World) (k : nat) (o : FetchOutcome) :
  (forall j, j < k ->
     exists e, net (j + posts w) = Rejected e /\ isRetryableError e = true) ->
  (Z.of_nat k <= Z.max 0 (maxRetries (this w)))%Z ->
  net (k + posts w) = o ->
  notRetried (this w) (Z.of_nat k) o = true ->
  (id <- postIncrementRequestId ;;
   response <- makeRequest net url (mk id) 0 ;;
   rest response) w
  = let w1 := after (bump w) (S k)
                (retryEvents url (mk (requestId (this w))) 0 k
                   ++ [EvFetch url (mk (requestId (this w)))]) in
    match o with
    | Resolved r => rest r w1
    | Rejected e => (Thrown e, w1)
    end.
Proof.
  intros Hfail Hk Hnet Hstop.
  unfold bind at 1. unfold postIncrementRequestId at 1. cbn iota. fold (bump w).
  unfold bind at 1.
  rewrite (makeRequest_run net url (mk (requestId (this w))) k (bump w) o);
    [destruct o; reflexivity | exact Hfail | exact Hk | exact Hnet | exact Hstop].
Qed.

(** Both operations on a registered server, as the try block run on the
    registered URL. *)
Lemma listTools_registered (serverName url : string) (w : World) :
  ownProperty serverName (servers (this w)) = Some url -> url <> "" ->
  listTools net JSON_parse serverName w
  = tryCatch
      (id <- postIncrementRequestId ;;
       response <- makeRequest net url (listPayload id) 0 ;;
       interpretListResponse JSON_parse response)
      (fun error => throw (listFailure serverName url error)) w.
Proof.
  intros Hown Hne. rewrite listTools_dispatch. cbv zeta.
  unfold serversGet. rewrite Hown. cbn [entryTruthy entryString].
  now rewrite (eqb_nonempty _ Hne).
Qed.

Lemma callToolStream_registered (serverName url tool : string) (args : JSON)
    (w : World) :
  ownProperty serverName (servers (this w)) = Some url -> url <> "" ->
  callToolStream net JSON_parse serverName tool args w
  = tryCatch
      (id <- postIncrementRequestId ;;
       response <- makeRequest net url (callPayload tool args id) 0 ;;
       interpretCallResponse JSON_parse response)
      (fun error => throw (callFailure serverName tool error)) w.
Proof.
  intros Hown Hne. rewrite callToolStream_dispatch. cbv zeta.
  unfold serversGet. rewrite Hown. cbn [entryTruthy entryString].
  now rewrite (eqb_nonempty _ Hne).
Qed.

(** When the transport gives up, on an error that is not retryable or with
    the budget used up, both operations throw that last error wrapped in
    their context: the server name and URL for [listTools], the tool and
    server name for [callToolStream].  The failed POST is the last event. *)
Theorem transport_failure_surfaces_last_error (serverName url tool : string)
    (args : JSON) (w : World) (k : nat) (e : JsError) :
  ownProperty serverName (servers (this w)) = Some url -> url <> "" ->
  (forall j, j < k ->
     exists e', net (j + posts w) = Rejected e' /\ isRetryableError e' = true) ->
  (Z.of_nat k <= Z.max 0 (maxRetries (this w)))%Z ->
  net (k + posts w) = Rejected e ->
  isRetryableError e = false \/ (maxRetries (this w) <= Z.of_nat k)%Z ->
  let posted := fun payload =>
    after (bump w) (S k) (retryEvents url payload 0 k ++ [EvFetch url payload]) in
  listTools net JSON_parse serverName w
  = (Thrown (Error ("Failed to fetch tools from " ++ serverName ++ " (" ++ url
                      ++ "): " ++ messageOrError e)),
     posted (listPayload (requestId (this w)))) /\
  callToolStream net JSON_parse serverName tool args w
  = (Thrown (Error ("Failed to call tool '" ++ tool ++ "' on " ++ serverName
                      ++ ": " ++ messageOrError e)),
     posted (callPayload tool args (requestId (this w)))).
Proof.
  intros Hown Hne Hfail Hk Hnet Hgive posted.
  assert (Hstop : notRetried (this w) (Z.of_nat k) (Rejected e) = true).
  { cbn [notRetried]. destruct Hgive as [-> | Hmax].
    - now rewrite andb_false_r.
    - replace (Z.of_nat k <? maxRetries (this w))%Z with false
        by (symmetry; apply Z.ltb_ge; lia).
      reflexivity. }
  rewrite (listTools_registered _ _ _ Hown Hne),
    (callToolStream_registered _ _ _ _ _ Hown Hne).
  unfold tryCatch.
  rewrite (request_settles _ _ listPayload _ _ k _ Hfail Hk Hnet Hstop).
  rewrite (request_settles _ _ (callPayload tool args) _ _ k _ Hfail Hk Hnet Hstop).
  split; reflexivity.
Qed.

(** An error raised while the body of an answer is read is wrapped and
    thrown at once, whatever the status of the answer and even when
    [isRetryableError] would accept the error: only the [fetch] itself is
    ever retried. *)
Theorem body_failure_is_never_retried (serverName url tool : string)
    (args : JSON) (w : World) (r : Response) (e : JsError) :
  ownProperty serverName (servers (this w)) = Some url -> url <> "" ->
  net (posts w) = Resolved r ->
  body r = BodyFails e ->
  listTools net JSON_parse serverName w
  = (Thrown (listFailure serverName url e),
     after (bump w) 1 [EvFetch url (listPayload (requestId (this w)))]) /\
  callToolStream net JSON_parse serverName tool args w
  = (Thrown (callFailure serverName tool e),
     after (bump w) 1 [EvFetch url (callPayload tool args (requestId (this w)))]).
Proof.
  intros Hown Hne Hnet Hbody.
  rewrite (listTools_registered _ _ _ Hown Hne),
    (callToolStream_registered _ _ _ _ _ Hown Hne).
  unfold tryCatch.
  rewrite (request_settles _ _ listPayload _ _ 0 (Resolved r));
    [| intros j Hj; lia | lia | exact Hnet | reflexivity].
  rewrite (request_settles _ _ (callPayload tool args) _ _ 0 (Resolved r));
    [| intros j Hj; lia | lia | exact Hnet | reflexivity].
  cbv zeta. cbn [retryEvents app].
  unfold interpretListResponse, interpretCallResponse, responseJson, responseText, bind.
  rewrite Hbody. destruct (ok r); split; reflexivity.
Qed.

(** A 2xx answer whose body parses to a value without an error envelope
    makes [listTools] return [result.tools] as it stands when that is there
    and truthy, and the empty array when [result] is missing or [null] or
    has no truthy [tools]. *)
Theorem listTools_returns_tools_or_empty (serverName url : string) (w : World)
    (k : nat) (r : Response) (buffer : string) (result : JSON) :
  ownProperty serverName (servers (this w)) = Some url -> url <> "" ->
  (forall j, j < k ->
     exists e, net (j + posts w) = Rejected e /\ isRetryableError e = true) ->
  (Z.of_nat k <= Z.max 0 (maxRetries (this w)))%Z ->
  net (k + posts w) = Resolved r ->
  ok r = true -> body r = BodyText buffer ->
  JSON_parse buffer = Parsed result ->
  result <> JNull -> truthy (field result "error") = false ->
  let w1 := after (bump w) (S k)
              (retryEvents url (listPayload (requestId (this w))) 0 k
                 ++ [EvFetch url (listPayload (requestId (this w)))]) in
  (forall tools,
     toolsValue result = Some tools -> truthy (Some tools) = true ->
     listTools net JSON_parse serverName w = (Returned tools, w1)) /\
  (truthy (toolsValue result) = false ->
   listTools net JSON_parse serverName w = (Returned (JArr []), w1)).
Proof.
  intros Hown Hne Hfail Hk Hnet Hok Hbody Hparse Hnn Herr w1.
  assert (Hrun : listTools net JSON_parse serverName w
                 = (Returned (match toolsValue result with
                              | Some t => if truthy (toolsValue result) then t else JArr []
                              | None => JArr []
                              end), w1)).
  { rewrite (listTools_registered _ _ _ Hown Hne). unfold tryCatch.
    rewrite (request_settles _ _ listPayload _ _ k (Resolved r) Hfail Hk Hnet eq_refl).
    cbv zeta. fold w1.
    unfold interpretListResponse, responseJson, responseText, bind.
    rewrite Hok, Hbody. cbv beta iota zeta delta [ret throw negb]. rewrite Hparse.
    cbv beta iota. rewrite getProp_field by assumption. cbv beta iota.
    rewrite Herr. cbv beta iota. rewrite getProp_field by assumption.
    cbv beta iota. unfold toolsValue.
    destruct (field result "result") as [[| | | | |rfields]|]; reflexivity. }
  rewrite Hrun. split.
  - intros tools Htools Htruthy. now rewrite Htools, Htruthy.
  - intros Hfalsy. rewrite Hfalsy. now destruct (toolsValue result).
Qed.

(** End to end: when the answer to [tools/call] is a 2xx response whose body
    parses to an envelope without error and whose result holds a [content]
    array of well-typed items, [callToolStream] returns, and the run is the
    POSTs, then the 50-character slices of each text item in order, each
    followed by its pacing delay, and nothing else. *)
Theorem callToolStream_streams_the_content (serverName url tool : string)
    (args : JSON) (w : World) (k : nat) (r : Response) (buffer : string)
    (result payload : JSON) (items : list JSON) :
  ownProperty serverName (servers (this w)) = Some url -> url <> "" ->
  (forall j, j < k ->
     exists e, net (j + posts w) = Rejected e /\ isRetryableError e = true) ->
  (Z.of_nat k <= Z.max 0 (maxRetries (this w)))%Z ->
  net (k + posts w) = Resolved r ->
  ok r = true -> body r = BodyText buffer ->
  JSON_parse buffer = Parsed result ->
  result <> JNull -> truthy (field result "error") = false ->
  field result "result" = Some payload ->
  field payload "content" = Some (JArr items) ->
  forallb itemWellTyped items = true ->
  let request := callPayload tool args (requestId (this w)) in
  callToolStream net JSON_parse serverName tool args w
  = (Returned tt,
     after (bump w) (S k)
       (retryEvents url request 0 k ++ [EvFetch url request]
          ++ paced (flat_map (fun item => sliceAll (itemText item) 50) items))) /\
  concatStr
    (dataOf (newEvents w
               (snd (callToolStream net JSON_parse serverName tool args w))))
  = concatStr (map itemText items).
Proof.
  intros Hown Hne Hfail Hk Hnet Hok Hbody Hparse Hnn Herr Hres Hcontent Hwt request.
  assert (Hrun : callToolStream net JSON_parse serverName tool args w
                 = (Returned tt,
                    after (bump w) (S k)
                      (retryEvents url request 0 k ++ [EvFetch url request]
                         ++ paced (flat_map (fun item => sliceAll (itemText item) 50)
                                     items)))).
  { rewrite (callToolStream_registered _ _ _ _ _ Hown Hne). unfold tryCatch.
    rewrite (request_settles _ _ (callPayload tool args) _ _ k (Resolved r)
               Hfail Hk Hnet eq_refl).
    cbv zeta. fold request.
    rewrite (interpretCallResponse_success JSON_parse r _ buffer result)
      by assumption.
    rewrite Hres, (processToolResponse_content _ _ _ Hcontent).
    rewrite forEachItem_spec by assumption.
    rewrite after_after, <- app_assoc. do 2 f_equal. lia. }
  split; [exact Hrun|].
  rewrite Hrun. cbn [snd]. rewrite newEvents_bump.
  rewrite !dataOf_app, dataOf_retryEvents, dataOf_paced. cbn [dataOf app].
  clear. induction items as [|item items IH]; [reflexivity|].
  cbn [map flat_map]. rewrite concatStr_app, IH, sliceAll_concat by lia.
  reflexivity.
Qed.

End OperationFacts.

Lemma transport_failure_surfaces_last_error_witness :
  listTools (fun _ => Rejected Sample.hostNotFound) Sample.parse Sample.serverName
    (fresh Sample.client)
  = (Thrown (Error ("Failed to fetch tools from aws-knowledge-mcp-server "
                      ++ "(https://knowledge-mcp.global.api.aws): "
                      ++ "request to https://knowledge-mcp.global.api.aws failed, "
                      ++ "reason: getaddrinfo ENOTFOUND")),
     after (bump (fresh Sample.client)) 1
       [EvFetch Sample.serverUrl (listPayload 1)]) /\
  fst (callToolStream Sample.alwaysReset Sample.parse Sample.serverName "search"
         (JObj []) (fresh Sample.client))
  = Thrown (Error ("Failed to call tool 'search' on aws-knowledge-mcp-server: "
                     ++ "request to https://knowledge-mcp.global.api.aws failed, "
                     ++ "reason: read ECONNRESET")).
Proof.
  split.
  - destruct (transport_failure_surfaces_last_error
                (fun _ => Rejected Sample.hostNotFound) Sample.parse
                Sample.serverName Sample.serverUrl "search" (JObj [])
                (fresh Sample.client) 0 Sample.hostNotFound) as [E _];
      [reflexivity | discriminate | intros j Hj; lia | vm_compute; discriminate
      | reflexivity | left; reflexivity | exact E].
  - destruct (transport_failure_surfaces_last_error
                Sample.alwaysReset Sample.parse
                Sample.serverName Sample.serverUrl "search" (JObj [])
                (fresh Sample.client) 3 Sample.connReset) as [_ E];
      [reflexivity | discriminate | | vm_compute; discriminate
      | reflexivity | right; vm_compute; discriminate | now rewrite E].
    intros j Hj. exists Sample.connReset. split; reflexivity.
Defined.

Lemma body_failure_is_never_retried_witness :
  isRetryableError Sample.connReset = true /\
  callToolStream (Sample.always Sample.brokenBody) Sample.parse Sample.serverName
    "search" (JObj []) (fresh Sample.client)
  = (Thrown (Error ("Failed to call tool 'search' on aws-knowledge-mcp-server: "
                      ++ "request to https://knowledge-mcp.global.api.aws failed, "
                      ++ "reason: read ECONNRESET")),
     after (bump (fresh Sample.client)) 1
       [EvFetch Sample.serverUrl (callPayload "search" (JObj []) 1)]).
Proof.
  split; [reflexivity|].
  destruct (body_failure_is_never_retried (Sample.always Sample.brokenBody)
              Sample.parse Sample.serverName Sample.serverUrl "search" (JObj [])
              (fresh Sample.client) Sample.brokenBody Sample.connReset) as [_ E];
    [reflexivity | discriminate | reflexivity | reflexivity | exact E].
Defined.

Lemma listTools_returns_tools_or_empty_witness :
  listTools (Sample.failsThen 1 (Sample.responseOk Sample.toolsEnvelope))
    Sample.parseMore Sample.serverName (fresh Sample.client)
  = (Returned (JArr [ JObj [ ("name", JStr "search") ] ]),
     after (bump (fresh Sample.client)) 2
       [EvFetch Sample.serverUrl (listPayload 1); EvDelay 1000;
        EvFetch Sample.serverUrl (listPayload 1)]) /\
  listTools (Sample.always (Sample.responseOk Sample.nullResultEnvelope))
    Sample.parseMore Sample.serverName (fresh Sample.client)
  = (Returned (JArr []),
     after (bump (fresh Sample.client)) 1
       [EvFetch Sample.serverUrl (listPayload 1)]) /\
  listTools (Sample.always (Sample.responseOk Sample.noResultEnvelope))
    Sample.parseMore Sample.serverName (fresh Sample.client)
  = (Returned (JArr []),
     after (bump (fresh Sample.client)) 1
       [EvFetch Sample.serverUrl (listPayload 1)]).
Proof.
  split; [|split].
  - destruct (listTools_returns_tools_or_empty
                (Sample.failsThen 1 (Sample.responseOk Sample.toolsEnvelope))
                Sample.parseMore Sample.serverName Sample.serverUrl
                (fresh Sample.client) 1 (Sample.responseOk Sample.toolsEnvelope)
                (stringifyPretty Sample.toolsEnvelope) Sample.toolsEnvelope)
      as [Htools _];
      [reflexivity | discriminate | | vm_compute; discriminate | reflexivity
      | reflexivity | reflexivity | vm_compute; reflexivity | discriminate
      | reflexivity |].
    + intros j Hj. exists Sample.connReset.
      destruct j as [|j]; [split; reflexivity | lia].
    + apply (Htools (JArr [ JObj [ ("name", JStr "search") ] ])); reflexivity.
  - destruct (listTools_returns_tools_or_empty
                (Sample.always (Sample.responseOk Sample.nullResultEnvelope))
                Sample.parseMore Sample.serverName Sample.serverUrl
                (fresh Sample.client) 0 (Sample.responseOk Sample.nullResultEnvelope)
                (stringifyPretty Sample.nullResultEnvelope) Sample.nullResultEnvelope)
      as [_ Hempty];
      [reflexivity | discriminate | intros j Hj; lia | vm_compute; discriminate
      | reflexivity | reflexivity | reflexivity | vm_compute; reflexivity
      | discriminate | reflexivity |].
    apply Hempty. reflexivity.
  - destruct (listTools_returns_tools_or_empty
                (Sample.always (Sample.responseOk Sample.noResultEnvelope))
                Sample.parseMore Sample.serverName Sample.serverUrl
                (fresh Sample.client) 0 (Sample.responseOk Sample.noResultEnvelope)
                (stringifyPretty Sample.noResultEnvelope) Sample.noResultEnvelope)
      as [_ Hempty];
      [reflexivity | discriminate | intros j Hj; lia | vm_compute; discriminate
      | reflexivity | reflexivity | reflexivity | vm_compute; reflexivity
      | discriminate | reflexivity |].
    apply Hempty. reflexivity.
Defined.

Lemma callToolStream_streams_the_content_witness :
  callToolStream
    (Sample.failsThen 1 (Sample.responseOk (Sample.envelope Sample.twoSixties)))
    Sample.parseMore
    Sample.serverName "search" (JObj []) (fresh Sample.client)
  = (Returned tt,
     after (bump (fresh Sample.client)) 2
       ([EvFetch Sample.serverUrl (callPayload "search" (JObj []) 1); EvDelay 1000;
         EvFetch Sample.serverUrl (callPayload "search" (JObj []) 1)]
          ++ paced (sliceAll Sample.sixty 50 ++ sliceAll Sample.sixty 50))).
Proof.
  destruct (callToolStream_streams_the_content
              (Sample.failsThen 1 (Sample.responseOk (Sample.envelope Sample.twoSixties)))
              Sample.parseMore
              Sample.serverName Sample.serverUrl "search" (JObj [])
              (fresh Sample.client) 1
              (Sample.responseOk (Sample.envelope Sample.twoSixties))
              (stringifyPretty (Sample.envelope Sample.twoSixties))
              (Sample.envelope Sample.twoSixties) Sample.twoSixties
              [Sample.textItem Sample.sixty; Sample.textItem Sample.sixty])
    as [E _];
    [reflexivity | discriminate | | vm_compute; discriminate | reflexivity
    | reflexivity | reflexivity | vm_compute; reflexivity | discriminate
    | reflexivity | reflexivity | reflexivity | reflexivity |].
  - intros j Hj. exists Sample.connReset.
    destruct j as [|j]; [split; reflexivity | lia].
  - rewrite E. reflexivity.
Defined.

(** ** The normalizer on payloads off the declared shape *)

Lemma forEachItem_app (a b : list JSON) (w : World) :
  forEachItem (a ++ b) w = (forEachItem a ;;; forEachItem b) w.
Proof.
  revert w; induction a as [|item a IH]; intros w.
  - cbn [app forEachItem]. reflexivity.
  - cbn [app forEachItem]. unfold bind.
    destruct (streamItem item w) as [[[]| | |] w1]; try reflexivity.
    rewrite IH. reflexivity.
Qed.

(** A [null] among the content items makes the normalizer throw a
    TypeError when the loop reaches it: the chunks of the items before it
    have been delivered by then, the items after it are never looked at. *)
Theorem null_item_aborts_after_partial_delivery (payload : JSON)
    (before rest : list JSON) (w : World) :
  field payload "content" = Some (JArr (before ++ JNull :: rest)) ->
  forallb itemWellTyped before = true ->
  processToolResponse (Some payload) w
  = (Thrown (TypeErrorRead "null" "type"),
     after w 0 (paced (flat_map (fun item => sliceAll (itemText item) 50) before))).
Proof.
  intros Hcontent Hwt.
  rewrite (processToolResponse_content _ _ _ Hcontent), forEachItem_app.
  unfold bind at 1. rewrite forEachItem_spec by assumption. reflexivity.
Qed.

Lemma null_item_aborts_after_partial_delivery_witness :
  processToolResponse
    (Some (JObj [ ("content", JArr [ Sample.textItem "A"; JNull; Sample.textItem "B" ]) ]))
    (fresh Sample.client)
  = (Thrown {| name := "TypeError";
               message := "Cannot read properties of null (reading 'type')";
               code := None; response := None |},
     after (fresh Sample.client) 0 [EvData "A"; EvDelay 10]).
Proof.
  apply (null_item_aborts_after_partial_delivery
           (JObj [ ("content", JArr [ Sample.textItem "A"; JNull; Sample.textItem "B" ]) ])
           [Sample.textItem "A"] [Sample.textItem "B"] (fresh Sample.client));
    reflexivity.
Defined.

(** A truthy [text] that is a number or a boolean has no [length]: nothing
    is streamed for it, not even the JSON fallback, and the call returns. *)
Theorem non_string_text_streams_nothing (payload v : JSON) (w : World) :
  payload <> JNull ->
  isArray (field payload "content") = false ->
  field payload "text" = Some v ->
  truthy (Some v) = true ->
  (exists n, v = JNum n) \/ (exists b, v = JBool b) ->
  processToolResponse (Some payload) w = (Returned tt, w).
Proof.
  intros Hnn Hcontent Htext Htruthy Hkind.
  rewrite processToolResponse_no_content by assumption.
  rewrite Htext, Htruthy.
  destruct Hkind as [[n ->] | [b ->]]; reflexivity.
Qed.

Lemma non_string_text_streams_nothing_witness :
  processToolResponse (Some (JObj [ ("text", JNum 42) ])) (fresh Sample.client)
  = (Returned tt, fresh Sample.client).
Proof.
  apply (non_string_text_streams_nothing (JObj [ ("text", JNum 42) ]) (JNum 42));
    [discriminate | reflexivity | reflexivity | reflexivity
    | left; exists 42%Z; reflexivity].
Defined.

(** A [content] array always wins over a top-level [text]: when none of
    its items contributes text (no item, or only items of other types),
    nothing is streamed, whatever [text] holds. *)
Theorem content_array_hides_the_text (payload : JSON) (items : list JSON)
    (w : World) :
  field payload "content" = Some (JArr items) ->
  forallb itemWellTyped items = true ->
  (forall item, In item items -> itemText item = "") ->
  processToolResponse (Some payload) w = (Returned tt, w).
Proof.
  intros Hcontent Hwt Hsilent.
  rewrite (processToolResponse_content _ _ _ Hcontent).
  rewrite forEachItem_spec by assumption.
  assert (E : flat_map (fun item => sliceAll (itemText item) 50) items = []).
  { clear Hwt Hcontent. induction items as [|item items IH]; [reflexivity|].
    cbn [flat_map]. rewrite (Hsilent item) by now left.
    rewrite sliceAll_empty by lia. apply IH.
    intros x Hx. apply Hsilent. now right. }
  rewrite E. cbn [paced flat_map]. now rewrite after_nil.
Qed.

Lemma content_array_hides_the_text_witness :
  processToolResponse
    (Some (JObj [ ("content", JArr [ Sample.imageItem ]); ("text", JStr "hello") ]))
    (fresh Sample.client)
  = (Returned tt, fresh Sample.client) /\
  processToolResponse
    (Some (JObj [ ("content", JArr []); ("text", JStr "hello") ]))
    (fresh Sample.client)
  = (Returned tt, fresh Sample.client).
Proof.
  split.
  - apply (content_array_hides_the_text
             (JObj [ ("content", JArr [ Sample.imageItem ]); ("text", JStr "hello") ])
             [Sample.imageItem]); [reflexivity | reflexivity |].
    intros item [<- | []]. reflexivity.
  - apply (content_array_hides_the_text
             (JObj [ ("content", JArr []); ("text", JStr "hello") ]) []);
      [reflexivity | reflexivity | intros item []].
Defined.

(** ** Chunk sizes other than the default *)

(** [streamText] with any positive chunk size delivers the consecutive
    slices of that size, which spell the text; with a chunk size of 0 and a
    text that is not empty the loop index never moves, so the loop hands
    the consumer one empty chunk per iteration and never ends. *)
Theorem streamTextWith_any_chunk_size (text : string) (w : World) :
  (forall c, 0 < c ->
     streamTextWith text c w = (Returned tt, after w 0 (paced (sliceAll text c))) /\
     concatStr (sliceAll text c) = text /\
     List.length (sliceAll text c) = (String.length text + c - 1) / c) /\
  (text <> "" ->
   forall fuel,
     streamTextLoop fuel text 0 0 w
     = (OutOfFuel, after w 0 (paced (repeat "" fuel)))).
Proof.
  split.
  - intros c Hc. split; [now apply streamTextWith_spec|].
    split; [now apply sliceAll_concat | apply sliceAll_length].
  - intros Hne fuel.
    assert (Hlen : (0 <? String.length text)%nat = true)
      by (destruct text; [contradiction | reflexivity]).
    revert w. induction fuel as [|fuel IH]; intros w.
    + cbn [streamTextLoop]. rewrite Hlen. cbn [repeat paced flat_map].
      now rewrite after_nil.
    + cbn [streamTextLoop]. rewrite Hlen.
      unfold bind, onData, delay. rewrite !emit_after. cbn [Nat.add].
      rewrite IH, !after_after. unfold slice.
      replace (substring 0 (0 - 0) text) with "" by (now destruct text).
      reflexivity.
Qed.

Lemma streamTextWith_any_chunk_size_witness :
  dataOf (trace (snd (streamTextWith "abcdefg" 3 (fresh Sample.client))))
  = ["abc"; "def"; "g"] /\
  streamTextLoop 2 "ab" 0 0 (fresh Sample.client)
  = (OutOfFuel,
     after (fresh Sample.client) 0 [EvData ""; EvDelay 10; EvData ""; EvDelay 10]).
Proof.
  destruct (streamTextWith_any_chunk_size "abcdefg" (fresh Sample.client))
    as [Hpos _].
  destruct (Hpos 3 ltac:(lia)) as [E _].
  destruct (streamTextWith_any_chunk_size "ab" (fresh Sample.client))
    as [_ Hzero].
  split.
  - rewrite E. reflexivity.
  - apply Hzero. discriminate.
Defined.

(** ** Answers without a result, and what every run looks like *)

Section OutcomeFacts.

Variable net : Network.
Variable JSON_parse : string -> ParseResult.

(** A success envelope whose [result] is missing or [null] makes
    [callToolStream] fail on the first property read of the normalizer: the
    TypeError is wrapped like any other failure and no chunk is delivered.
    ([listTools] answers the same envelope with the empty array.) *)
Theorem missing_result_fails_before_streaming (serverName url tool : string)
    (args : JSON) (w : World) (k : nat) (r : Response) (buffer : string)
    (result : JSON) :
  ownProperty serverName (servers (this w)) = Some url -> url <> "" ->
  (forall j, j < k ->
     exists e, net (j + posts w) = Rejected e /\ isRetryableError e = true) ->
  (Z.of_nat k <= Z.max 0 (maxRetries (this w)))%Z ->
  net (k + posts w) = Resolved r ->
  ok r = true -> body r = BodyText buffer ->
  JSON_parse buffer = Parsed result ->
  result <> JNull -> truthy (field result "error") = false ->
  field result "result" = None \/ field result "result" = Some JNull ->
  let what := match field result "result" with
              | None => "undefined"
              | Some _ => "null"
              end in
  let request := callPayload tool args (requestId (this w)) in
  callToolStream net JSON_parse serverName tool args w
  = (Thrown (Error ("Failed to call tool '" ++ tool ++ "' on " ++ serverName
                      ++ ": Cannot read properties of " ++ what
                      ++ " (reading 'content')")),
     after (bump w) (S k) (retryEvents url request 0 k ++ [EvFetch url request])).
Proof.
  intros Hown Hne Hfail Hk Hnet Hok Hbody Hparse Hnn Herr Hres what request.
  rewrite (callToolStream_registered _ _ _ _ _ _ _ Hown Hne). unfold tryCatch.
  rewrite (request_settles _ _ _ (callPayload tool args) _ _ k (Resolved r)
             Hfail Hk Hnet eq_refl).
  cbv zeta. fold request.
  rewrite (interpretCallResponse_success JSON_parse r _ buffer result)
    by assumption.
  subst what. destruct Hres as [-> | ->]; reflexivity.
Qed.

Lemma interpretListResponse_settles (response : Response) (w : World) :
  match fst (interpretListResponse JSON_parse response w) with
  | Returned _ => True
  | Thrown _ => True
  | OutOfFuel => False
  | Untyped => False
  end.
Proof.
  unfold interpretListResponse, responseJson, responseText, bind, throw, ret.
  destruct (ok response); cbn [negb];
    destruct (body response); try exact I;
    destruct (JSON_parse _) as [result | msg]; try exact I;
    destruct result as [| | | | |fields]; try exact I;
    cbn [getProp ret truthy fst];
    try (destruct b; exact I);
    try (destruct (negb _); exact I).
  all: unfold ret; cbn [truthy].
  all: destruct (lookup "error" fields) as [[| | | | |efields]|]; cbn [truthy getProp];
    unfold throw, ret;
    try exact I;
    try (destruct b; try exact I);
    try (destruct (negb _); try exact I).
  all: destruct (lookup "result" fields) as [[| | | | |rfields]|]; cbn;
    try exact I.
  all: repeat match goal with
         | |- context [match ?x with _ => _ end] => destruct x
         end; exact I.
Qed.

(** [listTools] always returns or throws, and what it throws is either the
    validation error or an error wrapped with the server name and the URL:
    no failure of the request, of the HTTP status, of the parse or of the
    envelope surfaces without that context. *)
Theorem listTools_errors_carry_context (serverName : string) (w : World) :
  let entry := serversGet (servers (this w)) serverName in
  match fst (listTools net JSON_parse serverName w) with
  | Returned _ => entryTruthy entry = true
  | Thrown err =>
      (entryTruthy entry = false /\ err = notFound (servers (this w)) serverName) \/
      (entryTruthy entry = true /\
       exists e,
         err = Error ("Failed to fetch tools from " ++ serverName ++ " ("
                        ++ entryString serverName entry ++ "): "
                        ++ messageOrError e))
  | OutOfFuel => False
  | Untyped => False
  end.
Proof.
  intros entry. rewrite listTools_dispatch. cbv zeta. fold entry.
  destruct (entryTruthy entry); [|left; split; reflexivity].
  unfold tryCatch.
  destruct (request_then net JSON (entryString serverName entry) listPayload
              (interpretListResponse JSON_parse) w) as [k [o [_ [_ E]]]].
  rewrite E. cbv zeta. clear E.
  destruct o as [r | e].
  - match goal with
    | |- context [interpretListResponse JSON_parse r ?w1] =>
        pose proof (interpretListResponse_settles r w1) as Hsettles;
        destruct (interpretListResponse JSON_parse r w1) as [[tools | e | |] w2]
    end; cbn [fst] in *; try contradiction.
    + reflexivity.
    + right. split; [reflexivity|]. exists e. reflexivity.
  - right. split; [reflexivity|]. exists e. reflexivity.
Qed.







End OutcomeFacts.

Lemma missing_result_fails_before_streaming_witness :
  callToolStream (Sample.always (Sample.responseOk Sample.noResultEnvelope))
    Sample.parseMore Sample.serverName "search" (JObj []) (fresh Sample.client)
  = (Thrown (Error ("Failed to call tool 'search' on aws-knowledge-mcp-server: "
                      ++ "Cannot read properties of undefined (reading 'content')")),
     after (bump (fresh Sample.client)) 1
       [EvFetch Sample.serverUrl (callPayload "search" (JObj []) 1)]) /\
  callToolStream (Sample.always (Sample.responseOk Sample.nullResultEnvelope))
    Sample.parseMore Sample.serverName "search" (JObj []) (fresh Sample.client)
  = (Thrown (Error ("Failed to call tool 'search' on aws-knowledge-mcp-server: "
                      ++ "Cannot read properties of null (reading 'content')")),
     after (bump (fresh Sample.client)) 1
       [EvFetch Sample.serverUrl (callPayload "search" (JObj []) 1)]).
Proof.
  split.
  - apply (missing_result_fails_before_streaming
             (Sample.always (Sample.responseOk Sample.noResultEnvelope))
             Sample.parseMore Sample.serverName Sample.serverUrl "search" (JObj [])
             (fresh Sample.client) 0 (Sample.responseOk Sample.noResultEnvelope)
             (stringifyPretty Sample.noResultEnvelope) Sample.noResultEnvelope);
      [reflexivity | discriminate | intros j Hj; lia | vm_compute; discriminate
      | reflexivity | reflexivity | reflexivity | vm_compute; reflexivity
      | discriminate | reflexivity | left; reflexivity].
  - apply (missing_result_fails_before_streaming
             (Sample.always (Sample.responseOk Sample.nullResultEnvelope))
             Sample.parseMore Sample.serverName Sample.serverUrl "search" (JObj [])
             (fresh Sample.client) 0 (Sample.responseOk Sample.nullResultEnvelope)
             (stringifyPretty Sample.nullResultEnvelope) Sample.nullResultEnvelope);
      [reflexivity | discriminate | intros j Hj; lia | vm_compute; discriminate
      | reflexivity | reflexivity | reflexivity | vm_compute; reflexivity
      | discriminate | reflexivity | right; reflexivity].
Defined.

(** ** The registry across calls *)




Section RegistryFacts.

Variable net : Network.
Variable JSON_parse : string -> ParseResult.

(** A call leaves the world as it was, or takes one request id and adds
    events. *)
Lemma callWorld_frame (c : Call) (w : World) :
  callWorld net JSON_parse c w = w \/
  exists (n : nat) (evs : list Event),
    callWorld net JSON_parse c w = after (bump w) n evs.
Proof.
  destruct c as [serverName | serverName tool args]; cbn [callWorld].
  - pose proof (listTools_shape net JSON_parse serverName w) as Hshape.
    cbv zeta in Hshape.
    destruct (entryTruthy (serversGet (servers (this w)) serverName));
      [|left; now rewrite Hshape].
    destruct Hshape as [k [_ Hsnd]]. right. eauto.
  - pose proof (callToolStream_shape net JSON_parse serverName tool args w) as Hshape.
    cbv zeta in Hshape.
    destruct (entryTruthy (serversGet (servers (this w)) serverName));
      [|left; now rewrite Hshape].
    destruct Hshape as [k [chunks [_ [Hsnd _]]]]. right. eauto.
Qed.

Lemma jsSucc_le (n : Z) : (n <= jsSucc n)%Z.
Proof. unfold jsSucc. destruct (n <? 2 ^ 53)%Z; lia. Qed.

(** No run of calls, whatever the network answers, changes the registry,
    the timeout or the retry budget of the client; the request id never
    goes down, and the trace and the count of POSTs only grow. *)
Theorem calls_leave_the_registry_alone (calls : list Call) (w : World) :
  let w' := snd (runCalls net JSON_parse calls w) in
  servers (this w') = servers (this w) /\
  timeout (this w') = timeout (this w) /\
  maxRetries (this w') = maxRetries (this w) /\
  (requestId (this w) <= requestId (this w'))%Z /\
  posts w <= posts w' /\
  exists evs, trace w' = (trace w ++ evs)%list.
Proof.
  revert w. induction calls as [|c calls IH]; intros w.
  - cbn. repeat split; try lia. exists []. now rewrite app_nil_r.
  - cbn [runCalls].
    specialize (IH (callWorld net JSON_parse c w)).
    destruct (runCalls net JSON_parse calls (callWorld net JSON_parse c w))
      as [segments w'] eqn:Hrest.
    cbn [snd] in *.
    destruct IH as [Hs [Ht [Hm [Hid [Hp [evs Htr]]]]]].
    destruct (callWorld_frame c w) as [E | [n [evs1 E]]]; rewrite E in *.
    + repeat split; try assumption. now exists evs.
    + cbn [after bump this servers timeout maxRetries requestId posts trace] in *.
      pose proof (jsSucc_le (requestId (this w))).
      repeat split; try assumption; try lia.
      exists (evs1 ++ evs)%list. now rewrite app_assoc.
Qed.

End RegistryFacts.

(** ** Ordinary objects *)

Section ObjectFacts.

Context {V : Type}.

Lemma get_replace (k key : string) (v : V) (props : list (string * V)) :
  JSObject.get key props <> None ->
  JSObject.get k (JSObject.replace key v props)
  = if String.eqb k key then Some v else JSObject.get k props.
Proof.
  induction props as [|[k0 x] props IH]; intros Hin; [now destruct Hin|].
  cbn [JSObject.get JSObject.replace] in *.
  destruct (String.eqb_spec key k0) as [-> | Hne].
  - cbn [JSObject.get]. destruct (String.eqb_spec k k0); reflexivity.
  - cbn [JSObject.get]. rewrite IH by assumption.
    destruct (String.eqb_spec k k0) as [-> | _]; [|reflexivity].
    destruct (String.eqb_spec k0 key); [congruence | reflexivity].
Qed.

Lemma get_insertIndex (k key : string) (n : N) (v : V) (props : list (string * V)) :
  JSObject.get key props = None ->
  JSObject.get k (JSObject.insertIndex n key v props)
  = if String.eqb k key then Some v else JSObject.get k props.
Proof.
  induction props as [|[k0 x] props IH]; intros Hnew.
  - cbn. destruct (String.eqb k key); reflexivity.
  - cbn [JSObject.get JSObject.insertIndex] in *.
    destruct (String.eqb_spec key k0) as [-> | Hne]; [discriminate|].
    destruct (JSObject.arrayIndex k0) as [m|]; [destruct (n <? m)%N|];
      cbn [JSObject.get]; try reflexivity.
    rewrite IH by assumption.
    destruct (String.eqb_spec k k0) as [-> | _]; [|reflexivity].
    destruct (String.eqb_spec k0 key); [congruence | reflexivity].
Qed.

Lemma get_app_new (k key : string) (v : V) (props : list (string * V)) :
  JSObject.get k (props ++ [(key, v)])
  = match JSObject.get k props with
    | Some x => Some x
    | None => if String.eqb k key then Some v else None
    end.
Proof.
  induction props as [|[k0 x] props IH]; [reflexivity|].
  cbn [app JSObject.get]. destruct (String.eqb k k0); [reflexivity | exact IH].
Qed.

(** Reading after defining: the key defined answers with the new value,
    every other key as before. *)
Lemma get_define (k key : string) (v : V) (props : list (string * V)) :
  JSObject.get k (JSObject.define key v props)
  = if String.eqb k key then Some v else JSObject.get k props.
Proof.
  unfold JSObject.define.
  destruct (JSObject.get key props) as [x|] eqn:Hget.
  - apply get_replace. congruence.
  - destruct (JSObject.arrayIndex key) as [n|]; [now apply get_insertIndex|].
    rewrite get_app_new.
    destruct (String.eqb_spec k key) as [-> | _].
    + now rewrite Hget.
    + now destruct (JSObject.get k props).
Qed.

Lemma get_not_In (k : string) (props : list (string * V)) :
  ~ In k (map fst props) -> JSObject.get k props = None.
Proof.
  induction props as [|[k0 x] props IH]; intros Hnot; [reflexivity|].
  cbn [JSObject.get]. destruct (String.eqb_spec k k0) as [-> | _].
  - exfalso. apply Hnot. now left.
  - apply IH. intros Hin. apply Hnot. now right.
Qed.

(** Reading after a spread: the source wins, key by key. *)
Lemma get_assign (k : string) (src : list (string * V)) :
  NoDup (map fst src) ->
  forall dst,
    JSObject.get k (JSObject.assign dst src)
    = match JSObject.get k src with
      | Some v => Some v
      | None => JSObject.get k dst
      end.
Proof.
  unfold JSObject.assign.
  induction src as [|[k0 x] src IH]; intros Hnd dst; [reflexivity|].
  cbn [fold_left fst snd map JSObject.get] in *.
  inversion Hnd as [|? ? Hnot Hnd']; subst.
  rewrite IH by assumption. rewrite get_define.
  destruct (String.eqb_spec k k0) as [-> | _]; [|reflexivity].
  now rewrite get_not_In.
Qed.

End ObjectFacts.

Lemma lookup_get (key : string) (fields : list (string * JSON)) :
  lookup key fields = JSObject.get key fields.
Proof.
  induction fields as [|[k v] fields IH]; [reflexivity|].
  cbn [lookup JSObject.get]. now rewrite IH.
Qed.

Lemma ownProperty_get (key : string) (srv : Servers) :
  ownProperty key srv = JSObject.get key srv.
Proof.
  induction srv as [|[k v] srv IH]; [reflexivity|].
  cbn [ownProperty JSObject.get]. now rewrite IH.
Qed.

(** ** Loading the configuration *)

(** [loadConfig] never throws and answers with the defaults when there is
    no [config.json], when the file cannot be read, when its text is not
    JSON, and when it is the JSON [null]. *)
Theorem loadConfig_falls_back_to_defaults (GEMINI_MODEL : option string)
    (JSON_parse : string -> ParseResult) (file : ConfigFile) :
  file = NoConfigFile \/
  (exists e, file = Unreadable e) \/
  (exists text,
     file = ConfigText text /\
     ((exists msg, JSON_parse text = SyntaxError msg) \/
      JSON_parse text = Parsed JNull)) ->
  loadConfig GEMINI_MODEL JSON_parse file = defaultConfig GEMINI_MODEL.
Proof.
  intros [-> | [[e ->] | [text [-> [[msg Hp] | Hp]]]]]; cbn [loadConfig];
    try reflexivity; now rewrite Hp.
Qed.

(** For a [config.json] that holds an object, the [client] and [gemini]
    sections of the result are the defaults overridden key by key: a key
    the user's section has (the keys of a section being distinct, as in
    any object) answers with the user's value, even a falsy one, any other
    key with the default; a section the file leaves out is the default
    section. *)
Theorem loadConfig_overrides_sections_key_by_key (GEMINI_MODEL : option string)
    (JSON_parse : string -> ParseResult) (text : string)
    (userFields : list (string * JSON)) (section : string) (defaults : JSON) :
  JSON_parse text = Parsed (JObj userFields) ->
  (section = "client" /\ defaults = defaultClient) \/
  (section = "gemini" /\ defaults = defaultGemini GEMINI_MODEL) ->
  let merged := loadConfig GEMINI_MODEL JSON_parse (ConfigText text) in
  exists mergedFields,
    field merged section = Some (JObj mergedFields) /\
    (forall sectionFields,
       lookup section userFields = Some (JObj sectionFields) ->
       NoDup (map fst sectionFields) ->
       forall key,
         lookup key mergedFields
         = match lookup key sectionFields with
           | Some v => Some v
           | None => field defaults key
           end) /\
    (lookup section userFields = None -> JObj mergedFields = defaults).
Proof.
  intros Hparse Hsection merged. subst merged.
  cbn [loadConfig]. rewrite Hparse. cbn [mergeConfig field].
  destruct Hsection as [[-> ->] | [-> ->]].
  - eexists. split.
    { rewrite lookup_get, get_define. cbn [String.eqb Ascii.eqb Bool.eqb].
      reflexivity. }
    split.
    + intros sectionFields Hsec Hnd key. rewrite Hsec.
      unfold JSObject.spread2. cbn [JSObject.ownEnumerable].
      rewrite lookup_get, get_assign by assumption.
      rewrite <- lookup_get. destruct (lookup key sectionFields); [reflexivity|].
      symmetry. apply lookup_get.
    + intros ->. reflexivity.
  - eexists. split.
    { rewrite lookup_get, !get_define. cbn [String.eqb Ascii.eqb Bool.eqb].
      reflexivity. }
    split.
    + intros sectionFields Hsec Hnd key. rewrite Hsec.
      unfold JSObject.spread2. cbn [JSObject.ownEnumerable].
      rewrite lookup_get, get_assign by assumption.
      rewrite <- lookup_get. destruct (lookup key sectionFields); [reflexivity|].
      symmetry. apply lookup_get.
    + intros ->. reflexivity.
Qed.

(** For a [config.json] that holds an object, [mcpServers] is the user's
    value whenever that is truthy (an empty array is, so it is kept and
    leaves the demo without a server) and the default list otherwise; any
    other top-level key of the file (the keys being distinct) is carried
    over as it is. *)
Theorem loadConfig_keeps_truthy_mcpServers (GEMINI_MODEL : option string)
    (JSON_parse : string -> ParseResult) (text : string)
    (userFields : list (string * JSON)) :
  JSON_parse text = Parsed (JObj userFields) ->
  let merged := loadConfig GEMINI_MODEL JSON_parse (ConfigText text) in
  (forall v,
     lookup "mcpServers" userFields = Some v -> truthy (Some v) = true ->
     field merged "mcpServers" = Some v) /\
  (truthy (lookup "mcpServers" userFields) = false ->
   field merged "mcpServers" = Some defaultMcpServers) /\
  (NoDup (map fst userFields) ->
   forall key,
     key <> "mcpServers" -> key <> "gemini" -> key <> "client" ->
     field merged key = lookup key userFields).
Proof.
  intros Hparse merged. subst merged.
  cbn [loadConfig]. rewrite Hparse. cbn [mergeConfig field].
  assert (Hmcp : forall top c g m,
            lookup "mcpServers"
              (JSObject.define "client" c
                 (JSObject.define "gemini" g
                    (JSObject.define "mcpServers" m top))) = Some m).
  { intros top c g m. rewrite lookup_get, !get_define. reflexivity. }
  split; [|split].
  - intros v Hv Htruthy. rewrite Hmcp. unfold orElse. now rewrite Hv, Htruthy.
  - intros Hfalsy. rewrite Hmcp. unfold orElse.
    destruct (lookup "mcpServers" userFields); [now rewrite Hfalsy | reflexivity].
  - intros Hnd key H1 H2 H3.
    rewrite lookup_get, !get_define.
    rewrite (proj2 (String.eqb_neq _ _) H1), (proj2 (String.eqb_neq _ _) H2),
      (proj2 (String.eqb_neq _ _) H3).
    unfold JSObject.spread2. cbn [JSObject.ownEnumerable].
    rewrite get_assign by assumption. rewrite <- lookup_get.
    destruct (lookup key userFields); [reflexivity|].
    change (JSObject.get key
              [ ("mcpServers", defaultMcpServers);
                ("gemini", defaultGemini GEMINI_MODEL);
                ("client", defaultClient) ] = None).
    cbn [JSObject.get].
    now rewrite (proj2 (String.eqb_neq _ _) H1), (proj2 (String.eqb_neq _ _) H2),
      (proj2 (String.eqb_neq _ _) H3).
Qed.

(** ** The demo's registry *)

Lemma keepEnabled_filter (items : list JSON) :
  forallb serverWellTyped items = true ->
  InteractiveMCPDemo.keepEnabled items = Returned (filter notDisabled items).
Proof.
  induction items as [|server items IH]; intros Hwt; [reflexivity|].
  cbn [forallb] in Hwt. apply andb_true_iff in Hwt. destruct Hwt as [Hs Hrest].
  destruct server as [| | | | |fields]; try discriminate.
  cbn [InteractiveMCPDemo.keepEnabled filter]. rewrite IH by assumption.
  cbn [InteractiveMCPDemo.andThen]. unfold notDisabled.
  destruct (field (JObj fields) "enabled") as [[|[]| | | |]|]; reflexivity.
Qed.

Lemma registerAll_lookup (key : string) (items : list JSON) :
  key <> "__proto__" ->
  forallb serverWellTyped items = true ->
  forall acc : Servers,
    exists servers,
      InteractiveMCPDemo.registerAll acc (filter notDisabled items) = Returned servers /\
      ownProperty key servers = lastEnabledUrl key items (ownProperty key acc) /\
      ownProperty "__proto__" servers = ownProperty "__proto__" acc.
Proof.
  intros Hkey. induction items as [|server items IH]; intros Hwt acc.
  - exists acc. repeat split.
  - cbn [forallb] in Hwt. apply andb_true_iff in Hwt. destruct Hwt as [Hs Hrest].
    cbn [filter lastEnabledUrl]. unfold notDisabled at 1.
    unfold serverWellTyped in Hs.
    destruct server as [| | | | |fields]; try discriminate.
    destruct (field (JObj fields) "name") as [[| | |name| |]|] eqn:Hname;
      try discriminate.
    destruct (field (JObj fields) "url") as [[| | |url| |]|] eqn:Hurl;
      try discriminate.
    assert (Hstep : forall acc',
              InteractiveMCPDemo.register acc' (JObj fields)
              = Returned (if String.eqb name "__proto__" then acc'
                          else JSObject.define name url acc')).
    { intros acc'. unfold InteractiveMCPDemo.register. now rewrite Hname, Hurl. }
    assert (Hnext : ownProperty key
                      (if String.eqb name "__proto__" then acc
                       else JSObject.define name url acc)
                    = (if String.eqb key name then Some url else ownProperty key acc)
                    /\ ownProperty "__proto__"
                         (if String.eqb name "__proto__" then acc
                          else JSObject.define name url acc)
                       = ownProperty "__proto__" acc).
    { destruct (String.eqb_spec name "__proto__") as [-> | Hn].
      - split; [|reflexivity].
        destruct (String.eqb_spec key "__proto__"); [contradiction | reflexivity].
      - split.
        + now rewrite !ownProperty_get, get_define.
        + rewrite (ownProperty_get "__proto__" (JSObject.define name url acc)).
          rewrite get_define, <- ownProperty_get.
          destruct (String.eqb_spec "__proto__" name); [congruence | reflexivity]. }
    destruct Hnext as [Hk Hp].
    destruct (field (JObj fields) "enabled") as [[|[]| | | |]|];
      try (cbn [InteractiveMCPDemo.registerAll]; rewrite Hstep;
           cbn [InteractiveMCPDemo.andThen];
           destruct (IH Hrest (if String.eqb name "__proto__" then acc
                               else JSObject.define name url acc))
             as [servers [E [Hget Hproto]]];
           exists servers; rewrite E, Hget, Hproto, Hk, Hp; repeat split).
    cbn beta iota.
    destruct (IH Hrest acc) as [servers [E [Hget Hproto]]].
    exists servers. rewrite E, Hget, Hproto. repeat split.
Qed.

Lemma buildServers_lookup (config : JSON) (items : list JSON) :
  config <> JNull ->
  field config "mcpServers" = Some (JArr items) ->
  forallb serverWellTyped items = true ->
  exists servers,
    InteractiveMCPDemo.buildServers config = Returned servers /\
    (forall key, key <> "__proto__" ->
                 ownProperty key servers = lastEnabledUrl key items None) /\
    ownProperty "__proto__" servers = None.
Proof.
  intros Hnn Hmcp Hwt.
  assert (Hrun : InteractiveMCPDemo.buildServers config
                 = InteractiveMCPDemo.registerAll [] (filter notDisabled items)).
  { unfold InteractiveMCPDemo.buildServers. rewrite Hmcp.
    destruct config; try congruence;
      now rewrite keepEnabled_filter by assumption. }
  destruct (registerAll_lookup "constructor" items ltac:(discriminate) Hwt [])
    as [servers [E [_ Hproto]]].
  exists servers. rewrite Hrun. split; [exact E|]. split; [|exact Hproto].
  intros key Hkey.
  destruct (registerAll_lookup key items Hkey Hwt []) as [servers' [E' [Hget _]]].
  rewrite E in E'. injection E' as <-. exact Hget.
Qed.

(** The registry the demo builds from a list of well-typed server entries:
    every name answers with the URL of the last entry of that name that is
    not disabled, so a server with [enabled: false] is left out and a later
    entry replaces an earlier one; the name [__proto__] is never
    registered. *)
Theorem buildServers_registers_the_last_enabled_entry (config : JSON)
    (items : list JSON) :
  config <> JNull ->
  field config "mcpServers" = Some (JArr items) ->
  forallb serverWellTyped items = true ->
  exists servers,
    InteractiveMCPDemo.buildServers config = Returned servers /\
    (forall key, key <> "__proto__" ->
                 ownProperty key servers = lastEnabledUrl key items None) /\
    ownProperty "__proto__" servers = None.
Proof. exact (buildServers_lookup config items). Qed.

Lemma constructor_client (GEMINI_MODEL : option string)
    (JSON_parse : string -> ParseResult) (file : ConfigFile)
    (demo : InteractiveMCPDemo.Demo) :
  InteractiveMCPDemo.constructor GEMINI_MODEL JSON_parse file = Returned demo ->
  InteractiveMCPDemo.config demo = loadConfig GEMINI_MODEL JSON_parse file /\
  InteractiveMCPDemo.buildServers (InteractiveMCPDemo.config demo)
  = Returned (servers (InteractiveMCPDemo.client demo)) /\
  requestId (InteractiveMCPDemo.client demo) = 1%Z /\
  maxRetries (InteractiveMCPDemo.client demo) <> 0%Z.
Proof.
  unfold InteractiveMCPDemo.constructor, InteractiveMCPDemo.buildClient.
  set (cfg := loadConfig GEMINI_MODEL JSON_parse file).
  destruct (InteractiveMCPDemo.buildServers cfg) as [srv| | |] eqn:Hb;
    cbn [InteractiveMCPDemo.andThen]; try discriminate.
  assert (Hopts : forall t m,
            maxRetries (constructor srv {| opt_timeout := t; opt_maxRetries := m |})
            <> 0%Z).
  { intros t [m|]; cbn; [|discriminate].
    destruct (Z.eqb_spec m 0); [discriminate | assumption]. }
  destruct (field cfg "client") as [section|]; [|discriminate].
  destruct (InteractiveMCPDemo.optionNumber (field section "timeout")) as [t| | |] eqn:Ht;
    destruct (InteractiveMCPDemo.optionNumber (field section "maxRetries")) as [m| | |] eqn:Hm;
    destruct section; cbn [InteractiveMCPDemo.andThen]; try discriminate;
    rewrite ?Ht, ?Hm; cbn [InteractiveMCPDemo.andThen]; try discriminate;
    intros H; injection H as <-;
    cbn [InteractiveMCPDemo.config InteractiveMCPDemo.client];
    (split; [reflexivity|]; split; [exact Hb|]; split; [reflexivity | apply Hopts]).
Qed.

Lemma tryCatch_rethrow {A} (m : M A) (w : World) :
  tryCatch m (fun error => throw error) w = m w.
Proof. unfold tryCatch. destruct (m w) as [[] ?]; reflexivity. Qed.

(** The demo only ever talks to the server named
    [aws-knowledge-mcp-server].  When the configuration has no enabled entry
    of that name, or only one with an empty URL, [initialize] throws the
    validation error before any POST; otherwise every POST of [initialize]
    goes to the URL of the last enabled entry of that name and carries the
    request id 1. *)
Theorem initialize_needs_an_enabled_aws_server (GEMINI_MODEL : option string)
    (JSON_parse : string -> ParseResult) (file : ConfigFile) (net : Network)
    (demo : InteractiveMCPDemo.Demo) (items : list JSON) :
  InteractiveMCPDemo.constructor GEMINI_MODEL JSON_parse file = Returned demo ->
  field (InteractiveMCPDemo.config demo) "mcpServers" = Some (JArr items) ->
  forallb serverWellTyped items = true ->
  let w := fresh (InteractiveMCPDemo.client demo) in
  let run := InteractiveMCPDemo.initialize net JSON_parse w in
  let url := lastEnabledUrl "aws-knowledge-mcp-server" items None in
  (url = None \/ url = Some "" ->
   run = (Thrown (notFound (servers (InteractiveMCPDemo.client demo))
                    "aws-knowledge-mcp-server"), w)) /\
  (forall u,
     url = Some u -> u <> "" ->
     fetchesOf (trace (snd run)) <> [] /\
     forall post, In post (fetchesOf (trace (snd run))) -> post = (u, listPayload 1)).
Proof.
  intros Hdemo Hmcp Hwt w run url.
  destruct (constructor_client _ _ _ _ Hdemo) as [_ [Hbuild [Hid _]]].
  assert (Hnn : InteractiveMCPDemo.config demo <> JNull)
    by (intros E; rewrite E in Hmcp; discriminate).
  destruct (buildServers_lookup _ _ Hnn Hmcp Hwt) as [srv [E [Hlookup _]]].
  rewrite Hbuild in E. injection E as <-.
  specialize (Hlookup "aws-knowledge-mcp-server" ltac:(discriminate)).
  fold url in Hlookup.
  subst run w. unfold InteractiveMCPDemo.initialize. rewrite tryCatch_rethrow.
  split.
  - intros Hurl. rewrite listTools_dispatch. cbv zeta. unfold serversGet.
    cbn [fresh this] in *. rewrite Hlookup.
    destruct Hurl as [-> | ->]; reflexivity.
  - intros u Hu Hne.
    pose proof (listTools_shape net JSON_parse "aws-knowledge-mcp-server"
                  (fresh (InteractiveMCPDemo.client demo))) as Hshape.
    cbv zeta in Hshape. unfold serversGet in Hshape.
    cbn [fresh this] in Hshape. rewrite Hlookup, Hu in Hshape.
    cbn [entryTruthy entryString] in Hshape.
    rewrite (eqb_nonempty _ Hne) in Hshape. cbn [negb] in Hshape.
    destruct Hshape as [k [_ Hsnd]]. rewrite Hsnd.
    cbn [after bump trace fresh app]. rewrite Hid.
    rewrite fetchesOf_app, fetchesOf_retryEvents. cbn [fetchesOf].
    rewrite <- repeat_cons. split; [discriminate|].
    intros post Hin. now apply (repeat_spec (S k)) in Hin.
Qed.

Lemma loadConfig_falls_back_to_defaults_witness :
  loadConfig None Sample.parseConfig NoConfigFile = defaultConfig None /\
  loadConfig (Some "gemini-pro") Sample.parseConfig (ConfigText "not json")
  = defaultConfig (Some "gemini-pro") /\
  loadConfig None Sample.parseConfig (ConfigText "null") = defaultConfig None.
Proof.
  split; [|split].
  - apply loadConfig_falls_back_to_defaults. now left.
  - apply loadConfig_falls_back_to_defaults. right. right.
    exists "not json". split; [reflexivity|]. left.
    exists "Unexpected token o in JSON at position 1". reflexivity.
  - apply loadConfig_falls_back_to_defaults. right. right.
    exists "null". split; [reflexivity|]. right. reflexivity.
Defined.

Lemma loadConfig_overrides_sections_key_by_key_witness :
  exists mergedFields,
    field (loadConfig None Sample.parseConfig
             (ConfigText (stringifyPretty Sample.userConfig))) "client"
    = Some (JObj mergedFields) /\
    lookup "maxRetries" mergedFields = Some (JNum 0) /\
    lookup "timeout" mergedFields = Some (JNum 30000).
Proof.
  destruct (loadConfig_overrides_sections_key_by_key None Sample.parseConfig
              (stringifyPretty Sample.userConfig)
              [ ("mcpServers", JArr Sample.userServers);
                ("client", JObj [ ("maxRetries", JNum 0) ]);
                ("theme", JStr "dark") ]
              "client" defaultClient)
    as [mergedFields [Hsection [Hkeys _]]].
  - vm_compute. reflexivity.
  - left. split; reflexivity.
  - exists mergedFields. split; [exact Hsection|].
    assert (Hnd : NoDup (map fst [ ("maxRetries", JNum 0) ]))
      by (repeat constructor; intros []).
    split.
    + rewrite (Hkeys [ ("maxRetries", JNum 0) ] eq_refl Hnd "maxRetries"). reflexivity.
    + rewrite (Hkeys [ ("maxRetries", JNum 0) ] eq_refl Hnd "timeout"). reflexivity.
Defined.

Lemma loadConfig_keeps_truthy_mcpServers_witness :
  field (loadConfig None Sample.parseConfig
           (ConfigText (stringifyPretty Sample.userConfig))) "mcpServers"
  = Some (JArr Sample.userServers) /\
  field (loadConfig None Sample.parseConfig
           (ConfigText (stringifyPretty Sample.userConfig))) "theme"
  = Some (JStr "dark").
Proof.
  destruct (loadConfig_keeps_truthy_mcpServers None Sample.parseConfig
              (stringifyPretty Sample.userConfig)
              [ ("mcpServers", JArr Sample.userServers);
                ("client", JObj [ ("maxRetries", JNum 0) ]);
                ("theme", JStr "dark") ])
    as [Hkept [_ Hother]].
  - vm_compute. reflexivity.
  - split.
    + apply Hkept; reflexivity.
    + rewrite Hother; [reflexivity | | discriminate | discriminate | discriminate].
      repeat constructor; cbn; intuition discriminate.
Defined.

Lemma buildServers_registers_the_last_enabled_entry_witness :
  exists servers,
    InteractiveMCPDemo.buildServers Sample.userConfig = Returned servers /\
    ownProperty "local" servers = Some "http://localhost:9090" /\
    ownProperty "staging" servers = None /\
    ownProperty Sample.serverName servers = Some "https://mirror.example".
Proof.
  destruct (buildServers_registers_the_last_enabled_entry Sample.userConfig
              Sample.userServers) as [servers [E [Hlookup _]]];
    [discriminate | reflexivity | reflexivity |].
  exists servers. split; [exact E|].
  split; [|split]; rewrite Hlookup; try reflexivity; discriminate.
Defined.

Lemma initialize_needs_an_enabled_aws_server_witness :
  InteractiveMCPDemo.initialize Sample.alwaysReset Sample.parseConfig
    (fresh (constructor [] {| opt_timeout := Some 30000%Z;
                              opt_maxRetries := Some 3%Z |}))
  = (Thrown (Error ("Server 'aws-knowledge-mcp-server' not found. "
                      ++ "Available servers: ")),
     fresh (constructor [] {| opt_timeout := Some 30000%Z;
                              opt_maxRetries := Some 3%Z |})) /\
  fetchesOf
    (trace (snd (InteractiveMCPDemo.initialize
                   (Sample.always (Sample.responseOk Sample.toolsEnvelope))
                   Sample.parseConfig
                   (fresh (constructor
                             [ (Sample.serverName, "https://mirror.example");
                               ("local", "http://localhost:9090") ]
                             {| opt_timeout := Some 30000%Z;
                                opt_maxRetries := Some 0%Z |})))))
  <> [].
Proof.
  split.
  - destruct (initialize_needs_an_enabled_aws_server None Sample.parseConfig
                (ConfigText (stringifyPretty Sample.disabledConfig))
                Sample.alwaysReset
                {| InteractiveMCPDemo.config :=
                     loadConfig None Sample.parseConfig
                       (ConfigText (stringifyPretty Sample.disabledConfig));
                   InteractiveMCPDemo.client :=
                     constructor [] {| opt_timeout := Some 30000%Z;
                                       opt_maxRetries := Some 3%Z |};
                   InteractiveMCPDemo.availableTools := JArr [] |}
                [ Sample.serverEntry Sample.serverName Sample.serverUrl (Some false) ])
      as [Hfails _];
      [vm_compute; reflexivity | vm_compute; reflexivity | reflexivity |].
    apply Hfails. left. reflexivity.
  - destruct (initialize_needs_an_enabled_aws_server None Sample.parseConfig
                (ConfigText (stringifyPretty Sample.userConfig))
                (Sample.always (Sample.responseOk Sample.toolsEnvelope))
                {| InteractiveMCPDemo.config :=
                     loadConfig None Sample.parseConfig
                       (ConfigText (stringifyPretty Sample.userConfig));
                   InteractiveMCPDemo.client :=
                     constructor
                       [ (Sample.serverName, "https://mirror.example");
                         ("local", "http://localhost:9090") ]
                       {| opt_timeout := Some 30000%Z; opt_maxRetries := Some 0%Z |};
                   InteractiveMCPDemo.availableTools := JArr [] |}
                Sample.userServers)
      as [_ Hposts];
      [vm_compute; reflexivity | vm_compute; reflexivity | reflexivity |].
    destruct (Hposts "https://mirror.example" eq_refl) as [Hsome _];
      [discriminate | exact Hsome].
Defined.

Lemma loadConfig_mcpServers (GEMINI_MODEL : option string)
    (JSON_parse : string -> ParseResult) (text : string)
    (userFields : list (string * JSON)) :
  JSON_parse text = Parsed (JObj userFields) ->
  exists mergedFields,
    loadConfig GEMINI_MODEL JSON_parse (ConfigText text) = JObj mergedFields /\
    lookup "mcpServers" mergedFields
    = Some (orElse (lookup "mcpServers" userFields) defaultMcpServers).
Proof.
  intros Hparse. cbn [loadConfig]. rewrite Hparse. cbn [mergeConfig field].
  eexists. split; [reflexivity|].
  rewrite lookup_get, !get_define. reflexivity.
Qed.

Lemma keepEnabled_null (items : list JSON) :
  In JNull items ->
  InteractiveMCPDemo.keepEnabled items = Thrown (TypeErrorRead "null" "enabled").
Proof.
  induction items as [|server items IH]; intros Hin; [destruct Hin|].
  destruct Hin as [-> | Hin]; [reflexivity|].
  cbn [InteractiveMCPDemo.keepEnabled]. rewrite (IH Hin).
  destruct server; reflexivity.
Qed.

(** [loadConfig] takes any truthy [mcpServers] from the file, and the
    constructor of the demo does not check it: when it is not an array the
    constructor throws the TypeError of calling a [filter] that is not
    there, and when it is an array with a [null] entry it throws on the read
    of [enabled]; no client is built in either case. *)
Theorem constructor_throws_on_malformed_mcpServers (GEMINI_MODEL : option string)
    (JSON_parse : string -> ParseResult) (text : string)
    (userFields : list (string * JSON)) (v : JSON) :
  JSON_parse text = Parsed (JObj userFields) ->
  lookup "mcpServers" userFields = Some v ->
  (truthy (Some v) = true -> isArray (Some v) = false ->
   InteractiveMCPDemo.constructor GEMINI_MODEL JSON_parse (ConfigText text)
   = Thrown (InteractiveMCPDemo.TypeError
               "this.config.mcpServers.filter is not a function")) /\
  (forall items,
     v = JArr items -> In JNull items ->
     InteractiveMCPDemo.constructor GEMINI_MODEL JSON_parse (ConfigText text)
     = Thrown (TypeErrorRead "null" "enabled")).
Proof.
  intros Hparse Hv.
  destruct (loadConfig_mcpServers GEMINI_MODEL _ _ _ Hparse) as [mergedFields [E Hmcp]].
  unfold InteractiveMCPDemo.constructor. rewrite E.
  unfold InteractiveMCPDemo.buildServers. cbn [field]. rewrite Hmcp, Hv.
  unfold orElse. split.
  - intros Htruthy Harr. rewrite Htruthy.
    destruct v; try discriminate; reflexivity.
  - intros items -> Hin. cbn [truthy]. now rewrite keepEnabled_null.
Qed.

Lemma constructor_throws_on_malformed_mcpServers_witness :
  InteractiveMCPDemo.constructor None
    (fun _ => Parsed (JObj [ ("mcpServers", JStr "https://knowledge-mcp.example") ]))
    (ConfigText "{}")
  = Thrown (InteractiveMCPDemo.TypeError
              "this.config.mcpServers.filter is not a function").
Proof.
  destruct (constructor_throws_on_malformed_mcpServers None
              (fun _ => Parsed (JObj [ ("mcpServers",
                                        JStr "https://knowledge-mcp.example") ]))
              "{}" [ ("mcpServers", JStr "https://knowledge-mcp.example") ]
              (JStr "https://knowledge-mcp.example") eq_refl eq_refl)
    as [Hstring _].
  apply Hstring; reflexivity.
Defined.

(** ** Fences, white space and case *)

Section StringFacts.

Import JSString.

Lemma append_nil_r (s : string) : s ++ "" = s.
Proof. induction s as [|c s IH]; [reflexivity|]. cbn [append]. now rewrite IH. Qed.

Lemma fenceMatch_clean (c : ascii) (rest : string) :
  Ascii.eqb c backtick = false -> startsClean rest = true ->
  fenceMatch (String c rest) = None.
Proof.
  intros Hc Hrest. unfold fenceMatch, fence.
  cbn [append prefix].
  destruct (ascii_dec backtick c) as [E|_].
  { subst c. now rewrite Ascii.eqb_refl in Hc. }
  unfold newline. cbn [append prefix].
  destruct (ascii_dec (ascii_of_nat 10) c) as [_|_]; [|reflexivity].
  destruct rest as [|d rest]; [reflexivity|].
  cbn [startsClean] in Hrest. cbn [prefix].
  destruct (ascii_dec backtick d) as [E|_]; [|reflexivity].
  subst d. now rewrite Ascii.eqb_refl in Hrest.
Qed.

Lemma startsClean_app (body tail : string) :
  noBacktick body = true -> startsClean tail = true ->
  startsClean (body ++ tail) = true.
Proof.
  intros Hb Ht. destruct body as [|c body]; [exact Ht|].
  cbn [noBacktick] in Hb. apply andb_prop in Hb. exact (proj1 Hb).
Qed.

(** Text without a backtick goes through the replace as it is, up to the
    point where a backtick shows up. *)
Lemma stripFrom_plain (body tail : string) :
  noBacktick body = true -> startsClean tail = true ->
  stripFrom 0 (body ++ tail) = body ++ stripFrom 0 tail.
Proof.
  intros Hb Ht. induction body as [|c body IH]; [reflexivity|].
  cbn [noBacktick] in Hb. apply andb_prop in Hb. destruct Hb as [Hc Hb].
  apply negb_true_iff in Hc.
  cbn [append stripFrom].
  rewrite (fenceMatch_clean c (body ++ tail) Hc (startsClean_app _ _ Hb Ht)).
  now rewrite (IH Hb).
Qed.

Lemma stripFences_plain (text : string) :
  noBacktick text = true -> stripFences text = text.
Proof.
  intros H. unfold stripFences.
  rewrite <- (append_nil_r text) at 1.
  rewrite (stripFrom_plain text "" H eq_refl). cbn [stripFrom].
  apply append_nil_r.
Qed.

Lemma stripFrom_closing :
  stripFrom 0 (newline ++ fence) = "".
Proof. reflexivity. Qed.

Lemma stripFences_tagged (body : string) :
  noBacktick body = true ->
  stripFences (fence ++ "json" ++ newline ++ body ++ newline ++ fence) = body.
Proof.
  intros H. unfold stripFences.
  assert (E : forall rest,
            stripFrom 0 (fence ++ "json" ++ newline ++ rest) = stripFrom 0 rest).
  { intros rest. destruct rest; reflexivity. }
  rewrite E.
  rewrite (stripFrom_plain body (newline ++ fence) H eq_refl), stripFrom_closing.
  apply append_nil_r.
Qed.

Lemma stripFences_untagged (body : string) :
  noBacktick body = true ->
  stripFences (fence ++ newline ++ body ++ newline ++ fence) = newline ++ body.
Proof.
  intros H. unfold stripFences.
  change (stripFrom 0 (fence ++ newline ++ body ++ newline ++ fence))
    with (stripFrom 0 ((newline ++ body) ++ newline ++ fence)).
  rewrite (stripFrom_plain (newline ++ body) (newline ++ fence)).
  - rewrite stripFrom_closing. apply append_nil_r.
  - exact H.
  - reflexivity.
Qed.

Lemma stripFences_late_fence (pre body : string) :
  noBacktick pre = true -> noBacktick body = true ->
  stripFences (pre ++ newline ++ fence ++ "json" ++ newline ++ body ++ newline ++ fence)
  = pre ++ "json" ++ newline ++ body.
Proof.
  intros Hp Hb. unfold stripFences.
  rewrite (stripFrom_plain pre
             (newline ++ fence ++ "json" ++ newline ++ body ++ newline ++ fence)
             Hp eq_refl).
  f_equal.
  change (stripFrom 0 (newline ++ fence ++ "json" ++ newline ++ body ++ newline ++ fence))
    with (stripFrom 0 (("json" ++ newline ++ body) ++ newline ++ fence)).
  rewrite (stripFrom_plain ("json" ++ newline ++ body) (newline ++ fence)).
  - rewrite stripFrom_closing. apply append_nil_r.
  - exact Hb.
  - reflexivity.
Qed.

End StringFacts.

(** ** Asking the model for a tool choice *)

Section AskingTheModel.

Import JSString.
Import InteractiveMCPDemo.

Variable JSON_parse : string -> ParseResult.
Variable gemini : Gemini.

Lemma askGeminiForToolChoice_answered (demo : Demo) (userInput text : string)
    (m : Value) (s : Session) :
  configuredModel (config demo) = Returned m ->
  gemini (List.length (asked s)) = Generated (Some text) ->
  text <> "" ->
  askGeminiForToolChoice JSON_parse gemini demo userInput s
  = (parsedChoice JSON_parse (cleanedText text),
     asking s m (toolChoicePrompt (availableTools demo) userInput)).
Proof.
  intros Hm Hg Hne.
  unfold askGeminiForToolChoice, bindD, liftO, generateContent, parsedChoice.
  rewrite Hm, Hg.
  destruct (String.eqb text "") eqn:E.
  { apply String.eqb_eq in E. contradiction. }
  unfold asking. destruct (JSON_parse (cleanedText text)); reflexivity.
Qed.

Lemma trim_newline (body : string) : trim (newline ++ body) = trim body.
Proof. reflexivity. Qed.

(** Whether the model answers with the bare JSON text or wraps it in a
    fenced block, tagged json or not, [askGeminiForToolChoice] makes one
    call to the model, with the tool-choice prompt, and returns what
    [JSON.parse] makes of the trimmed body (or throws the invalid-JSON error
    when it is no JSON). *)
Theorem fenced_answer_is_parsed_as_its_body (demo : Demo)
    (userInput text body : string) (m : Value) (s : Session) :
  configuredModel (config demo) = Returned m ->
  gemini (List.length (asked s)) = Generated (Some text) ->
  text <> "" ->
  noBacktick body = true ->
  text = body \/
  text = fence ++ "json" ++ newline ++ body ++ newline ++ fence \/
  text = fence ++ newline ++ body ++ newline ++ fence ->
  askGeminiForToolChoice JSON_parse gemini demo userInput s
  = (parsedChoice JSON_parse (trim body),
     asking s m (toolChoicePrompt (availableTools demo) userInput)).
Proof.
  intros Hm Hg Hne Hbody Hshape.
  rewrite (askGeminiForToolChoice_answered demo userInput text m s Hm Hg Hne).
  f_equal. f_equal. unfold cleanedText.
  destruct Hshape as [-> | [-> | ->]].
  - now rewrite stripFences_plain.
  - now rewrite stripFences_tagged.
  - rewrite stripFences_untagged by assumption. apply trim_newline.
Qed.

(** When the fenced block does not open the answer but follows a line break
    (the model wrote a sentence first, or an empty line), the replace takes
    the line break together with the fence and leaves the tag: the text
    handed to [JSON.parse] is what came before, the word json, and the
    body. *)
Theorem fence_after_a_line_break_leaves_the_tag (demo : Demo)
    (userInput pre body : string) (m : Value) (s : Session) :
  configuredModel (config demo) = Returned m ->
  noBacktick pre = true -> noBacktick body = true ->
  gemini (List.length (asked s))
  = Generated (Some (pre ++ newline ++ fence ++ "json" ++ newline ++ body
                       ++ newline ++ fence)) ->
  askGeminiForToolChoice JSON_parse gemini demo userInput s
  = (parsedChoice JSON_parse (trim (pre ++ "json" ++ newline ++ body)),
     asking s m (toolChoicePrompt (availableTools demo) userInput)).
Proof.
  intros Hm Hpre Hbody Hg.
  rewrite (askGeminiForToolChoice_answered demo userInput _ m s Hm Hg).
  - unfold cleanedText. now rewrite stripFences_late_fence.
  - destruct pre; discriminate.
Qed.

End AskingTheModel.

Lemma fenced_answer_is_parsed_as_its_body_witness :
  InteractiveMCPDemo.askGeminiForToolChoice Sample.parseChoice
    (Sample.answers (Sample.fenced (stringifyPretty Sample.choiceSearch)))
    Sample.demo "What is Amazon Bedrock?" Sample.session
  = (Returned Sample.choiceSearch,
     asking Sample.session (Some (JStr "gemini-2.5-flash-lite"))
       (InteractiveMCPDemo.toolChoicePrompt
          (JArr [ JObj [ ("name", JStr "search") ] ]) "What is Amazon Bedrock?")).
Proof.
  refine (fenced_answer_is_parsed_as_its_body Sample.parseChoice
            (Sample.answers (Sample.fenced (stringifyPretty Sample.choiceSearch)))
            Sample.demo "What is Amazon Bedrock?"
            (Sample.fenced (stringifyPretty Sample.choiceSearch))
            (stringifyPretty Sample.choiceSearch)
            (Some (JStr "gemini-2.5-flash-lite")) Sample.session
            eq_refl eq_refl _ eq_refl (or_intror (or_introl eq_refl))).
  intros E. vm_compute in E. discriminate E.
Defined.

Lemma fence_after_a_line_break_leaves_the_tag_witness :
  InteractiveMCPDemo.askGeminiForToolChoice Sample.parseChoice
    (Sample.answers ("Here is my choice:" ++ newline
                       ++ Sample.fenced (stringifyPretty Sample.choiceSearch)))
    Sample.demo "What is Amazon Bedrock?" Sample.session
  = (Thrown (Error "Invalid JSON response from Gemini"),
     asking Sample.session (Some (JStr "gemini-2.5-flash-lite"))
       (InteractiveMCPDemo.toolChoicePrompt
          (JArr [ JObj [ ("name", JStr "search") ] ]) "What is Amazon Bedrock?")).
Proof.
  exact (fence_after_a_line_break_leaves_the_tag Sample.parseChoice
           (Sample.answers ("Here is my choice:" ++ newline
                              ++ Sample.fenced (stringifyPretty Sample.choiceSearch)))
           Sample.demo "What is Amazon Bedrock?" "Here is my choice:"
           (stringifyPretty Sample.choiceSearch)
           (Some (JStr "gemini-2.5-flash-lite")) Sample.session
           eq_refl eq_refl eq_refl eq_refl).
Defined.

(** ** Calling the tool the model chose *)

Section ToolCalls.

Import InteractiveMCPDemo.

Variable net : Network.
Variable JSON_parse : string -> ParseResult.
Variable gemini : Gemini.

Lemma handleMCPToolCall_run (demo : Demo) (choice : JSON) (tool : string)
    (args : JSON) (s : Session) :
  choice <> JNull ->
  field choice "tool" = Some (JStr tool) -> tool <> "" ->
  field choice "args" = Some args -> truthy (Some args) = true ->
  handleMCPToolCall net JSON_parse gemini demo choice s
  = match callToolStream net JSON_parse "aws-knowledge-mcp-server" tool args
            (world s) with
    | (Returned _, w1) =>
        let s1 := {| world := w1; asked := asked s |} in
        let streamedText := concatStr (dataOf (newEvents (world s) w1)) in
        if (500 <? String.length streamedText)%nat then
          match configuredModel (config demo) with
          | Returned m =>
              (match gemini (List.length (asked s)) with
               | Generated _ => Returned tt
               | GenerateFails e => Thrown e
               end,
               asking s1 m (summaryPrompt streamedText))
          | Thrown e => (Thrown e, s1)
          | OutOfFuel => (OutOfFuel, s1)
          | Untyped => (Untyped, s1)
          end
        else (Returned tt, s1)
    | (Thrown e, w1) => (Thrown e, {| world := w1; asked := asked s |})
    | (OutOfFuel, w1) => (OutOfFuel, {| world := w1; asked := asked s |})
    | (Untyped, w1) => (Untyped, {| world := w1; asked := asked s |})
    end.
Proof.
  intros Hnn Htool Hne Hargs Htruthy.
  assert (Ht : truthy (Some (JStr tool)) = true).
  { cbn [truthy]. destruct (String.eqb tool "") eqn:E; [|reflexivity].
    apply String.eqb_eq in E. contradiction. }
  assert (E : handleMCPToolCall net JSON_parse gemini demo choice s
              = (before <-- getWorld ;;
                 liftM (callToolStream net JSON_parse "aws-knowledge-mcp-server"
                          tool args) >>;
                 later <-- getWorld ;;
                 let streamedText := concatStr (dataOf (newEvents before later)) in
                 if (500 <? String.length streamedText)%nat then
                   model <-- liftO (configuredModel (config demo)) ;;
                   generateContent gemini model (summaryPrompt streamedText) >>;
                   retD tt
                 else retD tt) s).
  { unfold handleMCPToolCall. rewrite Htool, Hargs, Ht, Htruthy. cbn [negb orb].
    destruct choice; [contradiction| | | | |]; reflexivity. }
  rewrite E. unfold bindD at 1. unfold getWorld at 1. cbn iota beta.
  unfold bindD at 1. unfold liftM.
  destruct (callToolStream net JSON_parse "aws-knowledge-mcp-server" tool args
              (world s)) as [[[]|e| |] w1]; try reflexivity.
  unfold bindD at 1. unfold getWorld. cbn iota beta zeta. cbn [world].
  destruct (500 <? String.length (concatStr (dataOf (newEvents (world s) w1))))%nat;
    [|reflexivity].
  unfold bindD, liftO, generateContent, retD, asking.
  destruct (configuredModel (config demo)); try reflexivity.
  cbn [asked world].
  destruct (gemini (List.length (asked s))); reflexivity.
Qed.

Lemma callToolStream_content_run (serverName url tool : string) (args : JSON)
    (w : World) (r : Response) (buffer : string) (result payload : JSON)
    (items : list JSON) :
  ownProperty serverName (servers (this w)) = Some url -> url <> "" ->
  net (posts w) = Resolved r ->
  ok r = true -> body r = BodyText buffer ->
  JSON_parse buffer = Parsed result ->
  result <> JNull -> truthy (field result "error") = false ->
  field result "result" = Some payload ->
  field payload "content" = Some (JArr items) ->
  forallb itemWellTyped items = true ->
  let request := callPayload tool args (requestId (this w)) in
  let w1 := after (bump w) 1
              ([EvFetch url request]
                 ++ paced (flat_map (fun item => sliceAll (itemText item) 50) items)) in
  callToolStream net JSON_parse serverName tool args w = (Returned tt, w1) /\
  concatStr (dataOf (newEvents w w1)) = concatStr (map itemText items).
Proof.
  intros Hown Hne Hnet Hok Hbody Hparse Hnn Herr Hres Hcontent Hwt request w1.
  split.
  - rewrite (callToolStream_registered _ _ _ _ _ _ _ Hown Hne). unfold tryCatch.
    rewrite (request_settles net _ _ (callPayload tool args) _ _ 0 (Resolved r)).
    + cbv zeta. fold request. cbn [retryEvents app].
      rewrite (interpretCallResponse_success JSON_parse r _ buffer result)
        by assumption.
      rewrite Hres, (processToolResponse_content _ _ _ Hcontent).
      rewrite forEachItem_spec by assumption.
      rewrite after_after. reflexivity.
    + intros j Hj. lia.
    + cbn. lia.
    + exact Hnet.
    + reflexivity.
  - subst w1. rewrite newEvents_bump.
    rewrite dataOf_app, dataOf_paced. cbn [dataOf app].
    clear. induction items as [|item items IH]; [reflexivity|].
    cbn [map flat_map]. rewrite concatStr_app, IH, sliceAll_concat by lia.
    reflexivity.
Qed.

(** The text the model is asked to summarise is the text of the content
    items, joined: when the server answers a call with well-typed content
    items, [handleMCPToolCall] streams them in 50-character chunks, and if
    the joined texts are longer than 500 characters it puts exactly them
    into the one summary prompt it sends; if they are not, it makes no call
    to the model at all. *)
Theorem long_answers_are_summarised (demo : Demo) (choice : JSON)
    (tool url : string) (args : JSON) (m : Value) (s : Session)
    (r : Response) (buffer : string) (result payload : JSON) (items : list JSON) :
  choice <> JNull ->
  field choice "tool" = Some (JStr tool) -> tool <> "" ->
  field choice "args" = Some args -> truthy (Some args) = true ->
  configuredModel (config demo) = Returned m ->
  ownProperty "aws-knowledge-mcp-server" (servers (this (world s))) = Some url ->
  url <> "" ->
  net (posts (world s)) = Resolved r ->
  ok r = true -> body r = BodyText buffer ->
  JSON_parse buffer = Parsed result ->
  result <> JNull -> truthy (field result "error") = false ->
  field result "result" = Some payload ->
  field payload "content" = Some (JArr items) ->
  forallb itemWellTyped items = true ->
  let request := callPayload tool args (requestId (this (world s))) in
  let streamedText := concatStr (map itemText items) in
  let s1 :=
    {| world := after (bump (world s)) 1
                  ([EvFetch url request]
                     ++ paced (flat_map (fun item => sliceAll (itemText item) 50)
                                 items));
       asked := asked s |} in
  handleMCPToolCall net JSON_parse gemini demo choice s
  = if (500 <? String.length streamedText)%nat then
      (match gemini (List.length (asked s)) with
       | Generated _ => Returned tt
       | GenerateFails e => Thrown e
       end,
       asking s1 m (summaryPrompt streamedText))
    else (Returned tt, s1).
Proof.
  intros Hnn Htool Hne Hargs Htruthy Hm Hown Hurl Hnet Hok Hbody Hparse Hres Herr
    Hresult Hcontent Hwt request streamedText s1.
  rewrite (handleMCPToolCall_run demo choice tool args s Hnn Htool Hne Hargs Htruthy).
  destruct (callToolStream_content_run "aws-knowledge-mcp-server" url tool args
              (world s) r buffer result payload items Hown Hurl Hnet Hok Hbody
              Hparse Hres Herr Hresult Hcontent Hwt) as [Hrun Hdata].
  rewrite Hrun. cbv zeta. rewrite Hdata, Hm. reflexivity.
Qed.

End ToolCalls.

Lemma long_answers_are_summarised_witness :
  (fst (InteractiveMCPDemo.handleMCPToolCall
          (Sample.always (Sample.responseOk (Sample.envelope Sample.longPayload)))
          Sample.parseAll (Sample.answers "Nine lines of test data.")
          Sample.demo Sample.choiceSearch Sample.session)
   = Returned tt /\
   InteractiveMCPDemo.asked
     (snd (InteractiveMCPDemo.handleMCPToolCall
             (Sample.always (Sample.responseOk (Sample.envelope Sample.longPayload)))
             Sample.parseAll (Sample.answers "Nine lines of test data.")
             Sample.demo Sample.choiceSearch Sample.session))
   = [ (Some (JStr "gemini-2.5-flash-lite"),
        InteractiveMCPDemo.summaryPrompt (concatStr (repeat Sample.sixty 9))) ]) /\
  (fst (InteractiveMCPDemo.handleMCPToolCall
          (Sample.always (Sample.responseOk (Sample.envelope Sample.twoSixties)))
          Sample.parseAll (Sample.answers "Nine lines of test data.")
          Sample.demo Sample.choiceSearch Sample.session)
   = Returned tt /\
   InteractiveMCPDemo.asked
     (snd (InteractiveMCPDemo.handleMCPToolCall
             (Sample.always (Sample.responseOk (Sample.envelope Sample.twoSixties)))
             Sample.parseAll (Sample.answers "Nine lines of test data.")
             Sample.demo Sample.choiceSearch Sample.session))
   = []).
Proof.
  split.
  - pose proof (long_answers_are_summarised
                  (Sample.always (Sample.responseOk (Sample.envelope Sample.longPayload)))
                  Sample.parseAll (Sample.answers "Nine lines of test data.")
                  Sample.demo Sample.choiceSearch "search" Sample.serverUrl
                  (JObj [ ("query", JStr "Amazon Bedrock") ])
                  (Some (JStr "gemini-2.5-flash-lite")) Sample.session
                  (Sample.responseOk (Sample.envelope Sample.longPayload))
                  (stringifyPretty (Sample.envelope Sample.longPayload))
                  (Sample.envelope Sample.longPayload) Sample.longPayload
                  (repeat (Sample.textItem Sample.sixty) 9)) as H.
    cbv zeta in H.
    rewrite H; try (vm_compute; reflexivity);
      try (intros E; vm_compute in E; discriminate E).
    split; vm_compute; reflexivity.
  - pose proof (long_answers_are_summarised
                  (Sample.always (Sample.responseOk (Sample.envelope Sample.twoSixties)))
                  Sample.parseAll (Sample.answers "Nine lines of test data.")
                  Sample.demo Sample.choiceSearch "search" Sample.serverUrl
                  (JObj [ ("query", JStr "Amazon Bedrock") ])
                  (Some (JStr "gemini-2.5-flash-lite")) Sample.session
                  (Sample.responseOk (Sample.envelope Sample.twoSixties))
                  (stringifyPretty (Sample.envelope Sample.twoSixties))
                  (Sample.envelope Sample.twoSixties) Sample.twoSixties
                  [ Sample.textItem Sample.sixty; Sample.textItem Sample.sixty ]) as H.
    cbv zeta in H.
    rewrite H; try (vm_compute; reflexivity);
      try (intros E; vm_compute in E; discriminate E).
    split; vm_compute; reflexivity.
Defined.

(** ** One question, and the loop *)

Section LoopFacts.

Import InteractiveMCPDemo.

Variable net : Network.
Variable JSON_parse : string -> ParseResult.
Variable gemini : Gemini.













End LoopFacts.

(** ** Commands *)

Section Commands.

Import JSString.
Import InteractiveMCPDemo.

Variable net : Network.
Variable JSON_parse : string -> ParseResult.
Variable gemini : Gemini.

Lemma isWhiteSpace_lowerUnit (c : ascii) :
  isWhiteSpace (lowerUnit c) = isWhiteSpace c.
Proof. destruct c as [[] [] [] [] [] [] [] []]; reflexivity. Qed.

Lemma noWhiteSpace_toLowerCase (word : string) :
  noWhiteSpace (toLowerCase word) = noWhiteSpace word.
Proof.
  induction word as [|c word IH]; [reflexivity|].
  cbn [toLowerCase noWhiteSpace]. now rewrite isWhiteSpace_lowerUnit, IH.
Qed.

Lemma trimStart_white (pad rest : string) :
  allWhiteSpace pad = true -> trimStart (pad ++ rest) = trimStart rest.
Proof.
  induction pad as [|c pad IH]; intros H; [reflexivity|].
  cbn [allWhiteSpace] in H. apply andb_prop in H. destruct H as [Hc H].
  cbn [append trimStart]. rewrite Hc. exact (IH H).
Qed.

Lemma trimEnd_white (pad : string) :
  allWhiteSpace pad = true -> trimEnd pad = "".
Proof.
  induction pad as [|c pad IH]; intros H; [reflexivity|].
  cbn [allWhiteSpace] in H. apply andb_prop in H. destruct H as [Hc H].
  cbn [trimEnd]. now rewrite (IH H), Hc.
Qed.

Lemma trimEnd_solid (word pad : string) :
  noWhiteSpace word = true -> allWhiteSpace pad = true ->
  trimEnd (word ++ pad) = word.
Proof.
  intros Hw Hp. induction word as [|c word IH]; [exact (trimEnd_white pad Hp)|].
  cbn [noWhiteSpace] in Hw. apply andb_prop in Hw. destruct Hw as [Hc Hw].
  apply negb_true_iff in Hc.
  cbn [append trimEnd]. rewrite (IH Hw), Hc. destruct word; reflexivity.
Qed.

(** White space around a word that has none inside is trimmed away. *)
Lemma trim_padded (pad1 word pad2 : string) :
  allWhiteSpace pad1 = true -> allWhiteSpace pad2 = true ->
  noWhiteSpace word = true ->
  trim (pad1 ++ word ++ pad2) = word.
Proof.
  intros H1 H2 Hw. unfold trim. rewrite (trimStart_white pad1 _ H1).
  destruct word as [|c word].
  - cbn [append]. rewrite <- (append_nil_r pad2) at 1.
    now rewrite (trimStart_white pad2 "" H2).
  - pose proof Hw as Hw'. cbn [noWhiteSpace] in Hw'.
    apply andb_prop in Hw'. destruct Hw' as [Hc _]. apply negb_true_iff in Hc.
    cbn [append trimStart]. rewrite Hc.
    exact (trimEnd_solid (String c word) pad2 Hw H2).
Qed.

Lemma showTools_caught {A} (demo : Demo) (k : D A) (s : Session) :
  (tryCatchD (liftO (showTools demo)) (fun _ => retD tt) >>; k) s = k s.
Proof.
  unfold bindD, tryCatchD, liftO, showTools.
  destruct (availableTools demo) as [| | | |tools|]; try reflexivity.
  destruct (existsb _ tools); reflexivity.
Qed.

(** Commands are read in any case and with white space around them, and
    they cost nothing.  A line that is quit or exit closes the session at
    once: no later line is read.  A blank line, help and tools reach neither
    the model nor the server: the session goes on as if the line had not
    been typed. *)
Theorem commands_are_read_padded_and_in_any_case (demo : Demo)
    (pad1 word pad2 : string) (rest : list string) (s : Session) :
  allWhiteSpace pad1 = true -> allWhiteSpace pad2 = true ->
  (toLowerCase word = "quit" \/ toLowerCase word = "exit" ->
   runLoop net JSON_parse gemini demo ((pad1 ++ word ++ pad2) :: rest) s
   = (Returned Closed, s)) /\
  (word = "" \/ toLowerCase word = "help" \/ toLowerCase word = "tools" ->
   runLoop net JSON_parse gemini demo ((pad1 ++ word ++ pad2) :: rest) s
   = runLoop net JSON_parse gemini demo rest s).
Proof.
  intros H1 H2.
  assert (Htrim : forall command,
            toLowerCase word = command -> noWhiteSpace command = true ->
            trim (pad1 ++ word ++ pad2) = word).
  { intros command <- Hc. rewrite noWhiteSpace_toLowerCase in Hc.
    exact (trim_padded pad1 word pad2 H1 H2 Hc). }
  assert (Hword : forall command,
            toLowerCase word = command -> command <> "" ->
            String.eqb word "" = false).
  { intros command <- Hc. destruct word; [now contradiction Hc | reflexivity]. }
  split.
  - intros Hcmd. cbn [runLoop].
    assert (Ht : trim (pad1 ++ word ++ pad2) = word).
    { destruct Hcmd as [E | E]; exact (Htrim _ E eq_refl). }
    assert (Hne : String.eqb word "" = false).
    { destruct Hcmd as [E | E]; apply (Hword _ E); discriminate. }
    rewrite Ht, Hne. destruct Hcmd as [-> | ->]; reflexivity.
  - intros [-> | Hcmd].
    + cbn [runLoop]. rewrite (trim_padded pad1 "" pad2 H1 H2 eq_refl). reflexivity.
    + cbn [runLoop].
      assert (Ht : trim (pad1 ++ word ++ pad2) = word).
      { destruct Hcmd as [E | E]; exact (Htrim _ E eq_refl). }
      assert (Hne : String.eqb word "" = false).
      { destruct Hcmd as [E | E]; apply (Hword _ E); discriminate. }
      rewrite Ht, Hne. destruct Hcmd as [-> | ->]; cbn [String.eqb orb].
      * reflexivity.
      * apply showTools_caught.
Qed.

End Commands.

Lemma commands_are_read_padded_and_in_any_case_witness :
  InteractiveMCPDemo.runLoop Sample.alwaysReset Sample.parseAll
    (Sample.answers "Hello.") Sample.demo
    [ "  Tools"; "   "; Sample.tab ++ "QUIT "; "What is Amazon Bedrock?" ]
    Sample.session
  = (Returned InteractiveMCPDemo.Closed, Sample.session).
Proof.
  eapply eq_trans.
  { exact (proj2 (commands_are_read_padded_and_in_any_case Sample.alwaysReset
                    Sample.parseAll (Sample.answers "Hello.") Sample.demo
                    "  " "Tools" ""
                    [ "   "; Sample.tab ++ "QUIT "; "What is Amazon Bedrock?" ]
                    Sample.session eq_refl eq_refl)
             (or_intror (or_intror eq_refl))). }
  eapply eq_trans.
  { exact (proj2 (commands_are_read_padded_and_in_any_case Sample.alwaysReset
                    Sample.parseAll (Sample.answers "Hello.") Sample.demo
                    "   " "" ""
                    [ Sample.tab ++ "QUIT "; "What is Amazon Bedrock?" ]
                    Sample.session eq_refl eq_refl)
             (or_introl eq_refl)). }
  exact (proj1 (commands_are_read_padded_and_in_any_case Sample.alwaysReset
                  Sample.parseAll (Sample.answers "Hello.") Sample.demo
                  Sample.tab "QUIT" " " [ "What is Amazon Bedrock?" ]
                  Sample.session eq_refl eq_refl)
           (or_introl eq_refl)).
Defined.

(** ** Choices that call no tool *)

Section Choices.

Import InteractiveMCPDemo.

Variable net : Network.
Variable JSON_parse : string -> ParseResult.
Variable gemini : Gemini.

(** When the model's choice declines the tools (a falsy [shouldUseTool], or
    no tool name), the question itself, not the prompt, goes to the model in
    a second call and the server is not contacted.  When the choice names a
    tool and has no truthy [args], the turn ends in the invalid-choice error
    after the one call: the question gets neither a tool call nor a direct
    answer. *)
Theorem choices_without_a_tool_call (demo : Demo) (userInput text : string)
    (choice : JSON) (m : Value) (s : Session) :
  configuredModel (config demo) = Returned m ->
  gemini (List.length (asked s)) = Generated (Some text) ->
  text <> "" ->
  JSON_parse (cleanedText text) = Parsed choice ->
  choice <> JNull ->
  let s1 := asking s m (toolChoicePrompt (availableTools demo) userInput) in
  (truthy (field choice "shouldUseTool") && truthy (field choice "tool") = false ->
   answer net JSON_parse gemini demo userInput s
   = (match gemini (S (List.length (asked s))) with
      | Generated _ => Returned tt
      | GenerateFails e => Thrown e
      end,
      asking s1 m userInput)) /\
  (truthy (field choice "shouldUseTool") && truthy (field choice "tool") = true ->
   truthy (field choice "args") = false ->
   answer net JSON_parse gemini demo userInput s
   = (Thrown (Error "Invalid tool choice"), s1)).
Proof.
  intros Hm Hg Hne Hp Hnn s1.
  assert (E : answer net JSON_parse gemini demo userInput s
              = (if truthy (field choice "shouldUseTool")
                    && truthy (field choice "tool")
                 then handleMCPToolCall net JSON_parse gemini demo choice
                 else handleDirectResponse gemini demo userInput) s1).
  { unfold answer, bindD.
    rewrite (askGeminiForToolChoice_answered JSON_parse gemini demo userInput text
               m s Hm Hg Hne).
    unfold parsedChoice. rewrite Hp. fold s1.
    destruct choice; try reflexivity. contradiction. }
  rewrite E. split.
  - intros ->. unfold handleDirectResponse, bindD, liftO, generateContent, retD.
    rewrite Hm. subst s1. unfold asking at 1 2. cbn [asked world].
    rewrite length_app, Nat.add_1_r. cbn [List.length].
    destruct (gemini (S (List.length (asked s)))); reflexivity.
  - intros -> Hargs. unfold handleMCPToolCall. rewrite Hargs.
    rewrite orb_true_r. destruct choice; try reflexivity. contradiction.
Qed.

End Choices.

Lemma choices_without_a_tool_call_witness :
  InteractiveMCPDemo.answer Sample.alwaysReset Sample.parseAll
    (Sample.answersThen (stringifyPretty Sample.choiceDirect) "Hello!")
    Sample.demo "Good morning" Sample.session
  = (Returned tt,
     asking
       (asking Sample.session (Some (JStr "gemini-2.5-flash-lite"))
          (InteractiveMCPDemo.toolChoicePrompt
             (JArr [ JObj [ ("name", JStr "search") ] ]) "Good morning"))
       (Some (JStr "gemini-2.5-flash-lite")) "Good morning") /\
  InteractiveMCPDemo.answer Sample.alwaysReset Sample.parseAll
    (Sample.answers (Sample.fenced (stringifyPretty Sample.choiceNoArgs)))
    Sample.demo "What is Amazon Bedrock?" Sample.session
  = (Thrown (Error "Invalid tool choice"),
     asking Sample.session (Some (JStr "gemini-2.5-flash-lite"))
       (InteractiveMCPDemo.toolChoicePrompt
          (JArr [ JObj [ ("name", JStr "search") ] ]) "What is Amazon Bedrock?")).
Proof.
  split.
  - refine (proj1 (choices_without_a_tool_call Sample.alwaysReset Sample.parseAll
                     (Sample.answersThen (stringifyPretty Sample.choiceDirect) "Hello!")
                     Sample.demo "Good morning" (stringifyPretty Sample.choiceDirect)
                     Sample.choiceDirect (Some (JStr "gemini-2.5-flash-lite"))
                     Sample.session eq_refl eq_refl _ _ _) eq_refl).
    + intros E. vm_compute in E. discriminate E.
    + vm_compute. reflexivity.
    + discriminate.
  - refine (proj2 (choices_without_a_tool_call Sample.alwaysReset Sample.parseAll
                     (Sample.answers (Sample.fenced (stringifyPretty Sample.choiceNoArgs)))
                     Sample.demo "What is Amazon Bedrock?"
                     (Sample.fenced (stringifyPretty Sample.choiceNoArgs))
                     Sample.choiceNoArgs (Some (JStr "gemini-2.5-flash-lite"))
                     Sample.session eq_refl eq_refl _ _ _) eq_refl eq_refl).
    + intros E. vm_compute in E. discriminate E.
    + vm_compute. reflexivity.
    + discriminate.
Defined.
